(** * Adaptive baseline and anomaly detection engine of the hive monitor

    A shallow embedding of [learning.cpp] / [learning.h] (with the constants
    of [config.h]) and the properties of the engine that the specification
    states: running statistics, the collecting/established life cycle, the
    hour-by-season pattern grid, the anomaly predicates, the clamped
    thresholds and the binary persistence of the learned state.

    Target of the firmware: Adafruit Feather nRF52840 (32-bit little-endian
    ARM): [float] is IEEE-754 binary32, [int] and [unsigned long] are 32 bits
    wide, [uint16_t] members are 2-byte aligned and structs holding a
    [float] are 4-byte aligned. *)

From Stdlib Require Import ZArith Lia List Bool String.
From Stdlib Require Import Floats.SpecFloat Strings.Byte.
From stdpp Require Import base list.

Local Open Scope Z_scope.

(** ** IEEE-754 binary32

    A C++ [float] is kept as the 32-bit pattern it has in memory, so that
    the persistence code, which copies raw bytes, can be followed exactly.
    Arithmetic decodes the operands, applies the round-to-nearest-even
    operation of the Standard Library's [SpecFloat] at precision 24 and
    re-encodes the result (every NaN result is the quiet NaN 0x7FC00000).
    Expressions are evaluated operation by operation, as written in the
    source (no fused multiply-add contraction). *)
Module F32.

Definition prec : Z := 24.
Definition emax : Z := 128.

Definition float : Type := Z.

Definition sign_bit (s : bool) : Z := if s then 2147483648 else 0.

Definition of_bits (w : float) : spec_float :=
  let s := Z.testbit w 31 in
  let E := Z.land (Z.shiftr w 23) 255 in
  let M := Z.land w 8388607 in
  if E =? 0 then
    match M with
    | Zpos m => S754_finite s m (-149)
    | _ => S754_zero s
    end
  else if E =? 255 then
    (if M =? 0 then S754_infinity s else S754_nan)
  else
    match M + 8388608 with
    | Zpos m => S754_finite s m (E - 150)
    | _ => S754_nan
    end.

Definition to_bits (x : spec_float) : float :=
  match x with
  | S754_zero s => sign_bit s
  | S754_infinity s => sign_bit s + 2139095040
  | S754_nan => 2143289344
  | S754_finite s m e =>
      if 8388608 <=? Zpos m
      then sign_bit s + (e + 150) * 8388608 + (Zpos m - 8388608)
      else sign_bit s + Zpos m
  end.

Definition fadd (a b : float) : float :=
  to_bits (SFadd prec emax (of_bits a) (of_bits b)).
Definition fsub (a b : float) : float :=
  to_bits (SFsub prec emax (of_bits a) (of_bits b)).
Definition fmul (a b : float) : float :=
  to_bits (SFmul prec emax (of_bits a) (of_bits b)).
Definition fdiv (a b : float) : float :=
  to_bits (SFdiv prec emax (of_bits a) (of_bits b)).

(** [sqrt] of [math.h] is called on a [float] and its result is stored in
    a [float]; rounding the binary64 square root of a binary32 number to
    binary32 gives the correctly rounded binary32 square root. *)
Definition fsqrt (a : float) : float :=
  to_bits (SFsqrt prec emax (of_bits a)).

(** Unary minus flips the sign bit. *)
Definition fneg (a : float) : float := Z.lxor a 2147483648.

Definition flt (a b : float) : bool := SFltb (of_bits a) (of_bits b).
Definition fle (a b : float) : bool := SFleb (of_bits a) (of_bits b).
Definition fgt (a b : float) : bool := flt b a.
Definition fge (a b : float) : bool := fle b a.
Definition feq (a b : float) : bool := SFeqb (of_bits a) (of_bits b).

Definition nan : float := 2143289344.       (* 0x7FC00000 *)
Definition pinf : float := 2139095040.      (* 0x7F800000, +infinity *)
Definition ninf : float := 4286578688.      (* 0xFF800000, -infinity *)

Definition is_nan (a : float) : bool :=
  match of_bits a with
  | S754_nan => true
  | _ => false
  end.

(** Conversion of an integer to [float] (round to nearest even). *)
Definition of_int (z : Z) : float :=
  to_bits (binary_normalize prec emax z 0 false).

(** A decimal literal [p/q] with [p] and [q] exactly representable: the
    correctly rounded quotient is the binary32 number nearest to the
    decimal, which is what the compiler stores for the literal. *)
Definition lit (p q : Z) : float := fdiv (of_int p) (of_int q).

Definition INT_MAX : Z := 2147483647.
Definition INT_MIN : Z := -2147483648.

(** The cast [(int)x]: truncation toward zero.  Outside the range of
    [int] the cast is undefined in C++; the conversion instruction of the
    target saturates and sends NaN to 0, which is what is modelled. *)
Definition to_int (a : float) : Z :=
  match of_bits a with
  | S754_zero _ => 0
  | S754_nan => 0
  | S754_infinity s => if s then INT_MIN else INT_MAX
  | S754_finite s m e =>
      Z.max INT_MIN (Z.min INT_MAX (cond_Zopp s (Z.shiftl (Zpos m) e)))
  end.

(** The exact value of a finite pattern is [num / den]. *)
Definition exact (a : float) : option (Z * Z) :=
  match of_bits a with
  | S754_zero _ => Some (0, 1)
  | S754_finite s m e =>
      Some (if 0 <=? e then (cond_Zopp s (Zpos m * 2 ^ e), 1)
            else (cond_Zopp s (Zpos m), 2 ^ (- e)))
  | _ => None
  end.

End F32.

Import F32.

(** ** Arduino.h helper macros

    [learning.cpp] uses [min], [max] and [abs] of the Arduino core header,
    which is not part of the repository.  They are the classic macros
    [min(a,b) ((a)<(b)?(a):(b))], [max(a,b) ((a)>(b)?(a):(b))] and
    [abs(x) ((x)>0?(x):-(x))] (the pattern of [0.0f] is [0]). *)
Definition fmin (a b : float) : float := if flt a b then a else b.
Definition fmax (a b : float) : float := if fgt a b then a else b.
Definition fabs (x : float) : float := if fgt x 0 then x else fneg x.

(** ** Constants of config.h and learning.h *)

Definition NUM_AUDIO_BANDS : nat := 4.

Definition THRESH_B1 : float := Eval vm_compute in lit 6 10.
Definition THRESH_B2 : float := Eval vm_compute in lit 4 10.
Definition THRESH_B3 : float := Eval vm_compute in lit 3 10.
Definition THRESH_B4 : float := Eval vm_compute in lit 2 10.
Definition MIN_AUDIO_THRESHOLD : float := Eval vm_compute in lit 5 100.

Definition TEMP_ALERT_LOW : float := Eval vm_compute in of_int 30.
Definition TEMP_ALERT_HIGH : float := Eval vm_compute in of_int 38.
Definition HUM_ALERT_LOW : float := Eval vm_compute in of_int 50.
Definition HUM_ALERT_HIGH : float := Eval vm_compute in of_int 70.
Definition MIN_SAFE_TEMP : float := Eval vm_compute in of_int 25.
Definition MAX_SAFE_TEMP : float := Eval vm_compute in of_int 42.
Definition MIN_SAFE_HUMIDITY : float := Eval vm_compute in of_int 30.
Definition MAX_SAFE_HUMIDITY : float := Eval vm_compute in of_int 90.

Definition TEMP_ANOMALY_THRESHOLD : float := Eval vm_compute in of_int 3.
Definition HUMIDITY_ANOMALY_THRESHOLD : float := Eval vm_compute in of_int 3.
Definition WEIGHT_ANOMALY_THRESHOLD : float := Eval vm_compute in lit 35 10.
Definition WEIGHT_CHANGE_THRESHOLD : float := Eval vm_compute in of_int 2.

Definition LEARNING_SAMPLES_MIN : Z := 100.
Definition LEARNING_ADAPTATION_RATE : float := Eval vm_compute in lit 5 100.
Definition LEARNING_UPDATE_INTERVAL : Z := 50.
Definition LEARNING_SAVE_INTERVAL : Z := 20.

(** Frequently used literals. *)
Definition f0 : float := Eval vm_compute in of_int 0.
Definition f1 : float := Eval vm_compute in of_int 1.
Definition f2 : float := Eval vm_compute in of_int 2.
Definition f5 : float := Eval vm_compute in of_int 5.
Definition f10 : float := Eval vm_compute in of_int 10.
Definition f35 : float := Eval vm_compute in of_int 35.
Definition f41 : float := Eval vm_compute in of_int 41.
Definition f41_01 : float := Eval vm_compute in lit 4101 100.
Definition f50 : float := Eval vm_compute in of_int 50.
Definition f60 : float := Eval vm_compute in of_int 60.
Definition f0_5 : float := Eval vm_compute in lit 5 10.
Definition f0_1 : float := Eval vm_compute in lit 1 10.
Definition f0_2 : float := Eval vm_compute in lit 2 10.
Definition f0_8 : float := Eval vm_compute in lit 8 10.
Definition f0_01 : float := Eval vm_compute in lit 1 100.
Definition f2_5 : float := Eval vm_compute in lit 25 10.
Definition f3 : float := Eval vm_compute in of_int 3.
Definition f0_7 : float := Eval vm_compute in lit 7 10.
Definition f1_5 : float := Eval vm_compute in lit 15 10.
Definition f1_8 : float := Eval vm_compute in lit 18 10.
Definition f1013_25 : float := Eval vm_compute in lit 101325 100.

(** Widths of the integer types. *)
Definition UINT8_MOD : Z := 256.
Definition UINT16_MOD : Z := 65536.
Definition ULONG_MOD : Z := 4294967296.
Definition FLOAT_MOD : Z := 4294967296.

(** ** Data model (learning.h) *)

Record SensorBaseline := mkSensorBaseline {
  tempMean : float;
  tempStdDev : float;
  humidityMean : float;
  humidityStdDev : float;
  pressureMean : float;
  pressureStdDev : float;
  weightMean : float;
  weightStdDev : float;
  weightDailyDelta : float;
  audioEnergy : list float;   (* float audioEnergy[NUM_AUDIO_BANDS] *)
  audioStdDev : list float    (* float audioStdDev[NUM_AUDIO_BANDS] *)
}.

Record DailyPattern := mkDailyPattern {
  activityLevel : float;
  tempOffset : float;
  humidityOffset : float;
  sampleCount : Z             (* uint16_t *)
}.

Record RunningStats := mkRunningStats {
  count_ : Z;                 (* unsigned long *)
  mean_ : float;
  M2_ : float
}.

(** ** RunningStats *)
Module RunningStats.

(** The constructor [RunningStats() : count_(0), mean_(0), M2_(0)]. *)
Definition init : RunningStats :=
  {| count_ := 0; mean_ := f0; M2_ := f0 |}.

Definition reset (r : RunningStats) : RunningStats :=
  {| count_ := 0; mean_ := f0; M2_ := f0 |}.

Definition addSample (value : float) (r : RunningStats) : RunningStats :=
  let count' := (count_ r + 1) mod ULONG_MOD in
  let delta := fsub value (mean_ r) in
  let mean' := fadd (mean_ r) (fdiv delta (of_int count')) in
  let delta2 := fsub value mean' in
  {| count_ := count'; mean_ := mean';
     M2_ := fadd (M2_ r) (fmul delta delta2) |}.

(** [count_ * keepRatio] is a [float] product, cast to [int]; [max] is
    the macro on two [int]s; the result is stored in [unsigned long]. *)
Definition partialReset (keepRatio : float) (r : RunningStats)
  : RunningStats :=
  if 0 <? count_ r then
    {| count_ :=
         Z.max 1 (to_int (fmul (of_int (count_ r)) keepRatio)) mod ULONG_MOD;
       mean_ := mean_ r;
       M2_ := M2_ r |}
  else r.

Definition setStats (mean stdDev : float) (r : RunningStats)
  : RunningStats :=
  let count' := 30 in
  {| count_ := count'; mean_ := mean;
     M2_ := fmul (fmul stdDev stdDev) (of_int (count' - 1)) |}.

Definition mean (r : RunningStats) : float :=
  if 0 <? count_ r then mean_ r else f0.

(** [count_ - 1] is computed in [unsigned long] and converted to
    [float]; the branch is taken only when it does not wrap. *)
Definition variance (r : RunningStats) : float :=
  if 1 <? count_ r
  then fdiv (M2_ r) (of_int ((count_ r - 1) mod ULONG_MOD))
  else f0.

Definition standardDeviation (r : RunningStats) : float :=
  fsqrt (variance r).

Definition count (r : RunningStats) : Z := count_ r.

End RunningStats.

(** ** Inputs of a measurement cycle

    Only the members that the engine reads are kept: [MotionData] also has
    gyroscope and magnetometer members, [LightData] colour channels and a
    status, and [DateTime] the rest of the calendar. *)
Record EnvData := mkEnvData {
  temperature : float;
  humidity : float;
  pressure : float
}.

Record MotionData := mkMotionData {
  accelX : float;
  accelY : float;
  accelZ : float
}.

Record LightData := mkLightData {
  lightLevel : Z              (* uint16_t *)
}.

Record DateTime := mkDateTime {
  dt_hour : Z;                (* DateTime::hour(), uint8_t *)
  dt_month : Z                (* DateTime::month(), uint8_t *)
}.

(** ** State of learning.cpp (its file-level statics) *)
Record Learning := mkLearning {
  colonyBaseline : SensorBaseline;
  baselineEstablished : bool;
  learningSampleCount : Z;    (* uint16_t *)
  currentSeason : Z;          (* uint8_t *)
  tempStats : RunningStats;
  humidityStats : RunningStats;
  pressureStats : RunningStats;
  weightStats : RunningStats;
  audioStats : list RunningStats;   (* RunningStats audioStats[4] *)
  lightStats : RunningStats;
  motionStats : RunningStats;
  dailyPatterns : list DailyPattern (* dailyPatterns[24][4], row-major *)
}.

Definition set_colonyBaseline (b : SensorBaseline) (L : Learning) :=
  mkLearning b (baselineEstablished L) (learningSampleCount L)
    (currentSeason L) (tempStats L) (humidityStats L) (pressureStats L)
    (weightStats L) (audioStats L) (lightStats L) (motionStats L)
    (dailyPatterns L).

Definition set_baselineEstablished (e : bool) (L : Learning) :=
  mkLearning (colonyBaseline L) e (learningSampleCount L)
    (currentSeason L) (tempStats L) (humidityStats L) (pressureStats L)
    (weightStats L) (audioStats L) (lightStats L) (motionStats L)
    (dailyPatterns L).

Definition set_learningSampleCount (n : Z) (L : Learning) :=
  mkLearning (colonyBaseline L) (baselineEstablished L) n
    (currentSeason L) (tempStats L) (humidityStats L) (pressureStats L)
    (weightStats L) (audioStats L) (lightStats L) (motionStats L)
    (dailyPatterns L).

Definition set_currentSeason (s : Z) (L : Learning) :=
  mkLearning (colonyBaseline L) (baselineEstablished L)
    (learningSampleCount L) s (tempStats L) (humidityStats L)
    (pressureStats L) (weightStats L) (audioStats L) (lightStats L)
    (motionStats L) (dailyPatterns L).

Definition set_dailyPatterns (ps : list DailyPattern) (L : Learning) :=
  mkLearning (colonyBaseline L) (baselineEstablished L)
    (learningSampleCount L) (currentSeason L) (tempStats L)
    (humidityStats L) (pressureStats L) (weightStats L) (audioStats L)
    (lightStats L) (motionStats L) ps.

(** Replaces the seven groups of running statistics at once. *)
Definition set_stats (t h p w : RunningStats) (a : list RunningStats)
    (l m : RunningStats) (L : Learning) :=
  mkLearning (colonyBaseline L) (baselineEstablished L)
    (learningSampleCount L) (currentSeason L) t h p w a l m
    (dailyPatterns L).

(** ** The SD card and the serial console

    [sdCardAvailable] is the static of data_logging.cpp behind
    [isSDCardAvailable()].  Of the card only the file LEARN.DAT is kept
    ([None]: the file does not exist); [sd_open_ok] tells whether [SD.open]
    hands out a usable [File].  LEARN.JSN, the diagnostic mirror written by
    [saveJsonParameters], is never read by the firmware and is left out.

    [serial] is the console transcript; it records, oldest first, the lines
    printed by [Serial.println] of a string literal that stand alone on
    their line (the numeric dumps are not recorded). *)
Record SDCard := mkSDCard {
  sdCardAvailable : bool;
  sd_open_ok : bool;
  learn_dat : option (list byte)
}.

Record World := mkWorld {
  eng : Learning;
  card : SDCard;
  serial : list string
}.

Definition upd_eng (f : Learning -> Learning) (w : World) : World :=
  mkWorld (f (eng w)) (card w) (serial w).

Definition println (line : string) (w : World) : World :=
  mkWorld (eng w) (card w) (serial w ++ [line]).

Definition isSDCardAvailable (w : World) : bool := sdCardAvailable (card w).

(** The real-time clock behind [rtcIsRunning()] and [getRTCTime()]. *)
Record RTC := mkRTC {
  rtcIsRunning : bool;
  getRTCTime : DateTime
}.

(** ** Memory images

    The persistence code writes and reads the objects as raw bytes (the
    address of [colonyBaseline] cast to a byte pointer, with
    [sizeof(SensorBaseline)] as length).  On the target
    every scalar is little-endian; [SensorBaseline] is 17 floats (68 bytes);
    a [DailyPattern] is three floats, the [uint16_t] counter and two bytes
    of tail padding (16 bytes); the grid is 96 such cells. *)

Definition byte_of_Z (z : Z) : byte :=
  match Byte.of_N (Z.to_N (z mod 256)) with
  | Some b => b
  | None => x00
  end.

Definition Z_of_byte (b : byte) : Z := Z.of_N (Byte.to_N b).

Fixpoint encode_le (n : nat) (w : Z) : list byte :=
  match n with
  | O => []
  | S k => byte_of_Z w :: encode_le k (w / 256)
  end.

Definition decode_le (bs : list byte) : Z :=
  fold_right (fun b acc => Z_of_byte b + 256 * acc) 0 bs.

Definition sizeof_float : nat := 4.
Definition sizeof_SensorBaseline : nat := 68.
Definition sizeof_DailyPattern : nat := 16.
Definition GRID_HOURS : nat := 24.
Definition GRID_SEASONS : nat := 4.
Definition GRID_CELLS : nat := 96.
Definition sizeof_dailyPatterns : nat := 1536.
Definition sizeof_learningSampleCount : nat := 2.
Definition sizeof_currentSeason : nat := 1.

Definition bytes_of_floats (fs : list float) : list byte :=
  concat (map (encode_le sizeof_float) fs).

(** The float stored at word offset [i] of a memory image. *)
Definition float_at (m : list byte) (i : nat) : float :=
  decode_le (take sizeof_float (drop (sizeof_float * i) m)).

Definition bytes_of_SensorBaseline (b : SensorBaseline) : list byte :=
  bytes_of_floats
    ([tempMean b; tempStdDev b; humidityMean b; humidityStdDev b;
      pressureMean b; pressureStdDev b; weightMean b; weightStdDev b;
      weightDailyDelta b] ++ audioEnergy b ++ audioStdDev b).

Definition SensorBaseline_of_bytes (m : list byte) : SensorBaseline :=
  {| tempMean := float_at m 0;
     tempStdDev := float_at m 1;
     humidityMean := float_at m 2;
     humidityStdDev := float_at m 3;
     pressureMean := float_at m 4;
     pressureStdDev := float_at m 5;
     weightMean := float_at m 6;
     weightStdDev := float_at m 7;
     weightDailyDelta := float_at m 8;
     audioEnergy := map (float_at m) (seq 9 NUM_AUDIO_BANDS);
     audioStdDev := map (float_at m) (seq 13 NUM_AUDIO_BANDS) |}.

(** The two bytes of tail padding are written as zero: the statics are
    zero-initialised and member assignments do not touch padding.  No
    function of the firmware looks at them. *)
Definition bytes_of_DailyPattern (p : DailyPattern) : list byte :=
  encode_le sizeof_float (activityLevel p)
  ++ encode_le sizeof_float (tempOffset p)
  ++ encode_le sizeof_float (humidityOffset p)
  ++ encode_le 2 (sampleCount p)
  ++ [x00; x00].

Definition DailyPattern_of_bytes (m : list byte) : DailyPattern :=
  {| activityLevel := float_at m 0;
     tempOffset := float_at m 1;
     humidityOffset := float_at m 2;
     sampleCount := decode_le (take 2 (drop 12 m)) |}.

Definition bytes_of_dailyPatterns (ps : list DailyPattern) : list byte :=
  concat (map bytes_of_DailyPattern ps).

Fixpoint dailyPatterns_of_bytes (cells : nat) (m : list byte)
  : list DailyPattern :=
  match cells with
  | O => []
  | S k =>
      DailyPattern_of_bytes (take sizeof_DailyPattern m)
      :: dailyPatterns_of_bytes k (drop sizeof_DailyPattern m)
  end.

(** ** Files of the SD library

    SD.h is not part of the repository.  [FILE_WRITE] is
    [O_READ | O_WRITE | O_CREAT | O_APPEND]: the file is created when it is
    missing and every write goes to the end of what it already holds (the
    log functions of data_logging.cpp rely on exactly this to add one line
    per cycle to the log of the day); [FILE_READ] starts at offset 0.
    [File::read(buf, n)] copies the bytes that are available from the
    current position, at most [n], over the beginning of [buf] and leaves
    the rest of [buf] as it was. *)
Record File := mkFile {
  f_data : list byte;
  f_pos : nat
}.

Definition SD_exists (c : SDCard) : bool :=
  match learn_dat c with
  | Some _ => true
  | None => false
  end.

Definition SD_open_FILE_WRITE (c : SDCard) : option File :=
  if sd_open_ok c then
    let d := match learn_dat c with Some d => d | None => [] end in
    Some (mkFile d (length d))
  else None.

Definition SD_open_FILE_READ (c : SDCard) : option File :=
  if sd_open_ok c then
    match learn_dat c with
    | Some d => Some (mkFile d 0)
    | None => None
    end
  else None.

Definition file_write (bs : list byte) (f : File) : File :=
  mkFile (f_data f ++ bs) (length (f_data f ++ bs)).

(** [file_read n buf f]: the buffer after the read, and the file. *)
Definition file_read (n : nat) (buf : list byte) (f : File)
  : list byte * File :=
  let chunk := take n (drop (f_pos f) (f_data f)) in
  (chunk ++ drop (length chunk) buf,
   mkFile (f_data f) (f_pos f + length chunk)).

(** Closing a written file leaves its contents on the card. *)
Definition file_close (f : File) (c : SDCard) : SDCard :=
  mkSDCard (sdCardAvailable c) (sd_open_ok c) (Some (f_data f)).

(** ** The learning engine (learning.cpp) *)

#[export] Instance RunningStats_inhabited : Inhabited RunningStats :=
  populate RunningStats.init.

#[export] Instance DailyPattern_inhabited : Inhabited DailyPattern :=
  populate (mkDailyPattern 0 0 0 0).

(** [for (int i = 0; i < NUM_AUDIO_BANDS; i++) body(i)] over a state. *)
Definition for_bands {A : Type} (body : nat -> A -> A) (a : A) : A :=
  foldl (fun acc i => body i acc) a (seq 0 NUM_AUDIO_BANDS).

(** Offset of [dailyPatterns[hour][season]] in the row-major grid.  An
    index outside the grid is undefined behaviour in C++; here a read then
    yields a zero cell and a write is dropped.  The callers pass
    [DateTime::hour()] and [getSeason], which stay inside the grid. *)
Definition cell_index (hour season : Z) : nat :=
  Z.to_nat (hour * Z.of_nat GRID_SEASONS + season).

Definition printBaseline (w : World) : World :=
  println "Audio bands:" (println "Current Baseline Values:" w).

Definition default_baseline : SensorBaseline :=
  {| tempMean := f35;
     tempStdDev := f2;
     humidityMean := f60;
     humidityStdDev := f5;
     pressureMean := f1013_25;
     pressureStdDev := f5;
     weightMean := f0;
     weightStdDev := f1;
     weightDailyDelta := f0_2;
     audioEnergy := [THRESH_B1; THRESH_B2; THRESH_B3; THRESH_B4];
     audioStdDev := replicate NUM_AUDIO_BANDS f0_1 |}.

Definition default_pattern : DailyPattern :=
  {| activityLevel := f0_5; tempOffset := f0; humidityOffset := f0;
     sampleCount := 0 |}.

Definition resetLearningSystem (L : Learning) : Learning :=
  {| colonyBaseline := default_baseline;
     baselineEstablished := false;
     learningSampleCount := 0;
     currentSeason := currentSeason L;
     tempStats := RunningStats.reset (tempStats L);
     humidityStats := RunningStats.reset (humidityStats L);
     pressureStats := RunningStats.reset (pressureStats L);
     weightStats := RunningStats.reset (weightStats L);
     audioStats :=
       for_bands (fun i a => <[i := RunningStats.reset (a !!! i)]> a)
         (audioStats L);
     lightStats := RunningStats.reset (lightStats L);
     motionStats := RunningStats.reset (motionStats L);
     dailyPatterns := replicate GRID_CELLS default_pattern |}.

(** The statics as the C++ runtime initialises them before [setup]. *)
Definition initial_Learning : Learning :=
  {| colonyBaseline :=
       mkSensorBaseline 0 0 0 0 0 0 0 0 0
         (replicate NUM_AUDIO_BANDS 0) (replicate NUM_AUDIO_BANDS 0);
     baselineEstablished := false;
     learningSampleCount := 0;
     currentSeason := 0;
     tempStats := RunningStats.init;
     humidityStats := RunningStats.init;
     pressureStats := RunningStats.init;
     weightStats := RunningStats.init;
     audioStats := replicate NUM_AUDIO_BANDS RunningStats.init;
     lightStats := RunningStats.init;
     motionStats := RunningStats.init;
     dailyPatterns := replicate GRID_CELLS (mkDailyPattern 0 0 0 0) |}.

Definition getSeason (month : Z) : Z :=
  if (month =? 12) || (month =? 1) || (month =? 2) then 0
  else if (3 <=? month) && (month <=? 5) then 1
  else if (6 <=? month) && (month <=? 8) then 2
  else 3.

(** The adaptation rate of a cell,
    [min(0.5f, 5.0f / (pattern->sampleCount + 10.0f))]. *)
Definition adaptRate_of (sampleCount : Z) : float :=
  fmin f0_5 (fdiv f5 (fadd (of_int sampleCount) f10)).

(** [(1-adaptRate) * old + adaptRate * target]. *)
Definition blend (adaptRate old target : float) : float :=
  fadd (fmul (fsub f1 adaptRate) old) (fmul adaptRate target).

Definition updateDailyPattern (hour season : Z)
    (activity temp humidity : float) (L : Learning) : Learning :=
  let i := cell_index hour season in
  match dailyPatterns L !! i with
  | Some pattern =>
      let adaptRate := adaptRate_of (sampleCount pattern) in
      let pattern' :=
        {| activityLevel := blend adaptRate (activityLevel pattern) activity;
           tempOffset :=
             blend adaptRate (tempOffset pattern)
               (fsub temp (tempMean (colonyBaseline L)));
           humidityOffset :=
             blend adaptRate (humidityOffset pattern)
               (fsub humidity (humidityMean (colonyBaseline L)));
           sampleCount := (sampleCount pattern + 1) mod UINT16_MOD |} in
      set_dailyPatterns (<[i := pattern']> (dailyPatterns L)) L
  | None => L
  end.

Definition updateBaseline (w : World) : World :=
  let L := eng w in
  let b := colonyBaseline L in
  let b' :=
    {| tempMean := RunningStats.mean (tempStats L);
       tempStdDev := RunningStats.standardDeviation (tempStats L);
       humidityMean := RunningStats.mean (humidityStats L);
       humidityStdDev := RunningStats.standardDeviation (humidityStats L);
       pressureMean := RunningStats.mean (pressureStats L);
       pressureStdDev := RunningStats.standardDeviation (pressureStats L);
       weightMean := RunningStats.mean (weightStats L);
       weightStdDev := RunningStats.standardDeviation (weightStats L);
       weightDailyDelta := weightDailyDelta b;
       audioEnergy :=
         for_bands
           (fun i a => <[i := RunningStats.mean (audioStats L !!! i)]> a)
           (audioEnergy b);
       audioStdDev :=
         for_bands
           (fun i a =>
              <[i := RunningStats.standardDeviation (audioStats L !!! i)]> a)
           (audioStdDev b) |} in
  printBaseline (upd_eng (set_colonyBaseline b') w).

Definition updateBaselineAdaptive (w : World) : World :=
  let L := eng w in
  let b := colonyBaseline L in
  let adaptRate := LEARNING_ADAPTATION_RATE in
  let keep := fsub f1 adaptRate in
  let b' :=
    {| tempMean :=
         fadd (fmul keep (tempMean b))
              (fmul adaptRate (RunningStats.mean (tempStats L)));
       tempStdDev :=
         fadd (fmul keep (tempStdDev b))
              (fmul adaptRate (RunningStats.standardDeviation (tempStats L)));
       humidityMean :=
         fadd (fmul keep (humidityMean b))
              (fmul adaptRate (RunningStats.mean (humidityStats L)));
       humidityStdDev :=
         fadd (fmul keep (humidityStdDev b))
              (fmul adaptRate
                 (RunningStats.standardDeviation (humidityStats L)));
       pressureMean :=
         fadd (fmul keep (pressureMean b))
              (fmul adaptRate (RunningStats.mean (pressureStats L)));
       pressureStdDev := pressureStdDev b;
       weightMean :=
         fadd (fmul (fsub f1 (fdiv adaptRate f2)) (weightMean b))
              (fmul (fdiv adaptRate f2) (RunningStats.mean (weightStats L)));
       weightStdDev := weightStdDev b;
       weightDailyDelta := weightDailyDelta b;
       audioEnergy :=
         for_bands
           (fun i a =>
              <[i := fadd (fmul (fsub f1 (fmul adaptRate f2)) (a !!! i))
                          (fmul (fmul adaptRate f2)
                             (RunningStats.mean (audioStats L !!! i)))]> a)
           (audioEnergy b);
       audioStdDev :=
         for_bands
           (fun i a =>
              <[i := fadd (fmul keep (a !!! i))
                          (fmul adaptRate
                             (RunningStats.standardDeviation
                                (audioStats L !!! i)))]> a)
           (audioStdDev b) |} in
  let L' :=
    set_stats
      (RunningStats.reset (tempStats L))
      (RunningStats.reset (humidityStats L))
      (RunningStats.reset (pressureStats L))
      (RunningStats.partialReset f0_8 (weightStats L))
      (<[3%nat := RunningStats.reset (audioStats L !!! 3%nat)]>
         (<[2%nat := RunningStats.reset (audioStats L !!! 2%nat)]>
            (<[1%nat := RunningStats.reset (audioStats L !!! 1%nat)]>
               (<[0%nat := RunningStats.reset (audioStats L !!! 0%nat)]>
                  (audioStats L)))))
      (lightStats L) (motionStats L)
      (set_colonyBaseline b' L) in
  printBaseline
    (println "Updated adaptive baseline:"
       (mkWorld L' (card w) (serial w))).

(** ** Persistence *)

Definition saveLearnedParameters (w : World) : bool * World :=
  if negb (isSDCardAvailable w) then
    (false, println "Cannot save learning data - SD card not available" w)
  else
    match SD_open_FILE_WRITE (card w) with
    | Some dataFile =>
        let L := eng w in
        let dataFile :=
          file_write (bytes_of_SensorBaseline (colonyBaseline L)) dataFile in
        let dataFile :=
          file_write (bytes_of_dailyPatterns (dailyPatterns L)) dataFile in
        let dataFile :=
          file_write
            (encode_le sizeof_learningSampleCount (learningSampleCount L))
            dataFile in
        let dataFile :=
          file_write (encode_le sizeof_currentSeason (currentSeason L))
            dataFile in
        (true,
         println "Learning data saved"
           (mkWorld L (file_close dataFile (card w)) (serial w)))
    | None =>
        (false, println "Failed to open learning data file for writing" w)
    end.

Definition loadLearnedParameters (w : World) : bool * World :=
  if negb (isSDCardAvailable w) then (false, w)
  else if negb (SD_exists (card w)) then
    (false, println "No learning data file found" w)
  else
    match SD_open_FILE_READ (card w) with
    | Some dataFile =>
        let L := eng w in
        let '(m_baseline, dataFile) :=
          file_read sizeof_SensorBaseline
            (bytes_of_SensorBaseline (colonyBaseline L)) dataFile in
        let '(m_patterns, dataFile) :=
          file_read sizeof_dailyPatterns
            (bytes_of_dailyPatterns (dailyPatterns L)) dataFile in
        let '(m_count, dataFile) :=
          file_read sizeof_learningSampleCount
            (encode_le sizeof_learningSampleCount (learningSampleCount L))
            dataFile in
        let '(m_season, dataFile) :=
          file_read sizeof_currentSeason
            (encode_le sizeof_currentSeason (currentSeason L)) dataFile in
        let b := SensorBaseline_of_bytes m_baseline in
        let L' :=
          {| colonyBaseline := b;
             baselineEstablished := baselineEstablished L;
             learningSampleCount :=
               decode_le (take sizeof_learningSampleCount m_count);
             currentSeason := decode_le (take sizeof_currentSeason m_season);
             tempStats :=
               RunningStats.setStats (tempMean b) (tempStdDev b) (tempStats L);
             humidityStats :=
               RunningStats.setStats (humidityMean b) (humidityStdDev b)
                 (humidityStats L);
             pressureStats :=
               RunningStats.setStats (pressureMean b) (pressureStdDev b)
                 (pressureStats L);
             weightStats :=
               RunningStats.setStats (weightMean b) (weightStdDev b)
                 (weightStats L);
             audioStats :=
               for_bands
                 (fun i a =>
                    <[i := RunningStats.setStats (audioEnergy b !!! i)
                             (audioStdDev b !!! i) (a !!! i)]> a)
                 (audioStats L);
             lightStats := lightStats L;
             motionStats := motionStats L;
             dailyPatterns := dailyPatterns_of_bytes GRID_CELLS m_patterns |} in
        (true, printBaseline (mkWorld L' (card w) (serial w)))
    | None => (false, println "Failed to open learning data file" w)
    end.

(** ** Start-up *)

Definition setupLearning (rtc : RTC) (w : World) : World :=
  let w := println "Initializing learning system..." w in
  let '(loaded, w) := loadLearnedParameters w in
  let w :=
    if loaded then
      upd_eng (set_baselineEstablished true)
        (println "Loaded existing learning parameters" w)
    else
      upd_eng resetLearningSystem
        (println "No saved learning data, starting with defaults" w) in
  let season :=
    if rtcIsRunning rtc then getSeason (dt_month (getRTCTime rtc)) else 0 in
  upd_eng (set_currentSeason season) w.

(** ** One measurement cycle *)

(** Lines 122-153 of [updateLearningModel]: the counter, the running
    statistics and the pattern cell of the current hour and season. *)
Definition feedSample (envData : EnvData) (audio : list float)
    (motionData : MotionData) (lightData : LightData) (weight : float)
    (timestamp : DateTime) (L : Learning) : Learning :=
  let L := set_learningSampleCount
             ((learningSampleCount L + 1) mod UINT16_MOD) L in
  let motionMag :=
    fsqrt (fadd (fadd (fmul (accelX motionData) (accelX motionData))
                      (fmul (accelY motionData) (accelY motionData)))
                (fmul (accelZ motionData) (accelZ motionData))) in
  let L :=
    set_stats
      (RunningStats.addSample (temperature envData) (tempStats L))
      (RunningStats.addSample (humidity envData) (humidityStats L))
      (RunningStats.addSample (pressure envData) (pressureStats L))
      (RunningStats.addSample weight (weightStats L))
      (for_bands
         (fun i a => <[i := RunningStats.addSample (audio !!! i) (a !!! i)]> a)
         (audioStats L))
      (RunningStats.addSample (of_int (lightLevel lightData)) (lightStats L))
      (RunningStats.addSample motionMag (motionStats L))
      L in
  let hour := dt_hour timestamp in
  let season := getSeason (dt_month timestamp) in
  let activity :=
    fadd (fmul (fdiv (audio !!! 0%nat)
                     (audioEnergy (colonyBaseline L) !!! 0%nat)) f0_8)
         (fmul (fdiv motionMag (RunningStats.mean (motionStats L))) f0_2) in
  updateDailyPattern hour season activity (temperature envData)
    (humidity envData) L.

(** Lines 156-161: the guard of the first baseline and its body. *)
Definition establish_due (L : Learning) : bool :=
  (LEARNING_SAMPLES_MIN <=? learningSampleCount L)
  && negb (baselineEstablished L).

Definition establishBaseline (w : World) : World :=
  let w := updateBaseline w in
  let w := upd_eng (set_baselineEstablished true) w in
  let w := println "Baseline established!" w in
  snd (saveLearnedParameters w).

(** Lines 163-172: the periodic adaptation and the periodic save. *)
Definition periodicUpdates (w : World) : World :=
  let w :=
    if baselineEstablished (eng w)
       && (learningSampleCount (eng w) mod LEARNING_UPDATE_INTERVAL =? 0)
    then snd (saveLearnedParameters (updateBaselineAdaptive w))
    else w in
  let w :=
    if learningSampleCount (eng w) mod LEARNING_SAVE_INTERVAL =? 0
    then snd (saveLearnedParameters w)
    else w in
  w.

Definition updateLearningModel (envData : EnvData) (audio : list float)
    (motionData : MotionData) (lightData : LightData) (weight : float)
    (timestamp : DateTime) (w : World) : World :=
  let w :=
    upd_eng (feedSample envData audio motionData lightData weight timestamp)
      w in
  let w := if establish_due (eng w) then establishBaseline w else w in
  periodicUpdates w.

Definition isBaselineEstablished (w : World) : bool :=
  baselineEstablished (eng w).

(** [min(99, (learningSampleCount * 100) / LEARNING_SAMPLES_MIN)], in
    [int], returned as [uint8_t]. *)
Definition getLearningProgress (w : World) : Z :=
  if baselineEstablished (eng w) then 100
  else Z.min 99 (learningSampleCount (eng w) * 100 / LEARNING_SAMPLES_MIN)
       mod UINT8_MOD.

(** ** Anomaly detection *)

Definition pattern_at (L : Learning) (hour : Z) : DailyPattern :=
  dailyPatterns L !!! cell_index hour (currentSeason L).

Definition expectedTemp (L : Learning) (hour : Z) : float :=
  fadd (tempMean (colonyBaseline L)) (tempOffset (pattern_at L hour)).

Definition tempZScore (L : Learning) (temperature : float) (hour : Z)
  : float :=
  fdiv (fsub temperature (expectedTemp L hour))
       (tempStdDev (colonyBaseline L)).

Definition isTemperatureAnomaly (L : Learning) (temperature : float)
    (hour : Z) : bool :=
  fgt (fabs (tempZScore L temperature hour)) TEMP_ANOMALY_THRESHOLD.

Definition humidityZScore (L : Learning) (humidity : float) (hour : Z)
  : float :=
  let expectedHumidity :=
    fadd (humidityMean (colonyBaseline L))
         (humidityOffset (pattern_at L hour)) in
  fdiv (fsub humidity expectedHumidity) (humidityStdDev (colonyBaseline L)).

Definition isHumidityAnomaly (L : Learning) (humidity : float) (hour : Z)
  : bool :=
  fgt (fabs (humidityZScore L humidity hour)) HUMIDITY_ANOMALY_THRESHOLD.

(** The divisor of the z-score of band [i]. *)
Definition audioDivisor (L : Learning) (i : nat) : float :=
  fmax f0_01 (audioStdDev (colonyBaseline L) !!! i).

Definition audioZScore (L : Learning) (audioLevels : list float) (i : nat)
  : float :=
  fdiv (fsub (audioLevels !!! i) (audioEnergy (colonyBaseline L) !!! i))
       (audioDivisor L i).

(** The loop of [isAudioAnomaly] from band [i] on, [n] bands left. *)
Fixpoint audioAnomalyFrom (L : Learning) (audioLevels : list float)
    (i n : nat) : bool :=
  match n with
  | O => false
  | S k =>
      let zScore := audioZScore L audioLevels i in
      let threshold := if Nat.eqb i 0 then f3 else f2_5 in
      if fgt (fabs zScore) threshold then true
      else audioAnomalyFrom L audioLevels (S i) k
  end.

Definition isAudioAnomaly (L : Learning) (audioLevels : list float) : bool :=
  audioAnomalyFrom L audioLevels 0 NUM_AUDIO_BANDS.

Definition weightZScore (L : Learning) (weight : float) : float :=
  fdiv (fsub weight (weightMean (colonyBaseline L)))
       (weightStdDev (colonyBaseline L)).

Definition isWeightAnomaly (L : Learning) (weight previousWeight : float)
  : bool :=
  let change := fsub weight previousWeight in
  if fgt (fabs change)
         (fmul WEIGHT_CHANGE_THRESHOLD (weightStdDev (colonyBaseline L)))
  then true
  else if fgt (fabs (weightZScore L weight)) WEIGHT_ANOMALY_THRESHOLD
  then true
  else false.

(** ** Adapted thresholds: the pair (low, high) stored through the two
    pointer arguments. *)

Definition tempLowUnclamped (L : Learning) (hour : Z) : float :=
  let seasonalOffset := tempOffset (pattern_at L hour) in
  let b := colonyBaseline L in
  fsub (fadd (fadd TEMP_ALERT_LOW (fsub (tempMean b) f35)) seasonalOffset)
       (tempStdDev b).

Definition tempHighUnclamped (L : Learning) (hour : Z) : float :=
  let seasonalOffset := tempOffset (pattern_at L hour) in
  let b := colonyBaseline L in
  fadd (fadd (fadd TEMP_ALERT_HIGH (fsub (tempMean b) f35)) seasonalOffset)
       (tempStdDev b).

Definition getAdaptedTempThresholds (L : Learning) (hour : Z)
  : float * float :=
  (fmax MIN_SAFE_TEMP (tempLowUnclamped L hour),
   fmin MAX_SAFE_TEMP (tempHighUnclamped L hour)).

Definition humidityLowUnclamped (L : Learning) (hour : Z) : float :=
  let seasonalOffset := humidityOffset (pattern_at L hour) in
  fsub (fadd HUM_ALERT_LOW seasonalOffset)
       (humidityStdDev (colonyBaseline L)).

Definition humidityHighUnclamped (L : Learning) (hour : Z) : float :=
  let seasonalOffset := humidityOffset (pattern_at L hour) in
  fadd (fadd HUM_ALERT_HIGH seasonalOffset)
       (humidityStdDev (colonyBaseline L)).

Definition getAdaptedHumidityThresholds (L : Learning) (hour : Z)
  : float * float :=
  (fmax MIN_SAFE_HUMIDITY (humidityLowUnclamped L hour),
   fmin MAX_SAFE_HUMIDITY (humidityHighUnclamped L hour)).

Definition getAdaptedAudioThresholds (L : Learning) : list float :=
  let e := audioEnergy (colonyBaseline L) in
  [fmax MIN_AUDIO_THRESHOLD (fmul (e !!! 0%nat) f0_7);
   fmax MIN_AUDIO_THRESHOLD (fmul (e !!! 1%nat) f1_5);
   fmax MIN_AUDIO_THRESHOLD (fmul (e !!! 2%nat) f1_5);
   fmax MIN_AUDIO_THRESHOLD (fmul (e !!! 3%nat) f1_8)].

(** ** Runs of measurement cycles *)

Record Cycle := mkCycle {
  c_env : EnvData;
  c_audio : list float;
  c_motion : MotionData;
  c_light : LightData;
  c_weight : float;
  c_time : DateTime
}.

Definition cycle (c : Cycle) (w : World) : World :=
  updateLearningModel (c_env c) (c_audio c) (c_motion c) (c_light c)
    (c_weight c) (c_time c) w.

Definition run (cs : list Cycle) (w : World) : World :=
  foldl (fun w c => cycle c w) w cs.

(** Number of times a line occurs in a transcript. *)
Definition occurrences (line : string) (log : list string) : nat :=
  count_occ string_dec log line.

(** ** The persisted part of the state and its well-formedness *)

Definition persisted (L : Learning)
  : SensorBaseline * list DailyPattern * Z * Z :=
  (colonyBaseline L, dailyPatterns L, learningSampleCount L, currentSeason L).

Definition in_range (bound x : Z) : bool := (0 <=? x) && (x <? bound).

Definition wf_baseline (b : SensorBaseline) : bool :=
  forallb (in_range FLOAT_MOD)
    ([tempMean b; tempStdDev b; humidityMean b; humidityStdDev b;
      pressureMean b; pressureStdDev b; weightMean b; weightStdDev b;
      weightDailyDelta b] ++ audioEnergy b ++ audioStdDev b)
  && Nat.eqb (length (audioEnergy b)) NUM_AUDIO_BANDS
  && Nat.eqb (length (audioStdDev b)) NUM_AUDIO_BANDS.

Definition wf_pattern (p : DailyPattern) : bool :=
  in_range FLOAT_MOD (activityLevel p)
  && in_range FLOAT_MOD (tempOffset p)
  && in_range FLOAT_MOD (humidityOffset p)
  && in_range UINT16_MOD (sampleCount p).

(** Every member holds a value of its C++ type and the arrays have their
    declared sizes. *)
Definition wf_persisted (L : Learning) : bool :=
  wf_baseline (colonyBaseline L)
  && forallb wf_pattern (dailyPatterns L)
  && Nat.eqb (length (dailyPatterns L)) GRID_CELLS
  && in_range UINT16_MOD (learningSampleCount L)
  && in_range UINT8_MOD (currentSeason L).

(** ** Example states used by the statements below *)

Definition reset_Learning : Learning := resetLearningSystem initial_Learning.

(** No card in the slot. *)
Definition no_card : SDCard := mkSDCard false false None.

(** A working card without LEARN.DAT. *)
Definition blank_card : SDCard := mkSDCard true true None.

Definition reset_world (c : SDCard) : World := mkWorld reset_Learning c [].

(** Ten weighings of 1, 2, ..., 10 kg. *)
Definition ten_samples : RunningStats :=
  foldl (fun r v => RunningStats.addSample (of_int v) r) RunningStats.init
    [1; 2; 3; 4; 5; 6; 7; 8; 9; 10].

(** A hive whose sensors report the same values cycle after cycle. *)
Definition steady_cycle : Cycle :=
  {| c_env := mkEnvData f35 f60 f1013_25;
     c_audio := [f0_5; f0_5; f0_5; f0_5];
     c_motion := mkMotionData f0 f0 f1;
     c_light := mkLightData 3;
     c_weight := f10;
     c_time := mkDateTime 13 6 |}.

Definition steady_world (n : nat) (c : SDCard) : World :=
  run (replicate n steady_cycle) (reset_world c).

(** A colony in a dry place whose hive gets damp at one o'clock at night:
    the cell of hour 1 has learned a humidity offset of +50 points. *)
Definition damp_Learning : Learning :=
  set_dailyPatterns
    (<[cell_index 1 0 := mkDailyPattern f0_5 f0 f50 10]>
       (dailyPatterns reset_Learning))
    reset_Learning.

(** A baseline whose temperature mean is NaN, as a failed sensor read
    leaves it. *)
Definition nan_Learning : Learning :=
  set_colonyBaseline
    (mkSensorBaseline nan f2 f60 f5 f1013_25 f5 f0 f1 f0_2
       [THRESH_B1; THRESH_B2; THRESH_B3; THRESH_B4]
       (replicate NUM_AUDIO_BANDS f0_1))
    reset_Learning.

(** The engine after a power cycle: the statics are initialised afresh,
    the card keeps its files. *)
Definition reboot (w : World) : World := mkWorld initial_Learning (card w) [].

Definition pos_finite (x : spec_float) : bool :=
  match x with
  | S754_finite false _ _ => true
  | _ => false
  end.

(** [rate_chain fuel n prev] checks, for the [fuel] counts from [n] on, that
    the rate of each count is a positive finite number not above the rate
    of the count before ([prev] for the first). *)
Fixpoint rate_chain (fuel : nat) (n : Z) (prev : spec_float) : bool :=
  match fuel with
  | O => true
  | S k =>
      let r := of_bits (adaptRate_of n) in
      pos_finite r && SFleb r prev && rate_chain k (n + 1) r
  end.

(** A card whose LEARN.DAT holds only four bytes, the pattern of 41.0. *)
Definition short_card : SDCard :=
  mkSDCard true true (Some (encode_le sizeof_float f41)).

Definition sizeof_record : nat := 1607.

(** The bytes that one successful [saveLearnedParameters] writes. *)
Definition saved_record (L : Learning) : list byte :=
  bytes_of_SensorBaseline (colonyBaseline L)
  ++ bytes_of_dailyPatterns (dailyPatterns L)
  ++ encode_le sizeof_learningSampleCount (learningSampleCount L)
  ++ encode_le sizeof_currentSeason (currentSeason L).

(** What LEARN.DAT holds (nothing when it does not exist). *)
Definition card_data (c : SDCard) : list byte :=
  match learn_dat c with
  | Some d => d
  | None => []
  end.

(** The baseline read off the running statistics: each channel's [mean()]
    and [standardDeviation()]; the daily weight delta has no statistics. *)
Definition baseline_of_stats (L : Learning) : SensorBaseline :=
  {| tempMean := RunningStats.mean (tempStats L);
     tempStdDev := RunningStats.standardDeviation (tempStats L);
     humidityMean := RunningStats.mean (humidityStats L);
     humidityStdDev := RunningStats.standardDeviation (humidityStats L);
     pressureMean := RunningStats.mean (pressureStats L);
     pressureStdDev := RunningStats.standardDeviation (pressureStats L);
     weightMean := RunningStats.mean (weightStats L);
     weightStdDev := RunningStats.standardDeviation (weightStats L);
     weightDailyDelta := weightDailyDelta (colonyBaseline L);
     audioEnergy :=
       map (fun i => RunningStats.mean (audioStats L !!! i))
         (seq 0 NUM_AUDIO_BANDS);
     audioStdDev :=
       map (fun i => RunningStats.standardDeviation (audioStats L !!! i))
         (seq 0 NUM_AUDIO_BANDS) |}.

(** The state in which a cycle meets the guard of the first baseline. *)
Definition fed (c : Cycle) (w : World) : World :=
  upd_eng
    (feedSample (c_env c) (c_audio c) (c_motion c) (c_light c) (c_weight c)
       (c_time c)) w.

(** ** Configuration overrides and the threshold getters (config.cpp)

    [configItems] holds the overrides read from the card, in file order;
    [getConfigValueStr] returns the value of the first item whose key
    equals the requested one up to ASCII case ([strcasecmp]).  [atoi] is
    the C function: optional white space, an optional sign, then decimal
    digits up to the first other character (0 when there is none; a value
    outside [int] is undefined in C and is not wrapped here).  [atof] is
    taken as a parameter. *)
Record ConfigItem := mkConfigItem {
  key : string;               (* char key[32] *)
  value : string              (* char value[32] *)
}.

Definition tolower (c : Ascii.ascii) : Ascii.ascii :=
  let n := Ascii.N_of_ascii c in
  if ((65 <=? n) && (n <=? 90))%N then Ascii.ascii_of_N (n + 32) else c.

Fixpoint strcasecmp_eq (a b : string) : bool :=
  match a, b with
  | EmptyString, EmptyString => true
  | String x a', String y b' =>
      Ascii.eqb (tolower x) (tolower y) && strcasecmp_eq a' b'
  | _, _ => false
  end.

Fixpoint getConfigValueStr (configItems : list ConfigItem) (k : string)
  : option string :=
  match configItems with
  | [] => None
  | item :: rest =>
      if strcasecmp_eq (key item) k then Some (value item)
      else getConfigValueStr rest k
  end.












(** The sizes of the arrays of the engine. *)
Definition shaped (L : Learning) : Prop :=
  length (dailyPatterns L) = GRID_CELLS
  /\ length (audioStats L) = NUM_AUDIO_BANDS
  /\ length (audioEnergy (colonyBaseline L)) = NUM_AUDIO_BANDS
  /\ length (audioStdDev (colonyBaseline L)) = NUM_AUDIO_BANDS.

(** The first record of a file image. *)
Definition first_record (d : list byte) : list byte := take sizeof_record d.

(** The threshold of band [i] in [isAudioAnomaly]. *)
Definition audioThreshold (i : nat) : float := if Nat.eqb i 0 then f3 else f2_5.

(** The temperature channel carries a NaN: either the established baseline
    mean is a NaN, or the engine is still collecting and the running mean
    of the temperature estimator is a NaN. *)
Definition temperature_poisoned (w : World) : Prop :=
  (baselineEstablished (eng w) = true
   /\ is_nan (tempMean (colonyBaseline (eng w))) = true)
  \/ (baselineEstablished (eng w) = false
      /\ is_nan (mean_ (tempStats (eng w))) = true
      /\ count_ (tempStats (eng w)) = learningSampleCount (eng w)
      /\ 1 <= learningSampleCount (eng w) < LEARNING_SAMPLES_MIN).

(** The persisted values that the memory image of one record holds (the
    layout that [saveLearnedParameters] writes and [loadLearnedParameters]
    reads: the baseline at offset 0, the grid at 68, the sample count at
    1604 and the season at 1606). *)
Definition decode_record (m : list byte)
  : SensorBaseline * list DailyPattern * Z * Z :=
  (SensorBaseline_of_bytes (take sizeof_SensorBaseline m),
   dailyPatterns_of_bytes GRID_CELLS
     (take sizeof_dailyPatterns (drop sizeof_SensorBaseline m)),
   decode_le (take sizeof_learningSampleCount (drop 1604 m)),
   decode_le (take sizeof_currentSeason (drop 1606 m))).

(** The memory image of the persisted objects after the reads of a load
    from a file holding [d]: the bytes of the file over the beginning of
    the image, the rest of the image as it was. *)
Definition memory_after_read (d image : list byte) : list byte :=
  d ++ drop (length d) image.

(** * Properties *)

(** ** Order of binary32 values *)

Lemma SFcompare_swap (x y : spec_float) :
  SFcompare y x = option_map CompOpp (SFcompare x y).
Proof.
  destruct x as [s1|s1| |s1 m1 e1], y as [s2|s2| |s2 m2 e2]; simpl;
    try reflexivity; try (destruct s1; reflexivity);
    try (destruct s2; reflexivity); try (destruct s1, s2; reflexivity).
  destruct s1, s2; simpl; try reflexivity;
    rewrite (Z.compare_antisym e1 e2);
    change (Pos.compare_cont Eq m2 m1)
      with (Pos.compare_cont (CompOpp Eq) m2 m1);
    rewrite <- (Pos.compare_cont_antisym m1 m2 Eq);
    destruct (e1 ?= e2); simpl; try reflexivity;
    destruct (Pos.compare_cont Eq m1 m2); reflexivity.
Qed.

Lemma SFcompare_refl (x : spec_float) :
  x <> S754_nan -> SFcompare x x = Some Eq.
Proof.
  destruct x as [s|s| |s m e]; simpl; intros H; try congruence;
    try (destruct s; reflexivity).
  destruct s; rewrite Z.compare_refl, Pos.compare_cont_refl; reflexivity.
Qed.

Lemma is_nan_false (a : float) : is_nan a = false -> of_bits a <> S754_nan.
Proof. unfold is_nan. destruct (of_bits a); congruence. Qed.

Lemma SFcompare_total (x y : spec_float) :
  x <> S754_nan -> y <> S754_nan -> exists c, SFcompare x y = Some c.
Proof.
  destruct x, y; simpl; intros; try congruence; eauto.
Qed.

Lemma fle_refl (a : float) : is_nan a = false -> fle a a = true.
Proof.
  intros H. unfold fle, SFleb.
  now rewrite (SFcompare_refl _ (is_nan_false _ H)).
Qed.

(** Without NaN, [not (x < a)] is [a <= x]. *)
Lemma flt_false_fle (x a : float) :
  is_nan x = false -> is_nan a = false -> flt x a = false -> fle a x = true.
Proof.
  intros Hx Ha. unfold flt, fle, SFltb, SFleb.
  rewrite (SFcompare_swap (of_bits x) (of_bits a)).
  destruct (SFcompare_total _ _ (is_nan_false _ Hx) (is_nan_false _ Ha))
    as [c ->].
  destruct c; simpl; congruence.
Qed.

(** The macro [max] never yields less than its first argument, and [min]
    never more, as long as no NaN is involved. *)
Lemma fmax_lower (a x : float) :
  is_nan a = false -> is_nan x = false -> fle a (fmax a x) = true.
Proof.
  intros Ha Hx. unfold fmax, fgt.
  destruct (flt x a) eqn:E.
  - now apply fle_refl.
  - now apply flt_false_fle.
Qed.

Lemma fmin_upper (a x : float) :
  is_nan a = false -> is_nan x = false -> fle (fmin a x) a = true.
Proof.
  intros Ha Hx. unfold fmin.
  destruct (flt a x) eqn:E.
  - now apply fle_refl.
  - now apply flt_false_fle.
Qed.

(** ** Negation and the macro [abs] *)

(** Flipping bit 31 of a pattern negates the number it stands for. *)
Lemma of_bits_fneg (a : float) : of_bits (fneg a) = SFopp (of_bits a).
Proof.
  unfold of_bits, fneg.
  assert (HM : Z.land (Z.lxor a 2147483648) 8388607 = Z.land a 8388607).
  { apply Z.bits_inj'. intros n Hn.
    rewrite !Z.land_spec, Z.lxor_spec.
    change 8388607 with (Z.ones 23). change 2147483648 with (2 ^ 31).
    destruct (Z.ltb_spec n 23) as [Hlt|Hge].
    - rewrite Z.pow2_bits_false by lia. now rewrite xorb_false_r.
    - rewrite Z.ones_spec_high by lia. now rewrite !andb_false_r. }
  assert (HE : Z.land (Z.shiftr (Z.lxor a 2147483648) 23) 255
               = Z.land (Z.shiftr a 23) 255).
  { apply Z.bits_inj'. intros n Hn.
    rewrite !Z.land_spec, !Z.shiftr_spec, Z.lxor_spec by lia.
    change 255 with (Z.ones 8). change 2147483648 with (2 ^ 31).
    destruct (Z.ltb_spec n 8) as [Hlt|Hge].
    - rewrite Z.pow2_bits_false by lia. now rewrite xorb_false_r.
    - rewrite Z.ones_spec_high by lia. now rewrite !andb_false_r. }
  assert (HS : Z.testbit (Z.lxor a 2147483648) 31 = negb (Z.testbit a 31)).
  { rewrite Z.lxor_spec. change 2147483648 with (2 ^ 31).
    rewrite Z.pow2_bits_true by lia. now rewrite xorb_true_r. }
  rewrite HM, HE, HS.
  destruct (Z.land (Z.shiftr a 23) 255 =? 0).
  - destruct (Z.land a 8388607); reflexivity.
  - destruct (Z.land (Z.shiftr a 23) 255 =? 255).
    + destruct (Z.land a 8388607 =? 0); reflexivity.
    + destruct (Z.land a 8388607 + 8388608); reflexivity.
Qed.

(** Negating both sides reverses a comparison. *)
Lemma SFcompare_opp (x y : spec_float) :
  SFcompare (SFopp x) (SFopp y) = SFcompare y x.
Proof.
  rewrite (SFcompare_swap x y).
  destruct x as [s1|s1| |s1 m1 e1], y as [s2|s2| |s2 m2 e2]; simpl;
    try reflexivity; try (destruct s1; reflexivity);
    try (destruct s2; reflexivity); try (destruct s1, s2; reflexivity).
  destruct s1, s2; simpl; try reflexivity;
    destruct (e1 ?= e2); simpl; try reflexivity;
    destruct (Pos.compare_cont Eq m1 m2); reflexivity.
Qed.

(** [abs(z) > t] for a positive [t] is the two-sided test [z > t] or
    [z < -t]. *)
Lemma fgt_fabs (z t : float) :
  fgt t 0 = true ->
  fgt (fabs z) t = fgt z t || flt z (fneg t).
Proof.
  unfold fabs, fgt, flt. intros Ht.
  rewrite (of_bits_fneg t).
  destruct (SFltb (of_bits 0) (of_bits z)) eqn:Hz.
  - replace (SFltb (of_bits z) (SFopp (of_bits t))) with false;
      [now rewrite orb_false_r|].
    change (of_bits 0) with (S754_zero false) in *.
    unfold SFltb in *.
    destruct (of_bits z) as [s|s| |s m e], (of_bits t) as [s'|s'| |s' m' e'];
      simpl in *; try discriminate; try reflexivity;
      try (destruct s; try discriminate; reflexivity);
      try (destruct s'; try discriminate; reflexivity);
      destruct s, s'; try discriminate; reflexivity.
  - rewrite (of_bits_fneg z).
    replace (SFltb (of_bits t) (of_bits z)) with false.
    + cbn [orb]. unfold SFltb.
      rewrite <- (SFcompare_opp (SFopp (of_bits z)) (of_bits t)).
      destruct (of_bits z) as [s|s| |s m e]; try destruct s; reflexivity.
    + change (of_bits 0) with (S754_zero false) in *.
      unfold SFltb in *.
      destruct (of_bits z) as [s|s| |s m e],
        (of_bits t) as [s'|s'| |s' m' e'];
        simpl in *; try discriminate; try reflexivity;
        try (destruct s; try discriminate; reflexivity);
        try (destruct s'; try discriminate; reflexivity);
        destruct s, s'; try discriminate; reflexivity.
Qed.

(** ** Temperature anomaly (C3) *)

(** C3: [isTemperatureAnomaly] compares the absolute z-score of the reading,
    [(value - (tempMean + tempOffset of the cell of the hour and the current
    season)) / tempStdDev], with [TEMP_ANOMALY_THRESHOLD] by a strict [>].
    The test is two-sided: the reading is anomalous exactly when its
    z-score is above the threshold or below minus the threshold, and a
    z-score equal to the threshold or to minus the threshold is not
    anomalous.  With mean 35, deviation 2 and a zero offset, 41.0 has the
    z-score 3.0 exactly and is not anomalous, while 41.01 is; on the cold
    side 29.0 has the z-score -3.0 exactly and is not anomalous, while
    28.99 is. *)
Theorem isTemperatureAnomaly_strict_threshold :
  (forall (L : Learning) (value : float) (hour : Z),
      let b := colonyBaseline L in
      let cell := dailyPatterns L !!! cell_index hour (currentSeason L) in
      let expected := fadd (tempMean b) (tempOffset cell) in
      let z := fdiv (fsub value expected) (tempStdDev b) in
      isTemperatureAnomaly L value hour = fgt (fabs z) TEMP_ANOMALY_THRESHOLD
      /\ isTemperatureAnomaly L value hour
         = fgt z TEMP_ANOMALY_THRESHOLD
           || flt z (fneg TEMP_ANOMALY_THRESHOLD)
      /\ (fabs z = TEMP_ANOMALY_THRESHOLD ->
          isTemperatureAnomaly L value hour = false)
      /\ (z = TEMP_ANOMALY_THRESHOLD \/ z = fneg TEMP_ANOMALY_THRESHOLD ->
          isTemperatureAnomaly L value hour = false))
  /\ TEMP_ANOMALY_THRESHOLD = of_int 3
  /\ (forall (L : Learning) (hour : Z),
        tempMean (colonyBaseline L) = of_int 35 ->
        tempStdDev (colonyBaseline L) = of_int 2 ->
        tempOffset (pattern_at L hour) = of_int 0 ->
        (tempZScore L (of_int 41) hour = of_int 3
         /\ isTemperatureAnomaly L (of_int 41) hour = false
         /\ isTemperatureAnomaly L (lit 4101 100) hour = true)
        /\ tempZScore L (of_int 29) hour = fneg (of_int 3)
        /\ isTemperatureAnomaly L (of_int 29) hour = false
        /\ isTemperatureAnomaly L (lit 2899 100) hour = true).
Proof.
  split; [|split].
  - intros L value hour b cell expected z.
    assert (Htwo : isTemperatureAnomaly L value hour
                   = fgt z TEMP_ANOMALY_THRESHOLD
                     || flt z (fneg TEMP_ANOMALY_THRESHOLD)).
    { unfold isTemperatureAnomaly.
      change (tempZScore L value hour) with z.
      apply fgt_fabs. vm_compute; reflexivity. }
    split; [reflexivity|]. split; [exact Htwo|]. split.
    + intros Hz. unfold isTemperatureAnomaly.
      change (tempZScore L value hour) with z. now rewrite Hz.
    + intros Hz. rewrite Htwo.
      destruct Hz as [-> | ->]; vm_compute; reflexivity.
  - reflexivity.
  - intros L hour Hm Hs Ho.
    unfold isTemperatureAnomaly, tempZScore, expectedTemp.
    rewrite Hm, Hs, Ho. now vm_compute.
Qed.

Lemma isTemperatureAnomaly_strict_threshold_witness :
  (tempZScore reset_Learning (of_int 41) 13 = of_int 3
   /\ isTemperatureAnomaly reset_Learning (of_int 41) 13 = false
   /\ isTemperatureAnomaly reset_Learning (lit 4101 100) 13 = true)
  /\ tempZScore reset_Learning (of_int 29) 13 = fneg (of_int 3)
  /\ isTemperatureAnomaly reset_Learning (of_int 29) 13 = false
  /\ isTemperatureAnomaly reset_Learning (lit 2899 100) 13 = true.
Proof.
  apply (proj2 (proj2 isTemperatureAnomaly_strict_threshold));
    reflexivity.
Defined.

(** ** RunningStats.partialReset (C4) *)

Lemma to_int_range (a : float) : INT_MIN <= to_int a <= INT_MAX.
Proof.
  unfold to_int, INT_MIN, INT_MAX.
  destruct (of_bits a) as [s|s| |s m e]; try destruct s; lia.
Qed.

Lemma partialReset_count_pos (keepRatio : float) (r : RunningStats) :
  0 < count_ r ->
  count_ (RunningStats.partialReset keepRatio r)
  = Z.max 1 (to_int (fmul (of_int (count_ r)) keepRatio))
  /\ 1 <= count_ (RunningStats.partialReset keepRatio r) <= INT_MAX.
Proof.
  intros Hc. unfold RunningStats.partialReset.
  destruct (Z.ltb_spec 0 (count_ r)) as [_|]; [|lia]. simpl.
  pose proof (to_int_range (fmul (of_int (count_ r)) keepRatio)) as Hr.
  unfold INT_MIN, INT_MAX, ULONG_MOD in *.
  rewrite Z.mod_small by lia. lia.
Qed.

(** C4 (amended): [partialReset] leaves [mean_] and [M2_] untouched and
    does not change [mean()]; it leaves an empty estimator ([count_ = 0])
    as it is and otherwise replaces [count_] by
    [max(1, (int)(count_ * keepRatio))], the product being taken in single
    precision.  [variance()] afterwards is the unchanged [M2_] divided by
    the new [count_ - 1], or 0 when the new count is at most 1. *)
Theorem partialReset_effect (keepRatio : float) (r : RunningStats) :
  let r' := RunningStats.partialReset keepRatio r in
  mean_ r' = mean_ r
  /\ M2_ r' = M2_ r
  /\ RunningStats.mean r' = RunningStats.mean r
  /\ (count_ r = 0 -> r' = r)
  /\ (0 < count_ r ->
      count_ r' = Z.max 1 (to_int (fmul (of_int (count_ r)) keepRatio)))
  /\ RunningStats.variance r'
     = if 1 <? count_ r' then fdiv (M2_ r) (of_int (count_ r' - 1)) else f0.
Proof.
  intros r'.
  destruct (Z.ltb_spec 0 (count_ r)) as [Hpos|Hnonpos].
  - destruct (partialReset_count_pos keepRatio r Hpos) as [Hc Hrange].
    fold r' in Hc, Hrange.
    assert (Hm : mean_ r' = mean_ r).
    { unfold r', RunningStats.partialReset.
      destruct (0 <? count_ r); reflexivity. }
    assert (HM : M2_ r' = M2_ r).
    { unfold r', RunningStats.partialReset.
      destruct (0 <? count_ r); reflexivity. }
    repeat split; trivial.
    + unfold RunningStats.mean. rewrite Hm.
      destruct (Z.ltb_spec 0 (count_ r')), (Z.ltb_spec 0 (count_ r));
        trivial; lia.
    + lia.
    + unfold RunningStats.variance. rewrite HM.
      unfold INT_MAX, ULONG_MOD in *.
      rewrite (Z.mod_small (count_ r' - 1)) by lia. reflexivity.
  - assert (Hr : r' = r).
    { unfold r', RunningStats.partialReset.
      destruct (Z.ltb_spec 0 (count_ r)); [lia|reflexivity]. }
    rewrite Hr. repeat split; trivial; try lia.
    unfold RunningStats.variance.
    destruct (Z.ltb_spec 1 (count_ r)); [lia|reflexivity].
Qed.

Lemma partialReset_effect_witness :
  0 < count_ ten_samples
  /\ count_ (RunningStats.partialReset f0_8 ten_samples)
     = Z.max 1 (to_int (fmul (of_int (count_ ten_samples)) f0_8)).
Proof.
  split; [reflexivity|].
  apply (partialReset_effect f0_8 ten_samples). reflexivity.
Defined.

(** C4 as stated fails for [variance()]: after ten weighings of 1..10 kg
    the variance is 55/6; [partialReset(0.8)] lowers the count from 10 to 8
    and the variance reported right after the call is 82.5/7. *)
Lemma partialReset_changes_variance :
  fgt f0_8 f0 = true /\ fle f0_8 f1 = true
  /\ count_ ten_samples = 10
  /\ RunningStats.variance ten_samples = lit 55 6
  /\ RunningStats.variance (RunningStats.partialReset f0_8 ten_samples)
     = lit 825 70
  /\ RunningStats.variance (RunningStats.partialReset f0_8 ten_samples)
     <> RunningStats.variance ten_samples.
Proof. vm_compute. repeat split; congruence. Qed.

(** ** Division by the learned deviation (C5) *)

(** The divisor of every audio z-score is [max(0.01f, audioStdDev[i])]; it
    is never below 0.01 (so never zero) unless the stored deviation is a
    NaN. *)
Lemma audioDivisor_guarded (L : Learning) (i : nat) :
  audioDivisor L i = fmax f0_01 (audioStdDev (colonyBaseline L) !!! i)
  /\ (is_nan (audioStdDev (colonyBaseline L) !!! i) = false ->
      fle f0_01 (audioDivisor L i) = true).
Proof.
  split; [reflexivity|]. intros H. now apply fmax_lower.
Qed.

(** C5 at the failing input: after 100 cycles of identical readings the
    learned deviations are 0.  The temperature, humidity and weight checks
    divide by them as they are: the z-score of the expected value is 0/0
    (NaN, reported as normal) and the z-score of any other value is
    infinite (reported as anomalous), while the audio check divides by the
    floor 0.01. *)
Theorem zero_deviation_is_not_guarded :
  let L := eng (steady_world 100 no_card) in
  baselineEstablished L = true
  /\ tempStdDev (colonyBaseline L) = f0
  /\ humidityStdDev (colonyBaseline L) = f0
  /\ weightStdDev (colonyBaseline L) = f0
  /\ tempZScore L f35 13 = nan
  /\ isTemperatureAnomaly L f35 13 = false
  /\ tempZScore L (lit 3501 100) 13 = pinf
  /\ isTemperatureAnomaly L (lit 3501 100) 13 = true
  /\ humidityZScore L (lit 5999 100) 13 = ninf
  /\ isHumidityAnomaly L (lit 5999 100) 13 = true
  /\ weightZScore L (lit 1001 100) = pinf
  /\ isWeightAnomaly L (lit 1001 100) (lit 1001 100) = true
  /\ audioStdDev (colonyBaseline L) = [f0; f0; f0; f0]
  /\ audioDivisor L 0 = f0_01
  /\ fle (fabs (audioZScore L [lit 51 100; f0_5; f0_5; f0_5] 0)) f1 = true
  /\ isAudioAnomaly L [lit 51 100; f0_5; f0_5; f0_5] = false.
Proof. vm_compute. intuition reflexivity. Qed.

(** ** Adapted thresholds (C8) *)

(** C8 (amended): whenever the unclamped value is not a NaN, the low
    thresholds are at least [MIN_SAFE_TEMP] / [MIN_SAFE_HUMIDITY] and the
    high thresholds at most [MAX_SAFE_TEMP] / [MAX_SAFE_HUMIDITY]; each
    threshold is the unclamped value clamped on that one side. *)
Theorem adapted_thresholds_clamped (L : Learning) (hour : Z) :
  is_nan (tempLowUnclamped L hour) = false ->
  is_nan (tempHighUnclamped L hour) = false ->
  is_nan (humidityLowUnclamped L hour) = false ->
  is_nan (humidityHighUnclamped L hour) = false ->
  fle MIN_SAFE_TEMP (fst (getAdaptedTempThresholds L hour)) = true
  /\ fle (snd (getAdaptedTempThresholds L hour)) MAX_SAFE_TEMP = true
  /\ fle MIN_SAFE_HUMIDITY (fst (getAdaptedHumidityThresholds L hour)) = true
  /\ fle (snd (getAdaptedHumidityThresholds L hour)) MAX_SAFE_HUMIDITY = true
  /\ getAdaptedTempThresholds L hour
     = (fmax MIN_SAFE_TEMP (tempLowUnclamped L hour),
        fmin MAX_SAFE_TEMP (tempHighUnclamped L hour))
  /\ getAdaptedHumidityThresholds L hour
     = (fmax MIN_SAFE_HUMIDITY (humidityLowUnclamped L hour),
        fmin MAX_SAFE_HUMIDITY (humidityHighUnclamped L hour)).
Proof.
  intros H1 H2 H3 H4.
  unfold getAdaptedTempThresholds, getAdaptedHumidityThresholds, fst, snd.
  split; [apply fmax_lower; [reflexivity|assumption]|].
  split; [apply fmin_upper; [reflexivity|assumption]|].
  split; [apply fmax_lower; [reflexivity|assumption]|].
  split; [apply fmin_upper; [reflexivity|assumption]|].
  split; reflexivity.
Qed.

Lemma adapted_thresholds_clamped_witness :
  fle MIN_SAFE_TEMP (fst (getAdaptedTempThresholds reset_Learning 13)) = true
  /\ fle (snd (getAdaptedTempThresholds reset_Learning 13)) MAX_SAFE_TEMP
     = true.
Proof.
  destruct (adapted_thresholds_clamped reset_Learning 13)
    as (Hlow & Hhigh & _); try (vm_compute; reflexivity).
  split; assumption.
Defined.

(** C8 as stated fails for the humidity pair: the low threshold has no
    upper clamp.  With a learned offset of +50 points for the hour and the
    default deviation of 5, the low threshold is 50 + 50 - 5 = 95, above
    [MAX_SAFE_HUMIDITY] = 90. *)
Lemma humidity_low_threshold_above_max :
  fst (getAdaptedHumidityThresholds damp_Learning 1) = of_int 95
  /\ MAX_SAFE_HUMIDITY = of_int 90
  /\ fle (fst (getAdaptedHumidityThresholds damp_Learning 1))
         MAX_SAFE_HUMIDITY = false.
Proof. vm_compute. intuition reflexivity. Qed.

(** With the macro [max], a NaN mean passes through the clamp: the low
    temperature threshold is then a NaN, which compares false with every
    bound. *)
Lemma temp_low_threshold_nan :
  fst (getAdaptedTempThresholds nan_Learning 13) = nan
  /\ fle MIN_SAFE_TEMP (fst (getAdaptedTempThresholds nan_Learning 13))
     = false.
Proof. vm_compute. intuition reflexivity. Qed.

(** ** The adaptation rate of a pattern cell (C7) *)

Lemma SFleb_pos_iff (m1 m2 : positive) (e1 e2 : Z) :
  SFleb (S754_finite false m1 e1) (S754_finite false m2 e2) = true
  <-> e1 < e2 \/ (e1 = e2 /\ (m1 <= m2)%positive).
Proof.
  unfold SFleb, SFcompare.
  change (Pos.compare_cont Eq) with Pos.compare.
  destruct (Z.compare_spec e1 e2).
  - destruct (Pos.compare_spec m1 m2); split; intros; try lia; try easy.
  - split; intros; [lia|reflexivity].
  - split; intros; [discriminate|lia].
Qed.

Lemma SFleb_pos_trans (x y z : spec_float) :
  pos_finite x = true -> pos_finite y = true -> pos_finite z = true ->
  SFleb x y = true -> SFleb y z = true -> SFleb x z = true.
Proof.
  destruct x as [| | |[] m1 e1]; try discriminate.
  destruct y as [| | |[] m2 e2]; try discriminate.
  destruct z as [| | |[] m3 e3]; try discriminate.
  intros _ _ _. rewrite !SFleb_pos_iff. lia.
Qed.

Lemma SFleb_pos_refl (x : spec_float) :
  pos_finite x = true -> SFleb x x = true.
Proof.
  intros H. unfold SFleb. rewrite SFcompare_refl; [reflexivity|].
  destruct x; discriminate.
Qed.

Lemma rate_chain_S (k : nat) (n : Z) (prev : spec_float) :
  rate_chain (S k) n prev = true
  <-> pos_finite (of_bits (adaptRate_of n)) = true
      /\ SFleb (of_bits (adaptRate_of n)) prev = true
      /\ rate_chain k (n + 1) (of_bits (adaptRate_of n)) = true.
Proof.
  cbn [rate_chain]. rewrite !andb_true_iff. tauto.
Qed.

Lemma rate_chain_sound (fuel : nat) :
  forall (n : Z) (prev : spec_float),
    pos_finite prev = true ->
    rate_chain fuel n prev = true ->
    forall j, 0 <= j < Z.of_nat fuel ->
      pos_finite (of_bits (adaptRate_of (n + j))) = true
      /\ SFleb (of_bits (adaptRate_of (n + j))) prev = true
      /\ forall i, 0 <= i <= j ->
           SFleb (of_bits (adaptRate_of (n + j)))
                 (of_bits (adaptRate_of (n + i))) = true.
Proof.
  induction fuel as [|k IH]; intros n prev Hprev Hchain j Hj; [lia|].
  rewrite rate_chain_S in Hchain.
  destruct Hchain as (Hpf & Hle & Hrest).
  destruct (Z.eq_dec j 0) as [->|Hj0].
  - rewrite Z.add_0_r. split; [exact Hpf|]. split; [exact Hle|].
    intros i Hi. assert (i = 0) as -> by lia.
    rewrite Z.add_0_r. now apply SFleb_pos_refl.
  - destruct (IH (n + 1) _ Hpf Hrest (j - 1)) as (Hp & Hl & Hall); [lia|].
    replace (n + 1 + (j - 1)) with (n + j) in Hp, Hl, Hall by lia.
    split; [exact Hp|]. split.
    + exact (SFleb_pos_trans _ _ _ Hp Hpf Hprev Hl Hle).
    + intros i Hi. destruct (Z.eq_dec i 0) as [->|Hi0].
      * now rewrite Z.add_0_r.
      * specialize (Hall (i - 1)).
        replace (n + 1 + (i - 1)) with (n + i) in Hall by lia.
        apply Hall. lia.
Qed.

Lemma rate_chain_uint16 :
  rate_chain (Z.to_nat UINT16_MOD) 0 (of_bits f0_5) = true.
Proof. vm_compute. reflexivity. Qed.

Lemma pos_finite_half : pos_finite (of_bits f0_5) = true.
Proof. reflexivity. Qed.

Lemma adaptRate_chain (j : Z) :
  0 <= j < UINT16_MOD ->
  fle (adaptRate_of j) f0_5 = true
  /\ forall i, 0 <= i <= j -> fle (adaptRate_of j) (adaptRate_of i) = true.
Proof.
  intros Hj.
  pose proof (rate_chain_sound (Z.to_nat UINT16_MOD) 0 (of_bits f0_5)
                pos_finite_half rate_chain_uint16 j) as H.
  assert (Hr : Z.of_nat (Z.to_nat UINT16_MOD) = UINT16_MOD)
    by (vm_compute; reflexivity).
  rewrite Hr in H. destruct (H Hj) as (_ & Hle & Hall).
  change (0 + j) with j in Hle, Hall.
  split; [exact Hle|]. intros i Hi. specialize (Hall i Hi).
  change (0 + i) with i in Hall.
  exact Hall.
Qed.

Lemma updateDailyPattern_cell (hour season : Z) (activity temp hum : float)
    (L : Learning) (p : DailyPattern) :
  dailyPatterns L !! cell_index hour season = Some p ->
  updateDailyPattern hour season activity temp hum L
  = set_dailyPatterns
      (<[cell_index hour season :=
           {| activityLevel :=
                blend (adaptRate_of (sampleCount p)) (activityLevel p) activity;
              tempOffset :=
                blend (adaptRate_of (sampleCount p)) (tempOffset p)
                  (fsub temp (tempMean (colonyBaseline L)));
              humidityOffset :=
                blend (adaptRate_of (sampleCount p)) (humidityOffset p)
                  (fsub hum (humidityMean (colonyBaseline L)));
              sampleCount := (sampleCount p + 1) mod UINT16_MOD |}]>
         (dailyPatterns L)) L.
Proof. intros H. unfold updateDailyPattern. now rewrite H. Qed.

(** C7: the rate that [updateDailyPattern] blends with is
    [min(0.5, 5/(sampleCount + 10))] of the cell's count before the update.
    Over the counts a [uint16_t] holds it never increases with the count
    and never exceeds 0.5; at 0, 10, 40 and 990 it is 0.5, 0.25, the
    [float] nearest to 0.1 and the [float] nearest to 0.005 (which is
    within 10^-9 of 0.005). *)
Theorem adaptRate_nonincreasing_bounded :
  (forall n : Z,
      adaptRate_of n
      = fmin (lit 5 10) (fdiv (of_int 5) (fadd (of_int n) (of_int 10))))
  /\ (forall (hour season : Z) (activity temp hum : float) (L : Learning)
        (p : DailyPattern),
        dailyPatterns L !! cell_index hour season = Some p ->
        exists p',
          dailyPatterns (updateDailyPattern hour season activity temp hum L)
            !! cell_index hour season = Some p'
          /\ activityLevel p'
             = fadd (fmul (fsub (of_int 1) (adaptRate_of (sampleCount p)))
                          (activityLevel p))
                    (fmul (adaptRate_of (sampleCount p)) activity))
  /\ (forall n m : Z,
        0 <= n -> n <= m -> m < UINT16_MOD ->
        fle (adaptRate_of m) (adaptRate_of n) = true)
  /\ (forall n : Z,
        0 <= n < UINT16_MOD -> fle (adaptRate_of n) (lit 5 10) = true)
  /\ adaptRate_of 0 = lit 5 10
  /\ adaptRate_of 10 = lit 25 100
  /\ adaptRate_of 40 = lit 1 10
  /\ adaptRate_of 990 = lit 5 1000
  /\ (exists num den : Z,
        exact (adaptRate_of 990) = Some (num, den) /\ 0 < den
        /\ Z.abs (1000 * num - 5 * den) * 1000000000 < 1000 * den).
Proof.
  split; [reflexivity|]. split.
  { intros hour season activity temp hum L p Hp.
    rewrite (updateDailyPattern_cell _ _ _ _ _ _ _ Hp).
    eexists. split.
    - cbn [dailyPatterns set_dailyPatterns].
      apply list_lookup_insert_eq. eapply lookup_lt_Some, Hp.
    - reflexivity. }
  split.
  { intros n m Hn Hnm Hm.
    destruct (adaptRate_chain m) as [_ Hall]; [lia|].
    apply Hall. lia. }
  split.
  { intros n Hn. destruct (adaptRate_chain n Hn) as [Hle _]. exact Hle. }
  split; [vm_compute; reflexivity|].
  split; [vm_compute; reflexivity|].
  split; [vm_compute; reflexivity|].
  split; [vm_compute; reflexivity|].
  exists 10737418%Z, 2147483648%Z.
  split; [vm_compute; reflexivity|].
  split; [reflexivity|]. vm_compute. reflexivity.
Qed.

Lemma adaptRate_nonincreasing_bounded_witness :
  fle (adaptRate_of 40) (adaptRate_of 10) = true.
Proof.
  destruct adaptRate_nonincreasing_bounded as (_ & _ & Hmono & _).
  apply Hmono; [lia|lia|reflexivity].
Defined.

(** ** Frame of updateDailyPattern (C10) *)

Lemma cell_index_lt (hour season : Z) :
  0 <= hour < 24 -> 0 <= season < 4 -> (cell_index hour season < GRID_CELLS)%nat.
Proof. unfold cell_index, GRID_CELLS, GRID_SEASONS. lia. Qed.

Lemma cell_index_inj (h1 s1 h2 s2 : Z) :
  0 <= h1 -> 0 <= s1 < 4 -> 0 <= h2 -> 0 <= s2 < 4 ->
  cell_index h1 s1 = cell_index h2 s2 -> h1 = h2 /\ s1 = s2.
Proof. unfold cell_index, GRID_SEASONS. lia. Qed.

(** C10: for an hour below 24 and a season below 4, [updateDailyPattern]
    rewrites the one cell at (hour, season): its three levels are blended
    with the rate of its old count and its count goes up by one ([uint16_t]
    arithmetic: by exactly 1 below 65535, which wraps to 0).  Every other
    cell of the grid, the baseline and every other static are unchanged. *)
Theorem updateDailyPattern_frame (hour season : Z)
    (activity temp hum : float) (L : Learning) :
  0 <= hour < 24 -> 0 <= season < 4 ->
  length (dailyPatterns L) = GRID_CELLS ->
  let L' := updateDailyPattern hour season activity temp hum L in
  (exists p p',
      dailyPatterns L !! cell_index hour season = Some p
      /\ dailyPatterns L' !! cell_index hour season = Some p'
      /\ sampleCount p' = (sampleCount p + 1) mod UINT16_MOD
      /\ (0 <= sampleCount p < UINT16_MOD - 1 ->
          sampleCount p' = sampleCount p + 1)
      /\ activityLevel p'
         = blend (adaptRate_of (sampleCount p)) (activityLevel p) activity
      /\ tempOffset p'
         = blend (adaptRate_of (sampleCount p)) (tempOffset p)
             (fsub temp (tempMean (colonyBaseline L)))
      /\ humidityOffset p'
         = blend (adaptRate_of (sampleCount p)) (humidityOffset p)
             (fsub hum (humidityMean (colonyBaseline L))))
  /\ (forall h s, 0 <= h < 24 -> 0 <= s < 4 -> (h, s) <> (hour, season) ->
        dailyPatterns L' !! cell_index h s = dailyPatterns L !! cell_index h s)
  /\ (forall j : nat, j <> cell_index hour season ->
        dailyPatterns L' !! j = dailyPatterns L !! j)
  /\ length (dailyPatterns L') = GRID_CELLS
  /\ colonyBaseline L' = colonyBaseline L
  /\ baselineEstablished L' = baselineEstablished L
  /\ learningSampleCount L' = learningSampleCount L
  /\ currentSeason L' = currentSeason L
  /\ (tempStats L', humidityStats L', pressureStats L', weightStats L',
      audioStats L', lightStats L', motionStats L')
     = (tempStats L, humidityStats L, pressureStats L, weightStats L,
        audioStats L, lightStats L, motionStats L).
Proof.
  intros Hh Hs Hlen L'.
  pose proof (cell_index_lt hour season Hh Hs) as Hlt.
  destruct (lookup_lt_is_Some_2 (dailyPatterns L) (cell_index hour season))
    as [p Hp]; [now rewrite Hlen|].
  assert (HL' : L' = _) by exact (updateDailyPattern_cell _ _ _ _ _ _ _ Hp).
  rewrite HL'. cbn [dailyPatterns set_dailyPatterns colonyBaseline
    baselineEstablished learningSampleCount currentSeason tempStats
    humidityStats pressureStats weightStats audioStats lightStats motionStats].
  split.
  { exists p. eexists. split; [exact Hp|]. split.
    - apply list_lookup_insert_eq. now rewrite Hlen.
    - cbn [sampleCount activityLevel tempOffset humidityOffset].
      split; [reflexivity|]. split; [|repeat split; reflexivity].
      intros Hc. apply Z.mod_small. unfold UINT16_MOD in *. lia. }
  split.
  { intros h s Hh' Hs' Hne. apply list_lookup_insert_ne.
    intros Heq. apply Hne.
    destruct (cell_index_inj hour season h s) as [-> ->]; trivial; lia. }
  split.
  { intros j Hj. apply list_lookup_insert_ne. congruence. }
  split; [now rewrite length_insert|].
  repeat split; reflexivity.
Qed.

Lemma updateDailyPattern_frame_witness :
  colonyBaseline (updateDailyPattern 13 2 f1 f35 f60 reset_Learning)
  = colonyBaseline reset_Learning
  /\ forall j : nat, j <> cell_index 13 2 ->
       dailyPatterns (updateDailyPattern 13 2 f1 f35 f60 reset_Learning) !! j
       = dailyPatterns reset_Learning !! j.
Proof.
  destruct (updateDailyPattern_frame 13 2 f1 f35 f60 reset_Learning)
    as (_ & _ & Hother & _ & Hb & _); [lia|lia|reflexivity|].
  split; [exact Hb|exact Hother].
Defined.

(** ** What the steps of a cycle do to the life-cycle state *)

Lemma occurrences_println (line l : string) (w : World) :
  occurrences line (serial (println l w))
  = (occurrences line (serial w)
     + if string_dec l line then 1 else 0)%nat.
Proof.
  unfold occurrences, println. cbn [serial].
  rewrite count_occ_app. cbn [count_occ].
  destruct (string_dec l line); reflexivity.
Qed.

Lemma saveLearnedParameters_eng (w : World) :
  eng (snd (saveLearnedParameters w)) = eng w.
Proof.
  unfold saveLearnedParameters.
  destruct (isSDCardAvailable w); [|reflexivity].
  destruct (SD_open_FILE_WRITE (card w)); reflexivity.
Qed.

(** A save adds one line to the transcript, one of its three messages. *)
Lemma saveLearnedParameters_serial (w : World) :
  exists msg,
    serial (snd (saveLearnedParameters w)) = serial w ++ [msg]
    /\ (msg = "Cannot save learning data - SD card not available"
        \/ msg = "Learning data saved"
        \/ msg = "Failed to open learning data file for writing")%string.
Proof.
  unfold saveLearnedParameters.
  destruct (isSDCardAvailable w); [|cbn; eauto].
  destruct (SD_open_FILE_WRITE (card w)); cbn; eauto.
Qed.

Lemma saveLearnedParameters_established_lines (w : World) :
  occurrences "Baseline established!" (serial (snd (saveLearnedParameters w)))
  = occurrences "Baseline established!" (serial w).
Proof.
  destruct (saveLearnedParameters_serial w) as (msg & -> & Hmsg).
  unfold occurrences. rewrite count_occ_app. cbn [count_occ].
  destruct (string_dec msg "Baseline established!") as [Heq|]; [|lia].
  destruct Hmsg as [->|[->| ->]]; discriminate Heq.
Qed.

Lemma printBaseline_established_lines (w : World) :
  occurrences "Baseline established!" (serial (printBaseline w))
  = occurrences "Baseline established!" (serial w).
Proof.
  unfold printBaseline. rewrite !occurrences_println.
  repeat match goal with
         | |- context [string_dec ?a ?b] =>
             destruct (string_dec a b); [discriminate|]
         end.
  lia.
Qed.

Lemma updateBaseline_obs (w : World) :
  baselineEstablished (eng (updateBaseline w)) = baselineEstablished (eng w)
  /\ learningSampleCount (eng (updateBaseline w))
     = learningSampleCount (eng w)
  /\ occurrences "Baseline established!" (serial (updateBaseline w))
     = occurrences "Baseline established!" (serial w).
Proof.
  unfold updateBaseline. rewrite printBaseline_established_lines.
  repeat split; reflexivity.
Qed.

Lemma updateBaselineAdaptive_obs (w : World) :
  baselineEstablished (eng (updateBaselineAdaptive w))
  = baselineEstablished (eng w)
  /\ learningSampleCount (eng (updateBaselineAdaptive w))
     = learningSampleCount (eng w)
  /\ occurrences "Baseline established!" (serial (updateBaselineAdaptive w))
     = occurrences "Baseline established!" (serial w).
Proof.
  unfold updateBaselineAdaptive.
  rewrite printBaseline_established_lines, occurrences_println.
  destruct (string_dec _ _); [discriminate|].
  repeat split; try reflexivity. cbn [serial]. lia.
Qed.

Lemma establishBaseline_obs (w : World) :
  baselineEstablished (eng (establishBaseline w)) = true
  /\ learningSampleCount (eng (establishBaseline w))
     = learningSampleCount (eng w)
  /\ occurrences "Baseline established!" (serial (establishBaseline w))
     = S (occurrences "Baseline established!" (serial w)).
Proof.
  unfold establishBaseline.
  rewrite saveLearnedParameters_eng, saveLearnedParameters_established_lines,
    occurrences_println.
  destruct (string_dec _ _) as [_|Hne]; [|now contradiction Hne].
  destruct (updateBaseline_obs w) as (_ & Hc & Ho).
  split; [reflexivity|]. split.
  - exact Hc.
  - cbn [serial upd_eng]. rewrite Ho. lia.
Qed.

Lemma periodicUpdates_obs (w : World) :
  baselineEstablished (eng (periodicUpdates w)) = baselineEstablished (eng w)
  /\ learningSampleCount (eng (periodicUpdates w))
     = learningSampleCount (eng w)
  /\ occurrences "Baseline established!" (serial (periodicUpdates w))
     = occurrences "Baseline established!" (serial w).
Proof.
  unfold periodicUpdates. cbv zeta.
  set (w1 := if baselineEstablished (eng w)
                && (learningSampleCount (eng w) mod LEARNING_UPDATE_INTERVAL
                    =? 0)
             then snd (saveLearnedParameters (updateBaselineAdaptive w))
             else w).
  assert (H1 : baselineEstablished (eng w1) = baselineEstablished (eng w)
               /\ learningSampleCount (eng w1) = learningSampleCount (eng w)
               /\ occurrences "Baseline established!" (serial w1)
                  = occurrences "Baseline established!" (serial w)).
  { unfold w1. destruct (_ && _); [|repeat split; reflexivity].
    rewrite saveLearnedParameters_eng,
      saveLearnedParameters_established_lines.
    apply updateBaselineAdaptive_obs. }
  destruct H1 as (He & Hc & Ho).
  destruct (learningSampleCount (eng w1) mod LEARNING_SAVE_INTERVAL =? 0).
  - rewrite saveLearnedParameters_eng,
      saveLearnedParameters_established_lines. now rewrite He, Hc, Ho.
  - now rewrite He, Hc, Ho.
Qed.

Lemma updateDailyPattern_obs (hour season : Z) (a t h : float)
    (L : Learning) :
  baselineEstablished (updateDailyPattern hour season a t h L)
  = baselineEstablished L
  /\ learningSampleCount (updateDailyPattern hour season a t h L)
     = learningSampleCount L.
Proof.
  unfold updateDailyPattern.
  destruct (dailyPatterns L !! cell_index hour season); split; reflexivity.
Qed.

Lemma feedSample_obs (e : EnvData) (a : list float) (m : MotionData)
    (l : LightData) (wt : float) (t : DateTime) (L : Learning) :
  baselineEstablished (feedSample e a m l wt t L) = baselineEstablished L
  /\ learningSampleCount (feedSample e a m l wt t L)
     = (learningSampleCount L + 1) mod UINT16_MOD.
Proof.
  unfold feedSample.
  match goal with
  | |- context [updateDailyPattern ?h ?s ?x ?y ?z ?L0] =>
      destruct (updateDailyPattern_obs h s x y z L0) as [-> ->]
  end.
  split; reflexivity.
Qed.

(** One cycle: the counter advances (modulo 2^16), the flag is raised when
    the new count has reached [LEARNING_SAMPLES_MIN] and never lowered, and
    "Baseline established!" is printed exactly when the flag goes up. *)
Lemma cycle_obs (c : Cycle) (w : World) :
  let n' := (learningSampleCount (eng w) + 1) mod UINT16_MOD in
  learningSampleCount (eng (cycle c w)) = n'
  /\ baselineEstablished (eng (cycle c w))
     = baselineEstablished (eng w) || (LEARNING_SAMPLES_MIN <=? n')
  /\ occurrences "Baseline established!" (serial (cycle c w))
     = (occurrences "Baseline established!" (serial w)
        + if (LEARNING_SAMPLES_MIN <=? n')%Z
             && negb (baselineEstablished (eng w)) then 1 else 0)%nat.
Proof.
  intros n'. unfold cycle, updateLearningModel.
  set (w1 := upd_eng _ w).
  destruct (feedSample_obs (c_env c) (c_audio c) (c_motion c) (c_light c)
              (c_weight c) (c_time c) (eng w)) as [He Hc].
  fold n' in Hc.
  assert (He1 : baselineEstablished (eng w1) = baselineEstablished (eng w))
    by exact He.
  assert (Hc1 : learningSampleCount (eng w1) = n') by exact Hc.
  assert (Ho1 : serial w1 = serial w) by reflexivity.
  unfold establish_due. rewrite He1, Hc1.
  destruct (periodicUpdates_obs
              (if (LEARNING_SAMPLES_MIN <=? n')
                  && negb (baselineEstablished (eng w))
               then establishBaseline w1 else w1)) as (-> & -> & ->).
  destruct ((LEARNING_SAMPLES_MIN <=? n')) eqn:Hge;
    destruct (baselineEstablished (eng w)) eqn:Hest; cbn [andb negb orb];
    rewrite ?He1, ?Hc1, ?Ho1;
    try (split; [reflexivity|split; [reflexivity|lia]]).
  destruct (establishBaseline_obs w1) as (-> & -> & ->).
  rewrite Hc1, Ho1. split; [reflexivity|split; [reflexivity|lia]].
Qed.

(** ** Collecting to Established (C2) *)

Lemma run_cons (c : Cycle) (cs : list Cycle) (w : World) :
  run (c :: cs) w = run cs (cycle c w).
Proof. reflexivity. Qed.

Lemma run_obs (cs : list Cycle) :
  forall (w : World) (n : Z) (base : nat),
    0 <= n ->
    learningSampleCount (eng w) = n mod UINT16_MOD ->
    baselineEstablished (eng w) = (LEARNING_SAMPLES_MIN <=? n) ->
    occurrences "Baseline established!" (serial w)
    = (base + if (LEARNING_SAMPLES_MIN <=? n)%Z then 1 else 0)%nat ->
    let n' := n + Z.of_nat (length cs) in
    learningSampleCount (eng (run cs w)) = n' mod UINT16_MOD
    /\ baselineEstablished (eng (run cs w)) = (LEARNING_SAMPLES_MIN <=? n')
    /\ occurrences "Baseline established!" (serial (run cs w))
       = (base + if (LEARNING_SAMPLES_MIN <=? n')%Z then 1 else 0)%nat.
Proof.
  induction cs as [|c cs IH]; intros w n base Hn Hc He Ho n'.
  - unfold n'. cbn [length run foldl Z.of_nat]. rewrite Z.add_0_r. auto.
  - rewrite run_cons.
    destruct (cycle_obs c w) as (Hc' & He' & Ho').
    rewrite Hc in Hc', He', Ho'. rewrite He in He', Ho'. rewrite Ho in Ho'.
    assert (Hmod : (n mod UINT16_MOD + 1) mod UINT16_MOD
                   = (n + 1) mod UINT16_MOD).
    { now rewrite Z.add_mod_idemp_l. }
    rewrite Hmod in Hc', He', Ho'.
    assert (Hcases : n <= 98 \/ n = 99 \/ 100 <= n) by lia.
    assert (Hge : (LEARNING_SAMPLES_MIN <=? n)
                  || (LEARNING_SAMPLES_MIN <=? (n + 1) mod UINT16_MOD)
                  = (LEARNING_SAMPLES_MIN <=? n + 1)).
    { unfold LEARNING_SAMPLES_MIN, UINT16_MOD.
      destruct Hcases as [H|[->|H]]; [|reflexivity|].
      - rewrite Z.mod_small by lia.
        replace (100 <=? n) with false by (symmetry; apply Z.leb_gt; lia).
        reflexivity.
      - replace (100 <=? n) with true by (symmetry; apply Z.leb_le; lia).
        replace (100 <=? n + 1) with true
          by (symmetry; apply Z.leb_le; lia).
        reflexivity. }
    assert (Hfire : (if ((LEARNING_SAMPLES_MIN <=? (n + 1) mod UINT16_MOD)
                         && negb (LEARNING_SAMPLES_MIN <=? n))%Z
                     then 1 else 0)%nat
                    = ((if (LEARNING_SAMPLES_MIN <=? n + 1)%Z then 1 else 0)
                       - (if (LEARNING_SAMPLES_MIN <=? n)%Z then 1 else 0))%nat
                    /\ ((if (LEARNING_SAMPLES_MIN <=? n)%Z then 1 else 0)
                        <= (if (LEARNING_SAMPLES_MIN <=? n + 1)%Z
                            then 1 else 0))%nat).
    { unfold LEARNING_SAMPLES_MIN, UINT16_MOD.
      destruct Hcases as [H|[->|H]]; [|split; [reflexivity|cbn; lia]|].
      - rewrite Z.mod_small by lia.
        replace (100 <=? n) with false by (symmetry; apply Z.leb_gt; lia).
        replace (100 <=? n + 1) with false
          by (symmetry; apply Z.leb_gt; lia).
        cbn. lia.
      - replace (100 <=? n) with true by (symmetry; apply Z.leb_le; lia).
        replace (100 <=? n + 1) with true
          by (symmetry; apply Z.leb_le; lia).
        rewrite andb_false_r. cbn. lia. }
    destruct Hfire as [Hfire Hle].
    rewrite Hge in He'. rewrite Hfire in Ho'.
    destruct (IH (cycle c w) (n + 1) base) as (H1 & H2 & H3);
      [lia|exact Hc'|exact He'|lia|].
    unfold n'. cbn [length].
    replace (n + Z.of_nat (S (length cs)))
      with (n + 1 + Z.of_nat (length cs)) by lia.
    auto.
Qed.

Lemma for_bands_insert4 {A : Type} (f : nat -> A) (l : list A) :
  length l = NUM_AUDIO_BANDS ->
  for_bands (fun i a => <[i := f i]> a) l = map f (seq 0 NUM_AUDIO_BANDS).
Proof.
  destruct l as [|a [|b [|c [|d [|e l]]]]]; try discriminate. reflexivity.
Qed.

(** The body of the transition: the statistics' [mean()] and
    [standardDeviation()] go into the baseline, the flag is raised, the
    line is printed and [saveLearnedParameters] runs (one more line in the
    transcript; with a working card, one more record at the end of
    LEARN.DAT). *)
Lemma establishBaseline_effect (w : World) :
  length (audioEnergy (colonyBaseline (eng w))) = NUM_AUDIO_BANDS ->
  length (audioStdDev (colonyBaseline (eng w))) = NUM_AUDIO_BANDS ->
  let w' := establishBaseline w in
  baselineEstablished (eng w') = true
  /\ colonyBaseline (eng w') = baseline_of_stats (eng w)
  /\ (exists msg,
        serial w'
        = serial w ++ ["Current Baseline Values:"; "Audio bands:";
                       "Baseline established!"; msg]%string)
  /\ (sdCardAvailable (card w) = true -> sd_open_ok (card w) = true ->
      learn_dat (card w')
      = Some (card_data (card w)
              ++ saved_record (set_colonyBaseline (baseline_of_stats (eng w))
                                 (eng w)))).
Proof.
  intros HlenE HlenS w'.
  unfold w', establishBaseline.
  rewrite saveLearnedParameters_eng.
  assert (Hb : colonyBaseline (eng (updateBaseline w))
               = baseline_of_stats (eng w)).
  { unfold updateBaseline, baseline_of_stats.
    cbn [eng upd_eng println printBaseline colonyBaseline
         set_colonyBaseline].
    rewrite !for_bands_insert4 by assumption. reflexivity. }
  split; [reflexivity|]. split; [exact Hb|]. split.
  { match goal with
    | |- context [saveLearnedParameters ?x] =>
        destruct (saveLearnedParameters_serial x) as (msg & -> & _)
    end.
    exists msg. unfold updateBaseline, printBaseline, println, upd_eng.
    cbn [serial]. now rewrite <- !app_assoc. }
  intros Hav Hok.
  unfold saveLearnedParameters, isSDCardAvailable, SD_open_FILE_WRITE.
  cbn [card println upd_eng updateBaseline printBaseline].
  rewrite Hav, Hok. cbn [negb snd card println file_close learn_dat
    file_write f_data eng upd_eng].
  cbn [colonyBaseline set_baselineEstablished dailyPatterns
       learningSampleCount currentSeason].
  rewrite Hb. unfold saved_record, card_data.
  cbn [colonyBaseline set_colonyBaseline dailyPatterns learningSampleCount
       currentSeason].
  unfold updateBaseline. cbn [eng upd_eng println printBaseline
    set_colonyBaseline dailyPatterns learningSampleCount currentSeason].
  now rewrite <- !app_assoc.
Qed.

Lemma feedSample_colonyBaseline (e : EnvData) (a : list float)
    (m : MotionData) (l : LightData) (wt : float) (t : DateTime)
    (L : Learning) :
  colonyBaseline (feedSample e a m l wt t L) = colonyBaseline L.
Proof.
  unfold feedSample, updateDailyPattern.
  match goal with
  | |- context [dailyPatterns ?L0 !! ?i] => destruct (dailyPatterns L0 !! i)
  end; reflexivity.
Qed.

(** While the flag is down, a cycle does not touch the baseline. *)
Lemma cycle_collecting_baseline (c : Cycle) (w : World) :
  baselineEstablished (eng (cycle c w)) = false ->
  colonyBaseline (eng (cycle c w)) = colonyBaseline (eng w).
Proof.
  intros Hfalse.
  destruct (cycle_obs c w) as (_ & He & _).
  rewrite Hfalse in He. symmetry in He.
  apply orb_false_elim in He as [He Hlt].
  unfold cycle, updateLearningModel in *.
  destruct (feedSample_obs (c_env c) (c_audio c) (c_motion c) (c_light c)
              (c_weight c) (c_time c) (eng w)) as [He1 Hc1].
  unfold establish_due. cbn [eng upd_eng].
  rewrite Hc1, Hlt. cbn [andb].
  unfold periodicUpdates. cbn [eng upd_eng].
  rewrite He1, He. cbn [andb].
  destruct (_ =? 0); rewrite ?saveLearnedParameters_eng; cbn [eng];
    apply feedSample_colonyBaseline.
Qed.

Lemma run_collecting_baseline (cs : list Cycle) :
  forall w : World,
    baselineEstablished (eng w) = false ->
    learningSampleCount (eng w) + Z.of_nat (length cs) < LEARNING_SAMPLES_MIN ->
    0 <= learningSampleCount (eng w) ->
    colonyBaseline (eng (run cs w)) = colonyBaseline (eng w).
Proof.
  induction cs as [|c cs IH]; intros w He Hlt Hn; [reflexivity|].
  rewrite run_cons. cbn [length] in Hlt.
  destruct (cycle_obs c w) as (Hc' & He' & _).
  unfold LEARNING_SAMPLES_MIN, UINT16_MOD in *.
  rewrite Z.mod_small in Hc', He' by lia.
  rewrite He in He'. cbn [orb] in He'.
  replace (100 <=? learningSampleCount (eng w) + 1) with false in He'
    by (symmetry; apply Z.leb_gt; lia).
  rewrite IH; [|exact He'|rewrite Hc'; lia|rewrite Hc'; lia].
  now apply cycle_collecting_baseline.
Qed.

(** C2: from a reset engine, after [n] calls of [updateLearningModel] the
    flag is up exactly when [n >= LEARNING_SAMPLES_MIN], and the transcript
    holds "Baseline established!" once if it is and not at all before.  The
    guard of the transition holds in the call that brings the count to
    [LEARNING_SAMPLES_MIN] and in no other; that call runs
    [establishBaseline], which stores each statistics' [mean()] and
    [standardDeviation()] in the baseline, raises the flag and calls
    [saveLearnedParameters]. *)
Theorem baseline_established_exactly_once (L0 : Learning) (sd0 : SDCard)
    (log : list string) (cs : list Cycle) :
  let w0 := mkWorld (resetLearningSystem L0) sd0 log in
  let n := Z.of_nat (length cs) in
  let w := run cs w0 in
  isBaselineEstablished w = (LEARNING_SAMPLES_MIN <=? n)
  /\ occurrences "Baseline established!" (serial w)
     = (occurrences "Baseline established!" log
        + if (LEARNING_SAMPLES_MIN <=? n)%Z then 1 else 0)%nat
  /\ (forall c : Cycle,
        establish_due (eng (fed c w)) = (n + 1 =? LEARNING_SAMPLES_MIN)
        /\ cycle c w
           = periodicUpdates
               (if n + 1 =? LEARNING_SAMPLES_MIN
                then establishBaseline (fed c w) else fed c w))
  /\ (forall c : Cycle,
        n + 1 = LEARNING_SAMPLES_MIN ->
        let w' := establishBaseline (fed c w) in
        baselineEstablished (eng w') = true
        /\ colonyBaseline (eng w') = baseline_of_stats (eng (fed c w))
        /\ (exists msg,
              serial w'
              = serial w ++ ["Current Baseline Values:"; "Audio bands:";
                             "Baseline established!"; msg]%string)
        /\ (sdCardAvailable (card w) = true -> sd_open_ok (card w) = true ->
            learn_dat (card w')
            = Some (card_data (card w)
                    ++ saved_record
                         (set_colonyBaseline
                            (baseline_of_stats (eng (fed c w)))
                            (eng (fed c w)))))).
Proof.
  intros w0 n w.
  destruct (run_obs cs w0 0 (occurrences "Baseline established!" log))
    as (Hc & He & Ho); [lia|reflexivity|reflexivity| |].
  { change (LEARNING_SAMPLES_MIN <=? 0) with false. cbv iota.
    now rewrite Nat.add_0_r. }
  fold w in Hc, He, Ho. rewrite Z.add_0_l in Hc, He, Ho. fold n in Hc, He, Ho.
  assert (Hn : 0 <= n) by (unfold n; lia).
  assert (Hdue : forall c,
             establish_due (eng (fed c w)) = (n + 1 =? LEARNING_SAMPLES_MIN)).
  { intros c. unfold fed, establish_due. cbn [eng upd_eng].
    destruct (feedSample_obs (c_env c) (c_audio c) (c_motion c) (c_light c)
                (c_weight c) (c_time c) (eng w)) as [-> ->].
    rewrite He, Hc, Z.add_mod_idemp_l by (unfold UINT16_MOD; lia).
    unfold LEARNING_SAMPLES_MIN, UINT16_MOD.
    assert (Hcases : n <= 98 \/ n = 99 \/ 100 <= n) by lia.
    destruct Hcases as [H|[->|H]]; [|reflexivity|].
    - rewrite Z.mod_small by lia.
      replace (100 <=? n + 1) with false by (symmetry; apply Z.leb_gt; lia).
      symmetry. apply Z.eqb_neq. lia.
    - replace (100 <=? n) with true by (symmetry; apply Z.leb_le; lia).
      rewrite andb_false_r. symmetry. apply Z.eqb_neq. lia. }
  split; [exact He|]. split; [exact Ho|]. split.
  { intros c. split; [apply Hdue|].
    unfold cycle, updateLearningModel. fold (fed c w).
    now rewrite Hdue. }
  intros c Hn1 w'.
  assert (Hbase : colonyBaseline (eng (fed c w)) = default_baseline).
  { unfold fed. cbn [eng upd_eng]. rewrite feedSample_colonyBaseline.
    unfold w. rewrite run_collecting_baseline; try reflexivity.
    fold n. cbn. lia. }
  destruct (establishBaseline_effect (fed c w))
    as (H1 & H2 & H3 & H4); try (rewrite Hbase; reflexivity).
  repeat split; [exact H1|exact H2|exact H3|exact H4].
Qed.

Lemma baseline_established_exactly_once_witness :
  Z.of_nat (length (replicate 99 steady_cycle)) + 1 = LEARNING_SAMPLES_MIN
  /\ colonyBaseline
       (eng (establishBaseline
               (fed steady_cycle (steady_world 99 blank_card))))
     = baseline_of_stats
         (eng (fed steady_cycle (steady_world 99 blank_card))).
Proof.
  split; [reflexivity|].
  apply (baseline_established_exactly_once initial_Learning blank_card []
           (replicate 99 steady_cycle)).
  reflexivity.
Defined.

(** ** Start-up after a successful load (C9) *)

(** [loadLearnedParameters] reports success exactly when the card is
    available, LEARN.DAT exists and it can be opened. *)
Lemma loadLearnedParameters_success (w : World) :
  fst (loadLearnedParameters w)
  = sdCardAvailable (card w) && SD_exists (card w) && sd_open_ok (card w).
Proof.
  unfold loadLearnedParameters, isSDCardAvailable, SD_open_FILE_READ,
    SD_exists.
  destruct (sdCardAvailable (card w)); [|reflexivity].
  destruct (learn_dat (card w)); [|reflexivity].
  destruct (sd_open_ok (card w)); reflexivity.
Qed.

Lemma run_established (cs : list Cycle) :
  forall w : World,
    baselineEstablished (eng w) = true ->
    baselineEstablished (eng (run cs w)) = true.
Proof.
  induction cs as [|c cs IH]; intros w He; [exact He|].
  rewrite run_cons. apply IH.
  destruct (cycle_obs c w) as (_ & -> & _). now rewrite He.
Qed.

Lemma setupLearning_loaded (rtc : RTC) (w : World) :
  fst (loadLearnedParameters (println "Initializing learning system..." w))
  = true ->
  setupLearning rtc w
  = upd_eng
      (set_currentSeason
         (if rtcIsRunning rtc then getSeason (dt_month (getRTCTime rtc))
          else 0))
      (upd_eng (set_baselineEstablished true)
         (println "Loaded existing learning parameters"
            (snd (loadLearnedParameters
                    (println "Initializing learning system..." w))))).
Proof.
  intros H. unfold setupLearning.
  destruct (loadLearnedParameters _) as [loaded w1].
  cbn [fst snd] in *. now rewrite H.
Qed.

(** C9: when the card is available and LEARN.DAT exists and opens,
    [setupLearning] raises the flag whatever count the file restores (even
    one below [LEARNING_SAMPLES_MIN]), and no later cycle lowers it. *)
Theorem setupLearning_restored_is_established (rtc : RTC) (w : World) :
  sdCardAvailable (card w) = true ->
  SD_exists (card w) = true ->
  sd_open_ok (card w) = true ->
  isBaselineEstablished (setupLearning rtc w) = true
  /\ learningSampleCount (eng (setupLearning rtc w))
     = learningSampleCount
         (eng (snd (loadLearnedParameters
                      (println "Initializing learning system..." w))))
  /\ forall cs : list Cycle,
       isBaselineEstablished (run cs (setupLearning rtc w)) = true.
Proof.
  intros Hav Hex Hok.
  assert (Hload : fst (loadLearnedParameters
                         (println "Initializing learning system..." w))
                  = true).
  { rewrite loadLearnedParameters_success. cbn [card println].
    now rewrite Hav, Hex, Hok. }
  rewrite (setupLearning_loaded rtc w Hload).
  split; [reflexivity|]. split; [reflexivity|].
  intros cs. apply run_established. reflexivity.
Qed.

Lemma setupLearning_restored_is_established_witness :
  let w := reboot (steady_world 20 blank_card) in
  isBaselineEstablished (setupLearning (mkRTC true (mkDateTime 13 6)) w)
  = true
  /\ learningSampleCount
       (eng (setupLearning (mkRTC true (mkDateTime 13 6)) w)) = 20.
Proof.
  cbv zeta.
  destruct (setupLearning_restored_is_established
              (mkRTC true (mkDateTime 13 6))
              (reboot (steady_world 20 blank_card)))
    as (He & Hc & _); try (vm_compute; reflexivity).
  split; [exact He|]. rewrite Hc. vm_compute. reflexivity.
Defined.

(** ** Memory images: decoding what was encoded *)

Lemma Z_of_byte_of_Z (z : Z) : Z_of_byte (byte_of_Z z) = z mod 256.
Proof.
  unfold Z_of_byte, byte_of_Z.
  assert (Hr : 0 <= z mod 256 < 256) by (apply Z.mod_pos_bound; lia).
  pose proof (Byte.to_of_N_option_map (Z.to_N (z mod 256))) as H.
  destruct (Byte.of_N (Z.to_N (z mod 256))) as [b|] eqn:E.
  - rewrite (Byte.to_of_N _ E). lia.
  - cbn [option_map] in H.
    destruct (N.leb_spec (Z.to_N (z mod 256)) 255); [discriminate|lia].
Qed.

Lemma Z_of_byte_range (b : byte) : 0 <= Z_of_byte b < 256.
Proof.
  unfold Z_of_byte. pose proof (Byte.to_N_bounded b). lia.
Qed.

Lemma length_encode_le (n : nat) : forall w, length (encode_le n w) = n.
Proof. induction n as [|k IH]; intros w; cbn; [|rewrite IH]; reflexivity. Qed.

Lemma decode_encode_le (n : nat) :
  forall w, decode_le (encode_le n w) = w mod 256 ^ Z.of_nat n.
Proof.
  induction n as [|k IH]; intros w.
  - cbn. now rewrite Z.mod_1_r.
  - cbn [encode_le decode_le fold_right].
    change (fold_right (fun b acc => Z_of_byte b + 256 * acc) 0
              (encode_le k (w / 256)))
      with (decode_le (encode_le k (w / 256))).
    rewrite IH, Z_of_byte_of_Z, Nat2Z.inj_succ, Z.pow_succ_r by lia.
    rewrite Z.rem_mul_r by lia. reflexivity.
Qed.

Lemma decode_encode_le_small (n : nat) (w : Z) :
  in_range (256 ^ Z.of_nat n) w = true -> decode_le (encode_le n w) = w.
Proof.
  unfold in_range. rewrite andb_true_iff, Z.leb_le, Z.ltb_lt.
  intros H. rewrite decode_encode_le. apply Z.mod_small. lia.
Qed.

Lemma decode_le_range (bs : list byte) :
  0 <= decode_le bs < 256 ^ Z.of_nat (length bs).
Proof.
  induction bs as [|b bs IH].
  - cbn. lia.
  - cbn [decode_le fold_right length].
    change (fold_right (fun b acc => Z_of_byte b + 256 * acc) 0 bs)
      with (decode_le bs).
    rewrite Nat2Z.inj_succ, Z.pow_succ_r by lia.
    pose proof (Z_of_byte_range b). nia.
Qed.

Lemma float_at_prefix (a b : list byte) (i : nat) :
  (sizeof_float * i + sizeof_float <= length a)%nat ->
  float_at (a ++ b) i = float_at a i.
Proof.
  intros H. unfold float_at.
  rewrite drop_app_le by lia.
  rewrite take_app_le; [reflexivity|]. rewrite length_drop. lia.
Qed.

Lemma float_at_bytes_of_floats (fs : list float) :
  forall (i : nat) (f : float),
    fs !! i = Some f ->
    float_at (bytes_of_floats fs) i = f mod FLOAT_MOD.
Proof.
  induction fs as [|g fs IH]; intros i f Hi; [discriminate|].
  unfold bytes_of_floats, float_at in *. cbn [map concat].
  destruct i as [|i].
  - injection Hi as ->. rewrite Nat.mul_0_r, drop_0.
    rewrite take_app_length' by (now rewrite length_encode_le).
    now rewrite decode_encode_le.
  - replace (sizeof_float * S i)%nat
      with (length (encode_le sizeof_float g) + sizeof_float * i)%nat
      by (rewrite length_encode_le; lia).
    rewrite drop_app_add. now apply IH.
Qed.

Lemma length_bytes_of_floats (fs : list float) :
  length (bytes_of_floats fs) = (sizeof_float * length fs)%nat.
Proof.
  unfold bytes_of_floats. induction fs as [|f fs IH]; [reflexivity|].
  cbn [map concat length]. rewrite length_app, length_encode_le, IH. lia.
Qed.

Lemma length_bytes_of_SensorBaseline (b : SensorBaseline) :
  length (audioEnergy b) = NUM_AUDIO_BANDS ->
  length (audioStdDev b) = NUM_AUDIO_BANDS ->
  length (bytes_of_SensorBaseline b) = sizeof_SensorBaseline.
Proof.
  intros H1 H2. unfold bytes_of_SensorBaseline.
  rewrite length_bytes_of_floats, !length_app, H1, H2. reflexivity.
Qed.

Lemma wf_baseline_spec (b : SensorBaseline) :
  wf_baseline b = true ->
  Forall (fun f => f mod FLOAT_MOD = f)
    ([tempMean b; tempStdDev b; humidityMean b; humidityStdDev b;
      pressureMean b; pressureStdDev b; weightMean b; weightStdDev b;
      weightDailyDelta b] ++ audioEnergy b ++ audioStdDev b)
  /\ length (audioEnergy b) = NUM_AUDIO_BANDS
  /\ length (audioStdDev b) = NUM_AUDIO_BANDS.
Proof.
  unfold wf_baseline. rewrite !andb_true_iff, !Nat.eqb_eq.
  intros [[H1 H2] H3]. split; [|now split].
  rewrite forallb_forall in H1. apply Forall_forall. intros f Hf.
  apply list_elem_of_In in Hf. specialize (H1 f Hf).
  unfold in_range in H1. rewrite andb_true_iff, Z.leb_le, Z.ltb_lt in H1.
  apply Z.mod_small. lia.
Qed.

(** Reading back the image of a well-formed baseline gives the baseline. *)
Lemma SensorBaseline_of_bytes_of (b : SensorBaseline) :
  wf_baseline b = true ->
  SensorBaseline_of_bytes (bytes_of_SensorBaseline b) = b.
Proof.
  intros Hwf. destruct (wf_baseline_spec b Hwf) as (Hall & HlenE & HlenS).
  destruct b as [f1' f2' f3' f4' f5' f6' f7' f8' f9' ae asd].
  cbn [audioEnergy audioStdDev] in *.
  destruct ae as [|a0 [|a1 [|a2 [|a3 [|? ?]]]]]; try discriminate.
  destruct asd as [|s0 [|s1 [|s2 [|s3 [|? ?]]]]]; try discriminate.
  cbn [tempMean tempStdDev humidityMean humidityStdDev pressureMean
       pressureStdDev weightMean weightStdDev weightDailyDelta app] in Hall.
  unfold SensorBaseline_of_bytes, bytes_of_SensorBaseline.
  cbn [tempMean tempStdDev humidityMean humidityStdDev pressureMean
       pressureStdDev weightMean weightStdDev weightDailyDelta audioEnergy
       audioStdDev app NUM_AUDIO_BANDS seq map].
  repeat match goal with
         | H : Forall _ (_ :: _) |- _ => inversion_clear H
         end.
  repeat (erewrite float_at_bytes_of_floats by reflexivity).
  congruence.
Qed.

Lemma length_bytes_of_DailyPattern (p : DailyPattern) :
  length (bytes_of_DailyPattern p) = sizeof_DailyPattern.
Proof.
  unfold bytes_of_DailyPattern.
  rewrite !length_app, !length_encode_le. reflexivity.
Qed.

Lemma DailyPattern_of_bytes_of (p : DailyPattern) :
  wf_pattern p = true ->
  DailyPattern_of_bytes (bytes_of_DailyPattern p) = p.
Proof.
  unfold wf_pattern, in_range.
  rewrite !andb_true_iff, !Z.leb_le, !Z.ltb_lt.
  intros [[[Ha Ht] Hh] Hc].
  destruct p as [a t h c]. cbn [activityLevel tempOffset humidityOffset
    sampleCount] in *.
  unfold DailyPattern_of_bytes, bytes_of_DailyPattern.
  cbn [activityLevel tempOffset humidityOffset sampleCount].
  assert (Himg : encode_le sizeof_float a ++ encode_le sizeof_float t
                 ++ encode_le sizeof_float h ++ encode_le 2 c ++ [x00; x00]
                 = bytes_of_floats [a; t; h] ++ encode_le 2 c ++ [x00; x00]).
  { unfold bytes_of_floats. cbn [map concat].
    now rewrite app_nil_r, <- !app_assoc. }
  rewrite Himg.
  rewrite !float_at_prefix
    by (rewrite length_bytes_of_floats; unfold sizeof_float;
        cbn [length]; lia).
  rewrite (float_at_bytes_of_floats [a; t; h] 0 a eq_refl),
    (float_at_bytes_of_floats [a; t; h] 1 t eq_refl),
    (float_at_bytes_of_floats [a; t; h] 2 h eq_refl).
  replace 12%nat with (length (bytes_of_floats [a; t; h]) + 0)%nat
    by (rewrite length_bytes_of_floats; reflexivity).
  rewrite drop_app_add, drop_0.
  rewrite take_app_length' by (now rewrite length_encode_le).
  rewrite decode_encode_le.
  unfold FLOAT_MOD, UINT16_MOD in *.
  rewrite !Z.mod_small by (cbn; lia). reflexivity.
Qed.

Lemma length_bytes_of_dailyPatterns (ps : list DailyPattern) :
  length (bytes_of_dailyPatterns ps)
  = (sizeof_DailyPattern * length ps)%nat.
Proof.
  unfold bytes_of_dailyPatterns. induction ps as [|p ps IH]; [reflexivity|].
  cbn [map concat length].
  rewrite length_app, length_bytes_of_DailyPattern, IH. lia.
Qed.

Lemma dailyPatterns_of_bytes_of (ps : list DailyPattern) :
  forallb wf_pattern ps = true ->
  dailyPatterns_of_bytes (length ps) (bytes_of_dailyPatterns ps) = ps.
Proof.
  induction ps as [|p ps IH]; [reflexivity|].
  cbn [forallb]. rewrite andb_true_iff. intros [Hp Hps].
  unfold bytes_of_dailyPatterns in *.
  cbn [map concat length dailyPatterns_of_bytes].
  rewrite take_app_length', drop_app_length'
    by (now rewrite length_bytes_of_DailyPattern).
  rewrite DailyPattern_of_bytes_of by assumption.
  now rewrite IH.
Qed.

Lemma dailyPatterns_of_bytes_prefix (n : nat) :
  forall a b : list byte,
    (sizeof_DailyPattern * n <= length a)%nat ->
    dailyPatterns_of_bytes n (a ++ b) = dailyPatterns_of_bytes n a.
Proof.
  induction n as [|k IH]; intros a b H; [reflexivity|].
  cbn [dailyPatterns_of_bytes].
  rewrite take_app_le, drop_app_le by (unfold sizeof_DailyPattern in *; lia).
  rewrite IH; [reflexivity|].
  rewrite length_drop. unfold sizeof_DailyPattern in *. lia.
Qed.

Lemma SensorBaseline_of_bytes_prefix (a b : list byte) :
  length a = sizeof_SensorBaseline ->
  SensorBaseline_of_bytes (a ++ b) = SensorBaseline_of_bytes a.
Proof.
  intros H. unfold SensorBaseline_of_bytes.
  cbn [NUM_AUDIO_BANDS seq map].
  rewrite !float_at_prefix
    by (rewrite H; unfold sizeof_float, sizeof_SensorBaseline; lia).
  reflexivity.
Qed.

(** A read of [n] bytes that the file still has replaces the first [n]
    bytes of the buffer and advances by [n]. *)
Lemma file_read_full (n pos : nat) (buf d : list byte) :
  (pos + n <= length d)%nat ->
  file_read n buf (mkFile d pos)
  = (take n (drop pos d) ++ drop n buf, mkFile d (pos + n)).
Proof.
  intros H. unfold file_read. cbn [f_data f_pos].
  rewrite length_take, length_drop.
  replace (n `min` (length d - pos))%nat with n by lia. reflexivity.
Qed.

(** What a successful load leaves in the persisted part of the state when
    LEARN.DAT holds at least one whole record: the values decoded from its
    first [sizeof_record] bytes, whatever the state was before. *)
Lemma loadLearnedParameters_adopts (w : World) (d : list byte) :
  sdCardAvailable (card w) = true ->
  sd_open_ok (card w) = true ->
  learn_dat (card w) = Some d ->
  (sizeof_record <= length d)%nat ->
  fst (loadLearnedParameters w) = true
  /\ persisted (eng (snd (loadLearnedParameters w)))
     = (SensorBaseline_of_bytes (take sizeof_SensorBaseline d),
        dailyPatterns_of_bytes GRID_CELLS
          (take sizeof_dailyPatterns (drop sizeof_SensorBaseline d)),
        decode_le (take sizeof_learningSampleCount (drop 1604 d)),
        decode_le (take sizeof_currentSeason (drop 1606 d))).
Proof.
  intros Hav Hok Hd Hlen.
  unfold loadLearnedParameters, isSDCardAvailable, SD_exists,
    SD_open_FILE_READ.
  rewrite Hav, Hd, Hok. cbn [negb].
  unfold sizeof_record, sizeof_SensorBaseline, sizeof_dailyPatterns,
    sizeof_learningSampleCount, sizeof_currentSeason in *.
  rewrite (file_read_full 68 0) by lia.
  rewrite (file_read_full 1536 (0 + 68)) by lia.
  rewrite (file_read_full 2 (0 + 68 + 1536)) by lia.
  rewrite (file_read_full 1 (0 + 68 + 1536 + 2)) by lia.
  cbn [fst snd eng printBaseline println persisted colonyBaseline
       dailyPatterns learningSampleCount currentSeason Nat.add].
  split; [reflexivity|].
  rewrite drop_0.
  rewrite SensorBaseline_of_bytes_prefix
    by (rewrite length_take; unfold sizeof_SensorBaseline; lia).
  rewrite dailyPatterns_of_bytes_prefix
    by (rewrite length_take, length_drop;
        unfold sizeof_DailyPattern, GRID_CELLS; lia).
  rewrite !take_app_length'
    by (rewrite length_take, length_drop; lia).
  reflexivity.
Qed.

(** ** Saving and restoring (C1, C6) *)

(** A save on a working card appends one record to whatever LEARN.DAT
    already holds; on a card that is unavailable or whose file cannot be
    opened it reports failure and leaves the card as it is. *)
Lemma saveLearnedParameters_appends (w : World) :
  (sdCardAvailable (card w) = true -> sd_open_ok (card w) = true ->
   fst (saveLearnedParameters w) = true
   /\ learn_dat (card (snd (saveLearnedParameters w)))
      = Some (card_data (card w) ++ saved_record (eng w)))
  /\ (sdCardAvailable (card w) && sd_open_ok (card w) = false ->
      fst (saveLearnedParameters w) = false
      /\ card (snd (saveLearnedParameters w)) = card w).
Proof.
  unfold saveLearnedParameters, isSDCardAvailable, SD_open_FILE_WRITE.
  split.
  - intros -> ->. cbn [negb fst snd card println file_close learn_dat
      file_write f_data]. split; [reflexivity|].
    unfold saved_record, card_data. now rewrite <- !app_assoc.
  - destruct (sdCardAvailable (card w)); [|split; reflexivity].
    cbn [andb negb]. intros ->. split; reflexivity.
Qed.

Lemma wf_persisted_spec (L : Learning) :
  wf_persisted L = true ->
  wf_baseline (colonyBaseline L) = true
  /\ forallb wf_pattern (dailyPatterns L) = true
  /\ length (dailyPatterns L) = GRID_CELLS
  /\ in_range UINT16_MOD (learningSampleCount L) = true
  /\ in_range UINT8_MOD (currentSeason L) = true.
Proof.
  unfold wf_persisted. rewrite !andb_true_iff, Nat.eqb_eq. tauto.
Qed.

Lemma length_saved_record (L : Learning) :
  wf_persisted L = true -> length (saved_record L) = sizeof_record.
Proof.
  intros Hwf. destruct (wf_persisted_spec L Hwf) as (Hb & _ & Hlen & _).
  destruct (wf_baseline_spec _ Hb) as (_ & HE & HS).
  unfold saved_record.
  rewrite !length_app, (length_bytes_of_SensorBaseline _ HE HS),
    length_bytes_of_dailyPatterns, Hlen, !length_encode_le.
  reflexivity.
Qed.

(** The record of a well-formed state decodes to that state. *)
Lemma saved_record_decodes (L : Learning) (rest : list byte) :
  wf_persisted L = true ->
  let d := saved_record L ++ rest in
  (SensorBaseline_of_bytes (take sizeof_SensorBaseline d),
   dailyPatterns_of_bytes GRID_CELLS
     (take sizeof_dailyPatterns (drop sizeof_SensorBaseline d)),
   decode_le (take sizeof_learningSampleCount (drop 1604 d)),
   decode_le (take sizeof_currentSeason (drop 1606 d)))
  = persisted L.
Proof.
  intros Hwf d.
  destruct (wf_persisted_spec L Hwf) as (Hb & Hps & Hlen & Hc & Hs).
  destruct (wf_baseline_spec _ Hb) as (_ & HE & HS).
  pose proof (length_bytes_of_SensorBaseline _ HE HS) as HlenB.
  pose proof (length_bytes_of_dailyPatterns (dailyPatterns L)) as HlenP.
  rewrite Hlen in HlenP.
  unfold d, saved_record, persisted. rewrite <- !app_assoc.
  rewrite take_app_length', drop_app_length' by (symmetry; exact HlenB).
  rewrite take_app_length' by (symmetry; exact HlenP).
  replace 1606%nat
    with (length (bytes_of_SensorBaseline (colonyBaseline L))
          + (length (bytes_of_dailyPatterns (dailyPatterns L))
             + (length (encode_le sizeof_learningSampleCount
                          (learningSampleCount L)) + 0)))%nat
    by (rewrite HlenB, HlenP, length_encode_le; reflexivity).
  replace 1604%nat
    with (length (bytes_of_SensorBaseline (colonyBaseline L))
          + (length (bytes_of_dailyPatterns (dailyPatterns L)) + 0))%nat
    by (rewrite HlenB, HlenP; reflexivity).
  rewrite !drop_app_add, !drop_0.
  rewrite !take_app_length' by (now rewrite length_encode_le).
  rewrite SensorBaseline_of_bytes_of by exact Hb.
  rewrite <- Hlen, dailyPatterns_of_bytes_of by exact Hps.
  rewrite !decode_encode_le_small by assumption.
  reflexivity.
Qed.

(** The round trip on a card whose LEARN.DAT is missing or empty: the save
    succeeds and a load, into any engine, restores the baseline, the 96
    cells, the sample count and the season exactly. *)
Lemma save_then_load_first_record (L L0 : Learning) (c : SDCard)
    (log log0 : list string) :
  wf_persisted L = true ->
  sdCardAvailable c = true -> sd_open_ok c = true -> card_data c = [] ->
  let saved := saveLearnedParameters (mkWorld L c log) in
  let loaded := loadLearnedParameters (mkWorld L0 (card (snd saved)) log0) in
  fst saved = true /\ fst loaded = true
  /\ persisted (eng (snd loaded)) = persisted L.
Proof.
  intros Hwf Hav Hok Hempty saved loaded.
  destruct (saveLearnedParameters_appends (mkWorld L c log)) as [Hs _].
  destruct (Hs Hav Hok) as [Hs1 Hs2]. fold saved in Hs1, Hs2.
  cbn [card eng] in Hs2. rewrite Hempty in Hs2. cbn [app] in Hs2.
  assert (Hcard : sdCardAvailable (card (snd saved)) = true
                  /\ sd_open_ok (card (snd saved)) = true).
  { unfold saved, saveLearnedParameters, isSDCardAvailable,
      SD_open_FILE_WRITE. cbn [card]. rewrite Hav, Hok.
    cbn [negb snd card println file_close sdCardAvailable sd_open_ok].
    split; assumption. }
  destruct Hcard as [Hav' Hok'].
  destruct (loadLearnedParameters_adopts
              (mkWorld L0 (card (snd saved)) log0) (saved_record L))
    as [Hl1 Hl2]; trivial.
  { now rewrite length_saved_record. }
  fold loaded in Hl1, Hl2.
  split; [exact Hs1|]. split; [exact Hl1|].
  rewrite Hl2.
  pose proof (saved_record_decodes L [] Hwf) as Hdec.
  cbv zeta in Hdec. now rewrite app_nil_r in Hdec.
Qed.

(** C1 at the failing input: on a card that already holds records (here
    the periodic saves of cycles 20 and 40), [saveLearnedParameters]
    appends a third record and reports success; [loadLearnedParameters]
    in a fresh instance then reads the first record of the file and
    restores the state of cycle 20 (sample count 20, hour-13 summer cell
    with 20 samples), not the state that was just saved (40 and 40). *)
Theorem save_then_load_restores_oldest_record :
  let w := steady_world 40 blank_card in
  let saved := saveLearnedParameters w in
  let loaded := loadLearnedParameters (reboot (snd saved)) in
  wf_persisted (eng w) = true
  /\ length (card_data (card w)) = (2 * sizeof_record)%nat
  /\ fst saved = true
  /\ length (card_data (card (snd saved))) = (3 * sizeof_record)%nat
  /\ fst loaded = true
  /\ learningSampleCount (eng w) = 40
  /\ learningSampleCount (eng (snd loaded)) = 20
  /\ option_map sampleCount (dailyPatterns (eng w) !! cell_index 13 2)
     = Some 40
  /\ option_map sampleCount
       (dailyPatterns (eng (snd loaded)) !! cell_index 13 2) = Some 20
  /\ persisted (eng (snd loaded))
     = persisted (eng (steady_world 20 blank_card))
  /\ persisted (eng (snd loaded)) <> persisted (eng w).
Proof.
  vm_compute.
  repeat (split; [reflexivity|]).
  intros H. apply (f_equal (fun t => snd (fst t))) in H.
  discriminate H.
Qed.

(** ** Reads from a file of any length *)

Lemma drop_min_length {A : Type} (k : nat) (d : list A) :
  drop (k `min` length d) d = drop k d.
Proof.
  destruct (Nat.le_gt_cases k (length d)) as [H|H].
  - now rewrite Nat.min_l.
  - rewrite Nat.min_r by lia. rewrite !drop_ge by lia. reflexivity.
Qed.

(** One [File::read] into the object [seg] that lies after [pre] and
    before [post] in the record: the object ends up holding its part of
    [memory_after_read], whatever the length of the file. *)
Lemma file_read_image (n pos : nat) (d pre seg post : list byte) :
  n = length seg ->
  pos = (length pre `min` length d)%nat ->
  file_read n seg (mkFile d pos)
  = (take n (drop (length pre) (memory_after_read d (pre ++ seg ++ post))),
     mkFile d ((length pre + n) `min` length d)).
Proof.
  intros -> ->. unfold file_read, memory_after_read. cbn [f_data f_pos].
  rewrite drop_min_length.
  f_equal.
  - destruct (Nat.le_gt_cases (length d) (length pre)) as [H1|H1].
    + rewrite (drop_ge d) by lia. rewrite take_nil. cbn [length app].
      rewrite drop_0.
      rewrite drop_app_ge by lia.
      rewrite drop_drop.
      replace (length d + (length pre - length d))%nat with (length pre)
        by lia.
      rewrite drop_app_length. now rewrite take_app_length.
    + rewrite drop_app_le by lia.
      rewrite drop_app_ge by lia.
      destruct (Nat.le_gt_cases (length pre + length seg) (length d))
        as [H2|H2].
      * rewrite take_app_le by (rewrite length_drop; lia).
        rewrite length_take, length_drop.
        rewrite (drop_ge seg) by lia. now rewrite app_nil_r.
      * rewrite (take_ge (drop (length pre) d))
          by (rewrite length_drop; lia).
        rewrite take_app_ge by (rewrite length_drop; lia).
        rewrite length_drop.
        rewrite drop_app_le by lia.
        rewrite take_app_length'
          by (rewrite length_drop; lia).
        reflexivity.
  - f_equal. rewrite length_take, length_drop. lia.
Qed.

(** What a load leaves in the persisted part of a well-formed state once
    the file has been opened, for a file of any length: the values held by
    the memory image of the old state with the bytes of the file copied
    over its beginning. *)
Lemma loadLearnedParameters_image (w : World) (d : list byte) :
  sdCardAvailable (card w) = true ->
  sd_open_ok (card w) = true ->
  learn_dat (card w) = Some d ->
  wf_persisted (eng w) = true ->
  persisted (eng (snd (loadLearnedParameters w)))
  = decode_record (memory_after_read d (saved_record (eng w))).
Proof.
  intros Hav Hok Hd Hwf.
  destruct (wf_persisted_spec _ Hwf) as (Hb & _ & Hlen & _).
  destruct (wf_baseline_spec _ Hb) as (_ & HE & HS).
  pose proof (length_bytes_of_SensorBaseline _ HE HS) as HlenB.
  pose proof (length_bytes_of_dailyPatterns (dailyPatterns (eng w))) as HlenP.
  rewrite Hlen in HlenP.
  set (img_b := bytes_of_SensorBaseline (colonyBaseline (eng w))) in *.
  set (img_p := bytes_of_dailyPatterns (dailyPatterns (eng w))) in *.
  set (img_c := encode_le sizeof_learningSampleCount
                  (learningSampleCount (eng w))).
  set (img_s := encode_le sizeof_currentSeason (currentSeason (eng w))).
  assert (HlenC : length img_c = 2%nat) by apply length_encode_le.
  assert (HlenS : length img_s = 1%nat) by apply length_encode_le.
  unfold sizeof_SensorBaseline, sizeof_DailyPattern, GRID_CELLS in *.
  cbn in HlenP.
  unfold loadLearnedParameters, isSDCardAvailable, SD_exists,
    SD_open_FILE_READ.
  rewrite Hav, Hd, Hok. cbn [negb].
  fold img_b img_p img_c img_s.
  unfold sizeof_SensorBaseline, sizeof_dailyPatterns,
    sizeof_learningSampleCount, sizeof_currentSeason.
  assert (Himg : saved_record (eng w) = img_b ++ img_p ++ img_c ++ img_s)
    by reflexivity.
  rewrite (file_read_image 68 0 d [] img_b (img_p ++ img_c ++ img_s))
    by (try rewrite HlenB; reflexivity).
  rewrite (file_read_image 1536 _ d img_b img_p (img_c ++ img_s))
    by (try rewrite HlenB; try rewrite HlenP; reflexivity).
  replace (img_b ++ img_p ++ img_c ++ img_s)
    with ((img_b ++ img_p) ++ img_c ++ img_s ++ [])
    by (now rewrite app_nil_r, <- !app_assoc).
  rewrite (file_read_image 2 _ d (img_b ++ img_p) img_c (img_s ++ []))
    by (rewrite ?length_app, ?HlenB, ?HlenP, ?HlenC; reflexivity).
  replace ((img_b ++ img_p) ++ img_c ++ img_s ++ [])
    with ((img_b ++ img_p ++ img_c) ++ img_s ++ [])
    by (now rewrite <- !app_assoc).
  rewrite (file_read_image 1 _ d (img_b ++ img_p ++ img_c) img_s [])
    by (rewrite ?length_app, ?HlenB, ?HlenP, ?HlenC, ?HlenS; reflexivity).
  cbn [fst snd eng printBaseline println persisted colonyBaseline
       dailyPatterns learningSampleCount currentSeason].
  rewrite !length_app, HlenB, HlenP, HlenC. cbn [length Nat.add].
  rewrite Himg.
  replace ((img_b ++ img_p ++ img_c) ++ img_s ++ [])
    with (img_b ++ img_p ++ img_c ++ img_s)
    by (now rewrite app_nil_r, <- !app_assoc).
  set (M := memory_after_read d (img_b ++ img_p ++ img_c ++ img_s)).
  unfold decode_record, sizeof_SensorBaseline, sizeof_dailyPatterns,
    sizeof_learningSampleCount, sizeof_currentSeason.
  rewrite drop_0.
  rewrite !take_take. cbn [Nat.min].
  reflexivity.
Qed.

Lemma drop_memory_after_read (k : nat) (d image : list byte) :
  (length d <= k)%nat ->
  drop k (memory_after_read d image) = drop k image.
Proof.
  intros H. unfold memory_after_read.
  rewrite drop_app_ge by exact H. rewrite drop_drop.
  f_equal. lia.
Qed.

Lemma take_drop_memory_after_read (n k : nat) (d image : list byte) :
  (k + n <= length d)%nat ->
  take n (drop k (memory_after_read d image)) = take n (drop k d).
Proof.
  intros H. unfold memory_after_read.
  rewrite drop_app_le by lia.
  apply take_app_le. rewrite length_drop. lia.
Qed.

(** C6: [loadLearnedParameters] reports failure exactly when the card is
    unavailable, LEARN.DAT is missing or it cannot be opened, and then
    leaves the engine and the card untouched.  Once the file opens it
    reports success whatever the length of the file.  When the file holds
    at least a whole record, the baseline, the 96 cells, the sample count
    and the season are all taken from its first record.  For a file of
    any length the persisted state afterwards is what the memory image of
    the old state holds once the bytes of the file are copied over its
    beginning: the objects that lie wholly within the file come from the
    file, the objects that lie wholly beyond its end keep their old
    values, and the object the file ends in is a mix of both.  So a file
    shorter than a record is adopted in part, and reported as loaded. *)
Theorem loadLearnedParameters_outcomes (w : World) :
  fst (loadLearnedParameters w)
  = sdCardAvailable (card w) && SD_exists (card w) && sd_open_ok (card w)
  /\ (fst (loadLearnedParameters w) = false ->
      eng (snd (loadLearnedParameters w)) = eng w
      /\ card (snd (loadLearnedParameters w)) = card w)
  /\ (forall d : list byte,
        fst (loadLearnedParameters w) = true ->
        learn_dat (card w) = Some d ->
        (sizeof_record <= length d)%nat ->
        persisted (eng (snd (loadLearnedParameters w)))
        = (SensorBaseline_of_bytes (take sizeof_SensorBaseline d),
           dailyPatterns_of_bytes GRID_CELLS
             (take sizeof_dailyPatterns (drop sizeof_SensorBaseline d)),
           decode_le (take sizeof_learningSampleCount (drop 1604 d)),
           decode_le (take sizeof_currentSeason (drop 1606 d))))
  /\ (forall d : list byte,
        fst (loadLearnedParameters w) = true ->
        learn_dat (card w) = Some d ->
        wf_persisted (eng w) = true ->
        let L := eng w in
        let L' := eng (snd (loadLearnedParameters w)) in
        persisted L'
        = decode_record (memory_after_read d (saved_record L))
        /\ ((length d <= sizeof_SensorBaseline)%nat ->
            (dailyPatterns L', learningSampleCount L', currentSeason L')
            = (dailyPatterns L, learningSampleCount L, currentSeason L))
        /\ ((length d <= 1604)%nat ->
            (learningSampleCount L', currentSeason L')
            = (learningSampleCount L, currentSeason L))
        /\ ((length d <= 1606)%nat -> currentSeason L' = currentSeason L)
        /\ ((sizeof_SensorBaseline <= length d)%nat ->
            colonyBaseline L'
            = SensorBaseline_of_bytes (take sizeof_SensorBaseline d))
        /\ ((1604 <= length d)%nat ->
            dailyPatterns L'
            = dailyPatterns_of_bytes GRID_CELLS
                (take sizeof_dailyPatterns (drop sizeof_SensorBaseline d)))
        /\ ((1606 <= length d)%nat ->
            learningSampleCount L'
            = decode_le (take sizeof_learningSampleCount (drop 1604 d)))
        /\ (d = [] -> persisted L' = persisted L)).
Proof.
  split; [apply loadLearnedParameters_success|]. split; [|split].
  - unfold loadLearnedParameters, isSDCardAvailable, SD_exists,
      SD_open_FILE_READ.
    destruct (sdCardAvailable (card w)); [|split; reflexivity].
    destruct (learn_dat (card w)); [|split; reflexivity].
    destruct (sd_open_ok (card w)); [|split; reflexivity].
    cbn [negb fst]. repeat destruct (file_read _ _ _). discriminate.
  - intros d Hok Hd Hlen.
    rewrite loadLearnedParameters_success in Hok.
    apply andb_prop in Hok as [Hok Hopen].
    apply andb_prop in Hok as [Hav _].
    now apply loadLearnedParameters_adopts.
  - intros d Hok Hd Hwf L L'.
    rewrite loadLearnedParameters_success in Hok.
    apply andb_prop in Hok as [Hok Hopen].
    apply andb_prop in Hok as [Hav _].
    pose proof (loadLearnedParameters_image w d Hav Hopen Hd Hwf) as Himg.
    fold L L' in Himg.
    pose proof (saved_record_decodes L [] Hwf) as Hold.
    cbv zeta in Hold. rewrite app_nil_r in Hold.
    set (M := memory_after_read d (saved_record L)) in *.
    assert (HB : colonyBaseline L'
                 = SensorBaseline_of_bytes (take sizeof_SensorBaseline M))
      by exact (f_equal (fun t => fst (fst (fst t))) Himg).
    assert (HP : dailyPatterns L'
                 = dailyPatterns_of_bytes GRID_CELLS
                     (take sizeof_dailyPatterns
                        (drop sizeof_SensorBaseline M)))
      by exact (f_equal (fun t => snd (fst (fst t))) Himg).
    assert (HC : learningSampleCount L'
                 = decode_le (take sizeof_learningSampleCount (drop 1604 M)))
      by exact (f_equal (fun t => snd (fst t)) Himg).
    assert (HS : currentSeason L'
                 = decode_le (take sizeof_currentSeason (drop 1606 M)))
      by exact (f_equal snd Himg).
    assert (HB0 : SensorBaseline_of_bytes
                    (take sizeof_SensorBaseline (saved_record L))
                  = colonyBaseline L)
      by exact (f_equal (fun t => fst (fst (fst t))) Hold).
    assert (HP0 : dailyPatterns_of_bytes GRID_CELLS
                    (take sizeof_dailyPatterns
                       (drop sizeof_SensorBaseline (saved_record L)))
                  = dailyPatterns L)
      by exact (f_equal (fun t => snd (fst (fst t))) Hold).
    assert (HC0 : decode_le (take sizeof_learningSampleCount
                               (drop 1604 (saved_record L)))
                  = learningSampleCount L)
      by exact (f_equal (fun t => snd (fst t)) Hold).
    assert (HS0 : decode_le (take sizeof_currentSeason
                               (drop 1606 (saved_record L)))
                  = currentSeason L)
      by exact (f_equal snd Hold).
    unfold sizeof_SensorBaseline, sizeof_dailyPatterns,
      sizeof_learningSampleCount, sizeof_currentSeason in *.
    assert (Hseason : (length d <= 1606)%nat ->
                      currentSeason L' = currentSeason L).
    { intros H. rewrite HS, <- HS0. unfold M.
      now rewrite drop_memory_after_read. }
    assert (Hcount : (length d <= 1604)%nat ->
                     learningSampleCount L' = learningSampleCount L).
    { intros H. rewrite HC, <- HC0. unfold M.
      now rewrite drop_memory_after_read. }
    assert (Hcells : (length d <= 68)%nat ->
                     dailyPatterns L' = dailyPatterns L).
    { intros H. rewrite HP, <- HP0. unfold M.
      now rewrite drop_memory_after_read. }
    split; [exact Himg|].
    split.
    { intros H. rewrite Hcells, Hcount, Hseason by lia. reflexivity. }
    split.
    { intros H. rewrite Hcount, Hseason by lia. reflexivity. }
    split; [exact Hseason|].
    split.
    { intros H. rewrite HB. unfold M.
      rewrite <- (drop_0 (memory_after_read d (saved_record L))).
      rewrite take_drop_memory_after_read by (cbn; lia).
      now rewrite drop_0. }
    split.
    { intros H. rewrite HP. unfold M.
      now rewrite take_drop_memory_after_read by lia. }
    split.
    { intros H. rewrite HC. unfold M.
      now rewrite take_drop_memory_after_read by lia. }
    intros ->. unfold persisted.
    rewrite Hcells, Hcount, Hseason by (cbn; lia).
    rewrite HB, <- HB0. unfold M, memory_after_read.
    cbn [app length]. now rewrite drop_0.
Qed.

Lemma loadLearnedParameters_outcomes_witness :
  fst (loadLearnedParameters (reset_world short_card)) = true
  /\ (dailyPatterns (eng (snd (loadLearnedParameters
                                 (reset_world short_card)))),
      learningSampleCount (eng (snd (loadLearnedParameters
                                       (reset_world short_card)))),
      currentSeason (eng (snd (loadLearnedParameters
                                 (reset_world short_card)))))
     = (dailyPatterns (eng (reset_world short_card)),
        learningSampleCount (eng (reset_world short_card)),
        currentSeason (eng (reset_world short_card))).
Proof.
  assert (H1 : fst (loadLearnedParameters (reset_world short_card)) = true)
    by (vm_compute; reflexivity).
  assert (H2 : learn_dat (card (reset_world short_card))
               = Some (encode_le sizeof_float f41)) by reflexivity.
  assert (H3 : wf_persisted (eng (reset_world short_card)) = true)
    by (vm_compute; reflexivity).
  assert (H4 : (length (encode_le sizeof_float f41)
                <= sizeof_SensorBaseline)%nat)
    by (vm_compute; lia).
  split; [exact H1|].
  destruct (loadLearnedParameters_outcomes (reset_world short_card))
    as (_ & _ & _ & Hshort).
  destruct (Hshort (encode_le sizeof_float f41) H1 H2 H3) as (_ & Hkeep & _).
  exact (Hkeep H4).
Defined.

(** C6 as stated fails for a short file: with a LEARN.DAT of four bytes
    the load reports success, the baseline's temperature mean comes from
    the file (41.0) and everything else stays as it was before the load
    (the reset defaults); [setupLearning] then marks this mix as the
    established baseline. *)
Lemma short_file_is_partially_adopted :
  let w := reset_world short_card in
  let loaded := loadLearnedParameters w in
  length (card_data short_card) = 4%nat
  /\ fst loaded = true
  /\ tempMean (colonyBaseline (eng w)) = f35
  /\ tempMean (colonyBaseline (eng (snd loaded))) = f41
  /\ tempStdDev (colonyBaseline (eng (snd loaded)))
     = tempStdDev (colonyBaseline (eng w))
  /\ audioEnergy (colonyBaseline (eng (snd loaded)))
     = audioEnergy (colonyBaseline (eng w))
  /\ dailyPatterns (eng (snd loaded)) = dailyPatterns (eng w)
  /\ learningSampleCount (eng (snd loaded)) = learningSampleCount (eng w)
  /\ isBaselineEstablished (setupLearning (mkRTC true (mkDateTime 13 6)) w)
     = true
  /\ persisted (eng (snd loaded)) <> persisted (eng w).
Proof.
  vm_compute.
  repeat (split; [reflexivity|]).
  intros H. apply (f_equal (fun t => tempMean (fst (fst (fst t))))) in H.
  discriminate H.
Qed.

(** * Further properties of the engine *)

Lemma loadLearnedParameters_failure (w : World) :
  fst (loadLearnedParameters w) = false ->
  eng (snd (loadLearnedParameters w)) = eng w
  /\ card (snd (loadLearnedParameters w)) = card w.
Proof.
  unfold loadLearnedParameters, isSDCardAvailable, SD_exists,
    SD_open_FILE_READ.
  destruct (sdCardAvailable (card w)); [|split; reflexivity].
  destruct (learn_dat (card w)); [|split; reflexivity].
  destruct (sd_open_ok (card w)); [|split; reflexivity].
  cbn [negb fst]. repeat destruct (file_read _ _ _). discriminate.
Qed.

(** ** Persistence *)

Lemma save_then_load_first_record_witness :
  persisted
    (eng (snd (loadLearnedParameters
                 (mkWorld initial_Learning
                    (card (snd (saveLearnedParameters
                                  (mkWorld reset_Learning blank_card []))))
                    []))))
  = persisted reset_Learning.
Proof.
  apply (save_then_load_first_record reset_Learning initial_Learning
           blank_card [] []); reflexivity.
Defined.

Lemma saveLearnedParameters_card_flags (w : World) :
  sdCardAvailable (card (snd (saveLearnedParameters w)))
  = sdCardAvailable (card w)
  /\ sd_open_ok (card (snd (saveLearnedParameters w))) = sd_open_ok (card w).
Proof.
  unfold saveLearnedParameters, isSDCardAvailable, SD_open_FILE_WRITE.
  destruct (sdCardAvailable (card w)) eqn:Ha; [|split; cbn; auto].
  destruct (sd_open_ok (card w)) eqn:Ho; cbn; auto.
Qed.

Lemma saveLearnedParameters_card_data (w : World) :
  card_data (card (snd (saveLearnedParameters w)))
  = card_data (card w)
    ++ (if sdCardAvailable (card w) && sd_open_ok (card w)
        then saved_record (eng w) else []).
Proof.
  destruct (sdCardAvailable (card w) && sd_open_ok (card w)) eqn:E.
  - apply andb_prop in E as [Ha Ho].
    destruct (saveLearnedParameters_appends w) as [H _].
    destruct (H Ha Ho) as [_ Hd]. unfold card_data at 1. now rewrite Hd.
  - destruct (saveLearnedParameters_appends w) as [_ H].
    destruct (H E) as [_ ->]. now rewrite app_nil_r.
Qed.

(** [saveLearnedParameters] never changes the engine.  It reports success
    exactly when the card is available and the file opens; then LEARN.DAT
    is what it was followed by one record (1607 bytes for a well-formed
    state).  Otherwise the card is left exactly as it was. *)
Theorem saveLearnedParameters_outcomes (w : World) :
  eng (snd (saveLearnedParameters w)) = eng w
  /\ fst (saveLearnedParameters w)
     = sdCardAvailable (card w) && sd_open_ok (card w)
  /\ (fst (saveLearnedParameters w) = true ->
      learn_dat (card (snd (saveLearnedParameters w)))
      = Some (card_data (card w) ++ saved_record (eng w))
      /\ (wf_persisted (eng w) = true ->
          length (card_data (card (snd (saveLearnedParameters w))))
          = (length (card_data (card w)) + sizeof_record)%nat))
  /\ (fst (saveLearnedParameters w) = false ->
      card (snd (saveLearnedParameters w)) = card w).
Proof.
  split; [apply saveLearnedParameters_eng|].
  destruct (saveLearnedParameters_appends w) as [Hok Hfail].
  destruct (sdCardAvailable (card w)) eqn:Ha;
    destruct (sd_open_ok (card w)) eqn:Ho; cbn [andb].
  - destruct (Hok eq_refl eq_refl) as [H1 H2].
    split; [exact H1|]. split; [|rewrite H1; discriminate].
    intros _. split; [exact H2|]. intros Hwf.
    unfold card_data at 1. rewrite H2, length_app.
    now rewrite length_saved_record.
  - destruct (Hfail eq_refl) as [H1 H2].
    split; [exact H1|]. split; [rewrite H1; discriminate|]. now intros _.
  - destruct (Hfail eq_refl) as [H1 H2].
    split; [exact H1|]. split; [rewrite H1; discriminate|]. now intros _.
  - destruct (Hfail eq_refl) as [H1 H2].
    split; [exact H1|]. split; [rewrite H1; discriminate|]. now intros _.
Qed.

Lemma saveLearnedParameters_outcomes_witness :
  fst (saveLearnedParameters (reset_world no_card)) = false
  /\ card (snd (saveLearnedParameters (reset_world no_card))) = no_card.
Proof.
  split; [reflexivity|].
  apply (saveLearnedParameters_outcomes (reset_world no_card)). reflexivity.
Defined.

(** What the steps of a cycle do to the card. *)
Lemma updateBaselineAdaptive_card (w : World) :
  card (updateBaselineAdaptive w) = card w.
Proof. reflexivity. Qed.

Lemma establishBaseline_card (w : World) :
  (sdCardAvailable (card (establishBaseline w)) = sdCardAvailable (card w)
   /\ sd_open_ok (card (establishBaseline w)) = sd_open_ok (card w))
  /\ exists suffix,
       card_data (card (establishBaseline w)) = card_data (card w) ++ suffix.
Proof.
  unfold establishBaseline. cbv zeta.
  set (w' := println "Baseline established!"
               (upd_eng (set_baselineEstablished true) (updateBaseline w))).
  change (card w) with (card w'). split.
  - apply saveLearnedParameters_card_flags.
  - rewrite saveLearnedParameters_card_data. eauto.
Qed.

Lemma periodicUpdates_card (w : World) :
  (sdCardAvailable (card (periodicUpdates w)) = sdCardAvailable (card w)
   /\ sd_open_ok (card (periodicUpdates w)) = sd_open_ok (card w))
  /\ exists suffix,
       card_data (card (periodicUpdates w)) = card_data (card w) ++ suffix.
Proof.
  unfold periodicUpdates. cbv zeta.
  set (w1 := if baselineEstablished (eng w)
                && (learningSampleCount (eng w) mod LEARNING_UPDATE_INTERVAL
                    =? 0)
             then snd (saveLearnedParameters (updateBaselineAdaptive w))
             else w).
  assert (H1 : (sdCardAvailable (card w1) = sdCardAvailable (card w)
                /\ sd_open_ok (card w1) = sd_open_ok (card w))
               /\ exists suffix,
                    card_data (card w1) = card_data (card w) ++ suffix).
  { unfold w1. destruct (_ && _).
    - change (card w) with (card (updateBaselineAdaptive w)).
      split; [apply saveLearnedParameters_card_flags|].
      rewrite saveLearnedParameters_card_data. eauto.
    - split; [split; reflexivity|]. exists []. now rewrite app_nil_r. }
  destruct H1 as ([Ha Ho] & s1 & Hs1).
  destruct (learningSampleCount (eng w1) mod LEARNING_SAVE_INTERVAL =? 0).
  - destruct (saveLearnedParameters_card_flags w1) as [-> ->].
    split; [now split|].
    rewrite saveLearnedParameters_card_data, Hs1, <- app_assoc. eauto.
  - split; [now split|]. eauto.
Qed.

Lemma cycle_card (c : Cycle) (w : World) :
  (sdCardAvailable (card (cycle c w)) = sdCardAvailable (card w)
   /\ sd_open_ok (card (cycle c w)) = sd_open_ok (card w))
  /\ exists suffix,
       card_data (card (cycle c w)) = card_data (card w) ++ suffix.
Proof.
  unfold cycle, updateLearningModel. fold (fed c w).
  destruct (periodicUpdates_card
              (if establish_due (eng (fed c w))
               then establishBaseline (fed c w) else fed c w))
    as ([-> ->] & s2 & ->).
  destruct (establish_due (eng (fed c w))).
  - destruct (establishBaseline_card (fed c w)) as ([-> ->] & s1 & ->).
    split; [split; reflexivity|]. rewrite <- app_assoc. eauto.
  - split; [split; reflexivity|]. eauto.
Qed.

Lemma run_card (cs : list Cycle) :
  forall w : World,
    (sdCardAvailable (card (run cs w)) = sdCardAvailable (card w)
     /\ sd_open_ok (card (run cs w)) = sd_open_ok (card w))
    /\ exists suffix,
         card_data (card (run cs w)) = card_data (card w) ++ suffix.
Proof.
  induction cs as [|c cs IH]; intros w.
  - split; [split; reflexivity|]. exists []. now rewrite app_nil_r.
  - rewrite run_cons.
    destruct (IH (cycle c w)) as ([-> ->] & s2 & ->).
    destruct (cycle_card c w) as ([-> ->] & s1 & ->).
    split; [split; reflexivity|]. rewrite <- app_assoc. eauto.
Qed.

Lemma decoded_prefix (d suffix : list byte) :
  (sizeof_record <= length d)%nat ->
  (SensorBaseline_of_bytes (take sizeof_SensorBaseline (d ++ suffix)),
   dailyPatterns_of_bytes GRID_CELLS
     (take sizeof_dailyPatterns (drop sizeof_SensorBaseline (d ++ suffix))),
   decode_le (take sizeof_learningSampleCount (drop 1604 (d ++ suffix))),
   decode_le (take sizeof_currentSeason (drop 1606 (d ++ suffix))))
  = (SensorBaseline_of_bytes (take sizeof_SensorBaseline d),
     dailyPatterns_of_bytes GRID_CELLS
       (take sizeof_dailyPatterns (drop sizeof_SensorBaseline d)),
     decode_le (take sizeof_learningSampleCount (drop 1604 d)),
     decode_le (take sizeof_currentSeason (drop 1606 d))).
Proof.
  intros H.
  unfold sizeof_record, sizeof_SensorBaseline, sizeof_dailyPatterns,
    sizeof_learningSampleCount, sizeof_currentSeason in *.
  rewrite !drop_app_le by lia.
  rewrite !take_app_le by (rewrite ?length_drop; lia).
  reflexivity.
Qed.

(** LEARN.DAT is append-only: no number of cycles changes the bytes the
    file already holds.  So once the file holds a whole record, a restart
    after any further run of cycles restores exactly what a restart right
    now would restore: what is learned in between is never read back. *)
Theorem restart_restores_first_record (cs : list Cycle) (w : World)
    (d : list byte) :
  sdCardAvailable (card w) = true ->
  sd_open_ok (card w) = true ->
  learn_dat (card w) = Some d ->
  (sizeof_record <= length d)%nat ->
  (exists suffix, card_data (card (run cs w)) = d ++ suffix)
  /\ fst (loadLearnedParameters (reboot (run cs w))) = true
  /\ persisted (eng (snd (loadLearnedParameters (reboot (run cs w)))))
     = persisted (eng (snd (loadLearnedParameters (reboot w)))).
Proof.
  intros Hav Hok Hd Hlen.
  destruct (run_card cs w) as ([Ha Ho] & suffix & Hs).
  assert (Hcd : card_data (card w) = d) by (unfold card_data; now rewrite Hd).
  rewrite Hcd in Hs.
  assert (Hd' : learn_dat (card (run cs w)) = Some (d ++ suffix)).
  { unfold card_data in Hs.
    destruct (learn_dat (card (run cs w))) as [d'|] eqn:E; [now subst|].
    destruct d; [cbn in Hlen; unfold sizeof_record in Hlen; lia|].
    discriminate. }
  split; [eauto|].
  destruct (loadLearnedParameters_adopts (reboot (run cs w)) (d ++ suffix))
    as [H1 H2]; cbn [reboot card]; try congruence.
  { rewrite length_app. lia. }
  destruct (loadLearnedParameters_adopts (reboot w) d) as [_ H3];
    cbn [reboot card]; try congruence.
  split; [exact H1|].
  rewrite H2, H3. now apply decoded_prefix.
Qed.

Lemma restart_restores_first_record_witness :
  persisted
    (eng (snd (loadLearnedParameters
                 (reboot (run (replicate 20 steady_cycle)
                            (steady_world 20 blank_card))))))
  = persisted
      (eng (snd (loadLearnedParameters
                   (reboot (steady_world 20 blank_card))))).
Proof.
  apply (restart_restores_first_record (replicate 20 steady_cycle)
           (steady_world 20 blank_card)
           (card_data (card (steady_world 20 blank_card))));
    vm_compute; first [reflexivity | lia].
Defined.

(** A successful load seeds the four scalar estimators and the four audio
    estimators from the restored baseline as 30 samples with that mean
    ([setStats]), and touches neither the light and motion estimators, nor
    [baselineEstablished], nor the card. *)
Theorem loadLearnedParameters_seeds_statistics (w : World) :
  fst (loadLearnedParameters w) = true ->
  length (audioStats (eng w)) = NUM_AUDIO_BANDS ->
  let L' := eng (snd (loadLearnedParameters w)) in
  let b := colonyBaseline L' in
  (RunningStats.count (tempStats L'), RunningStats.mean (tempStats L'))
  = (30, tempMean b)
  /\ (RunningStats.count (humidityStats L'),
      RunningStats.mean (humidityStats L')) = (30, humidityMean b)
  /\ (RunningStats.count (pressureStats L'),
      RunningStats.mean (pressureStats L')) = (30, pressureMean b)
  /\ (RunningStats.count (weightStats L'),
      RunningStats.mean (weightStats L')) = (30, weightMean b)
  /\ (forall i : nat, (i < NUM_AUDIO_BANDS)%nat ->
        RunningStats.count (audioStats L' !!! i) = 30
        /\ RunningStats.mean (audioStats L' !!! i) = audioEnergy b !!! i
        /\ M2_ (audioStats L' !!! i)
           = fmul (fmul (audioStdDev b !!! i) (audioStdDev b !!! i))
                  (of_int 29))
  /\ M2_ (tempStats L')
     = fmul (fmul (tempStdDev b) (tempStdDev b)) (of_int 29)
  /\ M2_ (humidityStats L')
     = fmul (fmul (humidityStdDev b) (humidityStdDev b)) (of_int 29)
  /\ M2_ (pressureStats L')
     = fmul (fmul (pressureStdDev b) (pressureStdDev b)) (of_int 29)
  /\ M2_ (weightStats L')
     = fmul (fmul (weightStdDev b) (weightStdDev b)) (of_int 29)
  /\ lightStats L' = lightStats (eng w)
  /\ motionStats L' = motionStats (eng w)
  /\ baselineEstablished L' = baselineEstablished (eng w)
  /\ card (snd (loadLearnedParameters w)) = card w.
Proof.
  intros Hok Hlen.
  rewrite loadLearnedParameters_success in Hok.
  apply andb_prop in Hok as [Hok Hopen].
  apply andb_prop in Hok as [Hav Hex].
  unfold loadLearnedParameters, isSDCardAvailable, SD_open_FILE_READ in *.
  rewrite Hav, Hex, Hopen. cbn [negb].
  unfold SD_exists in Hex.
  destruct (learn_dat (card w)) as [d|]; [|discriminate].
  repeat destruct (file_read _ _ _) as [? ?].
  cbn [snd eng printBaseline println card colonyBaseline tempStats
       humidityStats pressureStats weightStats audioStats lightStats
       motionStats baselineEstablished].
  destruct (audioStats (eng w)) as [|a0 [|a1 [|a2 [|a3 [|? ?]]]]];
    try discriminate.
  repeat (split; [reflexivity|]).
  split.
  { intros i Hi. unfold NUM_AUDIO_BANDS in *.
    destruct i as [|[|[|[|i]]]]; [| | | |lia]; repeat split; reflexivity. }
  repeat (split; [reflexivity|]). reflexivity.
Qed.

Lemma loadLearnedParameters_seeds_statistics_witness :
  RunningStats.count
    (tempStats (eng (snd (loadLearnedParameters
                            (reboot (steady_world 20 blank_card)))))) = 30.
Proof.
  destruct (loadLearnedParameters_seeds_statistics
              (reboot (steady_world 20 blank_card))) as [H _];
    [vm_compute; reflexivity|reflexivity|].
  exact (f_equal fst H).
Defined.

(** ** Start-up without a usable file *)

(** When the card is unavailable, LEARN.DAT is missing or it cannot be
    opened, [setupLearning] falls back to [resetLearningSystem]: default
    baseline, empty statistics, fresh grid, count 0, flag down.  In every
    case the season it leaves is the one of the clock's month, or 0 when
    the clock is not running, whatever season a file restored. *)
Theorem setupLearning_fallback_and_season (rtc : RTC) (w : World) :
  currentSeason (eng (setupLearning rtc w))
  = (if rtcIsRunning rtc then getSeason (dt_month (getRTCTime rtc)) else 0)
  /\ (sdCardAvailable (card w) && SD_exists (card w) && sd_open_ok (card w)
      = false ->
      eng (setupLearning rtc w)
      = set_currentSeason
          (if rtcIsRunning rtc then getSeason (dt_month (getRTCTime rtc))
           else 0)
          (resetLearningSystem (eng w))
      /\ isBaselineEstablished (setupLearning rtc w) = false
      /\ learningSampleCount (eng (setupLearning rtc w)) = 0
      /\ colonyBaseline (eng (setupLearning rtc w)) = default_baseline
      /\ dailyPatterns (eng (setupLearning rtc w))
         = replicate GRID_CELLS default_pattern
      /\ card (setupLearning rtc w) = card w).
Proof.
  split.
  - unfold setupLearning.
    destruct (loadLearnedParameters _) as [[] w1]; reflexivity.
  - intros Hfail.
    pose proof (loadLearnedParameters_success
                  (println "Initializing learning system..." w)) as Hs.
    cbn [card println] in Hs. rewrite Hfail in Hs.
    destruct (loadLearnedParameters_failure _ Hs) as [He Hc].
    unfold setupLearning.
    destruct (loadLearnedParameters _) as [loaded w1].
    cbn [fst snd] in *. subst loaded.
    cbn [upd_eng eng card println isBaselineEstablished].
    rewrite He, Hc. cbn [eng println card]. repeat split; reflexivity.
Qed.

Lemma setupLearning_fallback_and_season_witness :
  isBaselineEstablished
    (setupLearning (mkRTC true (mkDateTime 13 6)) (reboot (reset_world no_card)))
  = false.
Proof.
  apply (setupLearning_fallback_and_season (mkRTC true (mkDateTime 13 6))
           (reboot (reset_world no_card))).
  reflexivity.
Defined.

(** ** Seasons and the grid *)

(** [getSeason] maps every month value to a season below 4: December to
    February to 0, March to May to 1, June to August to 2 and everything
    else, including the values that are no month, to 3.  Hence the cell a
    cycle updates lies inside the 24 by 4 grid whenever the hour is below
    24. *)
Theorem getSeason_in_grid (month : Z) :
  0 <= getSeason month <= 3
  /\ (getSeason month = 0 <-> month = 12 \/ month = 1 \/ month = 2)
  /\ (getSeason month = 1 <-> 3 <= month <= 5)
  /\ (getSeason month = 2 <-> 6 <= month <= 8)
  /\ (getSeason month = 3 <-> month <= 0 \/ 9 <= month <= 11 \/ 13 <= month)
  /\ forall hour, 0 <= hour < 24 ->
       (cell_index hour (getSeason month) < GRID_CELLS)%nat.
Proof.
  assert (Hr : 0 <= getSeason month <= 3
               /\ (getSeason month = 0 <-> month = 12 \/ month = 1 \/ month = 2)
               /\ (getSeason month = 1 <-> 3 <= month <= 5)
               /\ (getSeason month = 2 <-> 6 <= month <= 8)
               /\ (getSeason month = 3
                   <-> month <= 0 \/ 9 <= month <= 11 \/ 13 <= month)).
  { unfold getSeason.
    destruct (Z.eqb_spec month 12), (Z.eqb_spec month 1),
      (Z.eqb_spec month 2), (Z.leb_spec 3 month), (Z.leb_spec month 5),
      (Z.leb_spec 6 month), (Z.leb_spec month 8); cbn [orb andb]; lia. }
  destruct Hr as (H0 & H1 & H2 & H3 & H4).
  repeat (split; [assumption|]).
  intros hour Hh. apply cell_index_lt; lia.
Qed.

Lemma getSeason_in_grid_witness :
  (cell_index 23 (getSeason 7) < GRID_CELLS)%nat.
Proof.
  assert (H : 0 <= 23 < 24) by lia.
  exact (proj2 (proj2 (proj2 (proj2 (proj2 (getSeason_in_grid 7))))) 23 H).
Defined.

(** ** Learning progress *)

(** [getLearningProgress] is 100 exactly when the baseline is established
    and otherwise the sample count capped at 99; after [n] cycles from a
    reset it is [n] below 100 cycles and 100 from then on. *)
Theorem getLearningProgress_of_run (L0 : Learning) (sd0 : SDCard)
    (log : list string) (cs : list Cycle) :
  let w := run cs (mkWorld (resetLearningSystem L0) sd0 log) in
  getLearningProgress w = Z.min (Z.of_nat (length cs)) 100
  /\ (getLearningProgress w = 100 <-> isBaselineEstablished w = true).
Proof.
  intros w.
  destruct (run_obs cs (mkWorld (resetLearningSystem L0) sd0 log) 0
              (occurrences "Baseline established!" log))
    as (Hc & He & _); [lia|reflexivity|reflexivity| |].
  { change (LEARNING_SAMPLES_MIN <=? 0) with false. cbv iota.
    now rewrite Nat.add_0_r. }
  fold w in Hc, He. rewrite Z.add_0_l in Hc, He.
  set (n := Z.of_nat (length cs)) in *.
  assert (Hn : 0 <= n) by (unfold n; lia).
  unfold getLearningProgress, isBaselineEstablished. rewrite He, Hc.
  unfold LEARNING_SAMPLES_MIN, UINT16_MOD, UINT8_MOD.
  destruct (Z.leb_spec 100 n) as [Hge|Hlt].
  - split; [lia|]. split; reflexivity.
  - rewrite (Z.mod_small n) by lia.
    rewrite Z.div_mul by lia.
    rewrite Z.mod_small by lia.
    split; [lia|]. split; [lia|discriminate].
Qed.

(** ** Reset *)

(** [resetLearningSystem] keeps nothing of the state but the current
    season: with the four audio estimators in place, the result is the
    reset state of a fresh engine with that season.  The result is a
    well-formed state with the declared array sizes, so resetting twice is
    resetting once. *)
Theorem resetLearningSystem_defaults (L : Learning) :
  length (audioStats L) = NUM_AUDIO_BANDS ->
  in_range UINT8_MOD (currentSeason L) = true ->
  resetLearningSystem L = set_currentSeason (currentSeason L) reset_Learning
  /\ resetLearningSystem (resetLearningSystem L) = resetLearningSystem L
  /\ wf_persisted (resetLearningSystem L) = true
  /\ shaped (resetLearningSystem L)
  /\ baselineEstablished (resetLearningSystem L) = false
  /\ learningSampleCount (resetLearningSystem L) = 0.
Proof.
  intros Hlen Hs.
  assert (Hr : resetLearningSystem L
               = set_currentSeason (currentSeason L) reset_Learning).
  { unfold resetLearningSystem, reset_Learning.
    destruct (audioStats L) as [|a0 [|a1 [|a2 [|a3 [|? ?]]]]];
      try discriminate. reflexivity. }
  split; [exact Hr|]. split; [now rewrite Hr|].
  rewrite Hr. split.
  - unfold wf_persisted.
    cbn [colonyBaseline dailyPatterns learningSampleCount currentSeason
         set_currentSeason].
    rewrite Hs. now vm_compute.
  - repeat split; reflexivity.
Qed.

Lemma resetLearningSystem_defaults_witness :
  resetLearningSystem (eng (steady_world 20 no_card))
  = set_currentSeason (currentSeason (eng (steady_world 20 no_card)))
      reset_Learning.
Proof.
  assert (H1 : length (audioStats (eng (steady_world 20 no_card)))
               = NUM_AUDIO_BANDS) by (vm_compute; reflexivity).
  assert (H2 : in_range UINT8_MOD (currentSeason (eng (steady_world 20 no_card)))
               = true) by (vm_compute; reflexivity).
  exact (proj1 (resetLearningSystem_defaults _ H1 H2)).
Defined.

(** ** Array sizes are kept *)

Lemma for_bands_preserves {A : Type} (P : A -> Prop) (body : nat -> A -> A)
    (a : A) :
  (forall i x, P x -> P (body i x)) -> P a -> P (for_bands body a).
Proof.
  intros Hbody Ha. unfold for_bands.
  generalize (seq 0 NUM_AUDIO_BANDS). intros l. revert a Ha.
  induction l as [|i l IH]; intros a Ha; [exact Ha|].
  cbn [foldl]. apply IH. now apply Hbody.
Qed.

Lemma for_bands_insert_length {A : Type} (g : nat -> list A -> A)
    (l : list A) :
  length (for_bands (fun i a => <[i := g i a]> a) l) = length l.
Proof.
  apply (for_bands_preserves (fun x => length x = length l));
    [|reflexivity].
  intros i x Hx. now rewrite length_insert.
Qed.

Lemma updateDailyPattern_shaped (hour season : Z) (a t h : float)
    (L : Learning) :
  shaped L -> shaped (updateDailyPattern hour season a t h L).
Proof.
  unfold shaped, updateDailyPattern.
  destruct (dailyPatterns L !! cell_index hour season); [|trivial].
  cbn [dailyPatterns set_dailyPatterns audioStats colonyBaseline].
  now rewrite length_insert.
Qed.

Lemma feedSample_shaped (e : EnvData) (a : list float) (m : MotionData)
    (l : LightData) (wt : float) (t : DateTime) (L : Learning) :
  shaped L -> shaped (feedSample e a m l wt t L).
Proof.
  intros (H1 & H2 & H3 & H4). unfold feedSample.
  apply updateDailyPattern_shaped. unfold shaped.
  cbn [dailyPatterns audioStats colonyBaseline set_stats
       set_learningSampleCount].
  now rewrite for_bands_insert_length.
Qed.

Lemma updateBaseline_shaped (w : World) :
  shaped (eng w) -> shaped (eng (updateBaseline w)).
Proof.
  intros (H1 & H2 & H3 & H4). unfold shaped, updateBaseline.
  cbn [eng printBaseline println upd_eng dailyPatterns audioStats
       colonyBaseline set_colonyBaseline audioEnergy audioStdDev].
  now rewrite !for_bands_insert_length.
Qed.

Lemma updateBaselineAdaptive_shaped (w : World) :
  shaped (eng w) -> shaped (eng (updateBaselineAdaptive w)).
Proof.
  intros (H1 & H2 & H3 & H4). unfold shaped, updateBaselineAdaptive.
  cbn [eng printBaseline println dailyPatterns audioStats
       colonyBaseline set_colonyBaseline set_stats audioEnergy audioStdDev].
  now rewrite !for_bands_insert_length, !length_insert.
Qed.

Lemma cycle_shaped (c : Cycle) (w : World) :
  shaped (eng w) -> shaped (eng (cycle c w)).
Proof.
  intros Hs. unfold cycle, updateLearningModel. fold (fed c w).
  assert (H1 : shaped (eng (fed c w))) by now apply feedSample_shaped.
  assert (H2 : shaped (eng (if establish_due (eng (fed c w))
                            then establishBaseline (fed c w)
                            else fed c w))).
  { destruct (establish_due _); [|exact H1].
    unfold establishBaseline. rewrite saveLearnedParameters_eng.
    now apply updateBaseline_shaped. }
  revert H2. generalize (if establish_due (eng (fed c w))
                         then establishBaseline (fed c w) else fed c w).
  intros w2 H2. unfold periodicUpdates. cbv zeta.
  set (w3 := if baselineEstablished (eng w2)
                && (learningSampleCount (eng w2) mod LEARNING_UPDATE_INTERVAL
                    =? 0)
             then snd (saveLearnedParameters (updateBaselineAdaptive w2))
             else w2).
  assert (H3 : shaped (eng w3)).
  { unfold w3. destruct (_ && _); [|exact H2].
    rewrite saveLearnedParameters_eng.
    now apply updateBaselineAdaptive_shaped. }
  destruct (learningSampleCount (eng w3) mod LEARNING_SAVE_INTERVAL =? 0);
    [rewrite saveLearnedParameters_eng|]; exact H3.
Qed.

Lemma getSeason_range (month : Z) : 0 <= getSeason month <= 3.
Proof.
  unfold getSeason.
  repeat match goal with
         | |- context [if ?b then _ else _] => destruct b
         end; lia.
Qed.

(** The arrays of the engine keep their declared sizes (96 cells, 4 audio
    estimators, 4 + 4 audio baseline entries) through every cycle, and
    [setupLearning] establishes them whatever the file holds; so the cell
    that a cycle updates exists whenever its hour is below 24. *)
Theorem array_sizes_are_invariant (w : World) :
  length (audioStats (eng w)) = NUM_AUDIO_BANDS ->
  (forall rtc : RTC, shaped (eng (setupLearning rtc w)))
  /\ (shaped (eng w) ->
      (forall cs : list Cycle, shaped (eng (run cs w)))
      /\ forall (c : Cycle),
           0 <= dt_hour (c_time c) < 24 ->
           is_Some (dailyPatterns (eng w)
                      !! cell_index (dt_hour (c_time c))
                           (getSeason (dt_month (c_time c))))).
Proof.
  intros Hlen. split.
  - intros rtc. unfold setupLearning.
    set (w0 := println "Initializing learning system..." w).
    destruct (loadLearnedParameters w0) as [loaded w1] eqn:E.
    destruct loaded.
    + cbn [upd_eng eng println].
      assert (Hw1 : w1 = snd (loadLearnedParameters w0)) by now rewrite E.
      assert (Hok : fst (loadLearnedParameters w0) = true) by now rewrite E.
      rewrite loadLearnedParameters_success in Hok.
      apply andb_prop in Hok as [Hok Hopen].
      apply andb_prop in Hok as [Hav Hex].
      subst w1.
      unfold loadLearnedParameters, isSDCardAvailable, SD_open_FILE_READ,
        SD_exists in *.
      rewrite Hav, Hopen. cbn [negb].
      destruct (learn_dat (card w0)) as [d|]; [|discriminate].
      cbn [negb].
      repeat destruct (file_read _ _ _) as [? ?].
      unfold shaped.
      cbn [snd eng printBaseline println dailyPatterns audioStats
           colonyBaseline set_currentSeason set_baselineEstablished
           audioEnergy audioStdDev SensorBaseline_of_bytes].
      rewrite for_bands_insert_length.
      repeat split; try reflexivity; try exact Hlen.
    + cbn [upd_eng eng println].
      pose proof (loadLearnedParameters_failure w0) as Hun.
      rewrite E in Hun. cbn [fst snd] in Hun.
      destruct (Hun eq_refl) as [He _].
      unfold shaped. cbn [dailyPatterns audioStats colonyBaseline
        set_currentSeason resetLearningSystem].
      rewrite for_bands_insert_length, He.
      repeat split; try reflexivity. exact Hlen.
  - intros Hs. split.
    + intros cs. revert w Hlen Hs.
      induction cs as [|c cs IH]; intros w Hlen Hs; [exact Hs|].
      rewrite run_cons. apply IH; [|now apply cycle_shaped].
      now destruct (cycle_shaped c w Hs) as (_ & H2 & _).
    + intros c Hh. apply lookup_lt_is_Some_2.
      destruct Hs as [-> _].
      apply cell_index_lt; [exact Hh|].
      pose proof (getSeason_range (dt_month (c_time c))). lia.
Qed.

Lemma array_sizes_are_invariant_witness :
  shaped (eng (run [steady_cycle] (reset_world no_card))).
Proof.
  assert (H1 : length (audioStats (eng (reset_world no_card)))
               = NUM_AUDIO_BANDS) by reflexivity.
  assert (H2 : shaped (eng (reset_world no_card)))
    by (repeat split; reflexivity).
  exact (proj1 (proj2 (array_sizes_are_invariant _ H1) H2) [steady_cycle]).
Defined.

(** ** Audio anomaly and audio thresholds *)

Lemma audioAnomalyFrom_exists (L : Learning) (levels : list float) (n : nat) :
  forall i : nat,
    audioAnomalyFrom L levels i n = true
    <-> exists j : nat,
          (i <= j < i + n)%nat
          /\ fgt (fabs (audioZScore L levels j)) (audioThreshold j) = true.
Proof.
  induction n as [|n IH]; intros i.
  - cbn. split; [discriminate|]. intros (j & Hj & _). lia.
  - cbn [audioAnomalyFrom]. fold (audioThreshold i).
    destruct (fgt (fabs (audioZScore L levels i)) (audioThreshold i)) eqn:E.
    + split; [|reflexivity]. intros _. exists i. split; [lia|exact E].
    + rewrite IH. split.
      * intros (j & Hj & H). exists j. split; [lia|exact H].
      * intros (j & Hj & H). exists j. split; [|exact H].
        destruct (Nat.eq_dec j i) as [->|]; [congruence|lia].
Qed.

(** [isAudioAnomaly] is true exactly when some band [i] of the four has
    [|z_i|] above its own threshold, 3.0 for band 0 and 2.5 for bands 1 to
    3, where [z_i = (level_i - audioEnergy[i]) / max(0.01, audioStdDev[i])];
    the first such band ends the loop.  The test is two-sided: [z_i] above
    the threshold or below minus the threshold. *)
Theorem isAudioAnomaly_any_band (L : Learning) (levels : list float) :
  (isAudioAnomaly L levels = true
   <-> exists i : nat,
         (i < NUM_AUDIO_BANDS)%nat
         /\ fgt (fabs (fdiv (fsub (levels !!! i)
                               (audioEnergy (colonyBaseline L) !!! i))
                          (fmax (lit 1 100)
                             (audioStdDev (colonyBaseline L) !!! i))))
                (if Nat.eqb i 0 then of_int 3 else lit 25 10) = true)
  /\ (fgt (fabs (audioZScore L levels 0)) (of_int 3) = true ->
      isAudioAnomaly L levels = true)
  /\ (isAudioAnomaly L levels = true
      <-> exists i : nat,
            (i < NUM_AUDIO_BANDS)%nat
            /\ (fgt (audioZScore L levels i)
                    (if Nat.eqb i 0 then of_int 3 else lit 25 10) = true
                \/ flt (audioZScore L levels i)
                       (fneg (if Nat.eqb i 0 then of_int 3 else lit 25 10))
                   = true)).
Proof.
  assert (Hex : isAudioAnomaly L levels = true
                <-> exists i : nat,
                      (i < NUM_AUDIO_BANDS)%nat
                      /\ fgt (fabs (audioZScore L levels i))
                             (audioThreshold i) = true).
  { unfold isAudioAnomaly. rewrite audioAnomalyFrom_exists.
    split; intros (j & Hj & H); exists j; (split; [lia|exact H]). }
  split; [exact Hex|]. split.
  - intros H. unfold isAudioAnomaly. cbn [audioAnomalyFrom NUM_AUDIO_BANDS].
    change f3 with (of_int 3). cbn [Nat.eqb]. now rewrite H.
  - rewrite Hex.
    assert (Hpos : forall i, fgt (audioThreshold i) 0 = true).
    { intros i. unfold audioThreshold.
      destruct (Nat.eqb i 0); vm_compute; reflexivity. }
    split; intros (i & Hi & H); exists i; (split; [exact Hi|]).
    + rewrite (fgt_fabs _ _ (Hpos i)) in H.
      apply orb_true_iff in H. exact H.
    + rewrite (fgt_fabs _ _ (Hpos i)).
      apply orb_true_iff. exact H.
Qed.

Lemma isAudioAnomaly_any_band_witness :
  isAudioAnomaly reset_Learning [f5; f0; f0; f0] = true.
Proof.
  assert (H : fgt (fabs (audioZScore reset_Learning [f5; f0; f0; f0] 0))
                (of_int 3) = true) by (vm_compute; reflexivity).
  exact (proj1 (proj2 (isAudioAnomaly_any_band reset_Learning
                         [f5; f0; f0; f0])) H).
Defined.

(** Each adapted audio threshold is the band's baseline energy times its
    multiplier (0.7, 1.5, 1.5, 1.8), floored at [MIN_AUDIO_THRESHOLD]: it is
    never below the floor unless the product is a NaN. *)
Theorem getAdaptedAudioThresholds_floor (L : Learning) :
  length (getAdaptedAudioThresholds L) = NUM_AUDIO_BANDS
  /\ forall (i : nat) (t : float),
       getAdaptedAudioThresholds L !! i = Some t ->
       exists multiplier,
         [lit 7 10; lit 15 10; lit 15 10; lit 18 10] !! i = Some multiplier
         /\ t = fmax MIN_AUDIO_THRESHOLD
                  (fmul (audioEnergy (colonyBaseline L) !!! i) multiplier)
         /\ (is_nan (fmul (audioEnergy (colonyBaseline L) !!! i) multiplier)
             = false ->
             fle MIN_AUDIO_THRESHOLD t = true).
Proof.
  split; [reflexivity|].
  intros i t Ht. unfold getAdaptedAudioThresholds in Ht.
  destruct i as [|[|[|[|i]]]]; try discriminate;
    injection Ht as <-; eexists; (split; [reflexivity|]);
    (split; [reflexivity|]); intros Hn; now apply fmax_lower.
Qed.

Lemma getAdaptedAudioThresholds_floor_witness :
  fle MIN_AUDIO_THRESHOLD
      (fmax MIN_AUDIO_THRESHOLD
         (fmul (audioEnergy (colonyBaseline reset_Learning) !!! 0%nat)
            (lit 7 10))) = true.
Proof.
  destruct (proj2 (getAdaptedAudioThresholds_floor reset_Learning) 0%nat
              (fmax MIN_AUDIO_THRESHOLD
                 (fmul (audioEnergy (colonyBaseline reset_Learning) !!! 0%nat)
                    (lit 7 10))) eq_refl)
    as (m & Hm & _ & Hle).
  injection Hm as <-. apply Hle. vm_compute. reflexivity.
Defined.

(** ** The periodic adaptation *)

(** [updateBaselineAdaptive] blends only the means, the temperature and
    humidity deviations and the audio entries: it leaves [pressureStdDev],
    [weightStdDev] and [weightDailyDelta] as they are, and does not touch
    the grid, the count, the season or the flag.  Afterwards the
    temperature, humidity, pressure and audio estimators are empty, the
    weight estimator is [partialReset(0.8)] of what it was, and the light
    and motion estimators are unchanged. *)
Theorem updateBaselineAdaptive_frame (w : World) :
  length (audioStats (eng w)) = NUM_AUDIO_BANDS ->
  let L := eng w in
  let L' := eng (updateBaselineAdaptive w) in
  (pressureStdDev (colonyBaseline L'), weightStdDev (colonyBaseline L'),
   weightDailyDelta (colonyBaseline L'))
  = (pressureStdDev (colonyBaseline L), weightStdDev (colonyBaseline L),
     weightDailyDelta (colonyBaseline L))
  /\ tempMean (colonyBaseline L')
     = fadd (fmul (fsub (of_int 1) LEARNING_ADAPTATION_RATE)
                  (tempMean (colonyBaseline L)))
            (fmul LEARNING_ADAPTATION_RATE (RunningStats.mean (tempStats L)))
  /\ weightMean (colonyBaseline L')
     = fadd (fmul (fsub (of_int 1)
                     (fdiv LEARNING_ADAPTATION_RATE (of_int 2)))
                  (weightMean (colonyBaseline L)))
            (fmul (fdiv LEARNING_ADAPTATION_RATE (of_int 2))
                  (RunningStats.mean (weightStats L)))
  /\ (dailyPatterns L', learningSampleCount L', currentSeason L',
      baselineEstablished L')
     = (dailyPatterns L, learningSampleCount L, currentSeason L,
        baselineEstablished L)
  /\ (tempStats L', humidityStats L', pressureStats L')
     = (RunningStats.init, RunningStats.init, RunningStats.init)
  /\ audioStats L' = replicate NUM_AUDIO_BANDS RunningStats.init
  /\ weightStats L' = RunningStats.partialReset (lit 8 10) (weightStats L)
  /\ (lightStats L', motionStats L') = (lightStats L, motionStats L)
  /\ card (updateBaselineAdaptive w) = card w.
Proof.
  intros Hlen L L'. unfold L', L, updateBaselineAdaptive.
  cbn [eng printBaseline println card colonyBaseline set_colonyBaseline
       set_stats pressureStdDev weightStdDev weightDailyDelta tempMean
       weightMean dailyPatterns learningSampleCount currentSeason
       baselineEstablished tempStats humidityStats pressureStats
       audioStats weightStats lightStats motionStats].
  destruct (audioStats (eng w)) as [|a0 [|a1 [|a2 [|a3 [|? ?]]]]];
    try discriminate.
  repeat (split; [reflexivity|]). reflexivity.
Qed.

Lemma updateBaselineAdaptive_frame_witness :
  audioStats (eng (updateBaselineAdaptive (steady_world 20 no_card)))
  = replicate NUM_AUDIO_BANDS RunningStats.init.
Proof.
  assert (H : length (audioStats (eng (steady_world 20 no_card)))
              = NUM_AUDIO_BANDS) by (vm_compute; reflexivity).
  exact (proj1 (proj2 (proj2 (proj2 (proj2 (proj2
           (updateBaselineAdaptive_frame _ H))))))).
Defined.

(** ** The periodic save *)

Lemma periodicUpdates_saves (w : World) :
  learningSampleCount (eng w) mod LEARNING_SAVE_INTERVAL = 0 ->
  sdCardAvailable (card w) = true -> sd_open_ok (card w) = true ->
  exists before,
    learn_dat (card (periodicUpdates w))
    = Some (before ++ saved_record (eng (periodicUpdates w))).
Proof.
  intros Hmod Hav Hok. unfold periodicUpdates. cbv zeta.
  set (w1 := if baselineEstablished (eng w)
                && (learningSampleCount (eng w) mod LEARNING_UPDATE_INTERVAL
                    =? 0)
             then snd (saveLearnedParameters (updateBaselineAdaptive w))
             else w).
  assert (H1 : learningSampleCount (eng w1) = learningSampleCount (eng w)
               /\ sdCardAvailable (card w1) = true
               /\ sd_open_ok (card w1) = true).
  { unfold w1. destruct (_ && _); [|auto].
    rewrite saveLearnedParameters_eng.
    destruct (saveLearnedParameters_card_flags (updateBaselineAdaptive w))
      as [-> ->].
    destruct (updateBaselineAdaptive_obs w) as (_ & -> & _). auto. }
  destruct H1 as (Hc & Hav1 & Hok1).
  rewrite Hc, Hmod. cbn [Z.eqb].
  rewrite saveLearnedParameters_eng.
  destruct (saveLearnedParameters_appends w1) as [H _].
  destruct (H Hav1 Hok1) as [_ ->]. eauto.
Qed.

(** Every cycle that brings the sample count to a multiple of
    [LEARNING_SAVE_INTERVAL] ends, on a working card, with LEARN.DAT ending
    in the record of the state the cycle leaves. *)
Theorem cycle_saves_every_20_samples (c : Cycle) (w : World) :
  ((learningSampleCount (eng w) + 1) mod UINT16_MOD)
    mod LEARNING_SAVE_INTERVAL = 0 ->
  sdCardAvailable (card w) = true -> sd_open_ok (card w) = true ->
  exists before,
    learn_dat (card (cycle c w))
    = Some (before ++ saved_record (eng (cycle c w))).
Proof.
  intros Hmod Hav Hok. unfold cycle, updateLearningModel. fold (fed c w).
  apply periodicUpdates_saves.
  - destruct (feedSample_obs (c_env c) (c_audio c) (c_motion c) (c_light c)
                (c_weight c) (c_time c) (eng w)) as [_ Hc].
    destruct (establish_due (eng (fed c w))).
    + destruct (establishBaseline_obs (fed c w)) as (_ & -> & _).
      unfold fed. cbn [eng upd_eng]. now rewrite Hc.
    + unfold fed. cbn [eng upd_eng]. now rewrite Hc.
  - destruct (establish_due (eng (fed c w))); [|exact Hav].
    destruct (establishBaseline_card (fed c w)) as ([-> _] & _). exact Hav.
  - destruct (establish_due (eng (fed c w))); [|exact Hok].
    destruct (establishBaseline_card (fed c w)) as ([_ ->] & _). exact Hok.
Qed.

Lemma cycle_saves_every_20_samples_witness :
  exists before,
    learn_dat (card (cycle steady_cycle (steady_world 19 blank_card)))
    = Some (before
            ++ saved_record
                 (eng (cycle steady_cycle (steady_world 19 blank_card)))).
Proof.
  apply cycle_saves_every_20_samples; vm_compute; reflexivity.
Defined.

(** ** The call that establishes the baseline *)

Lemma establishing_call_guard (L0 : Learning) (sd0 : SDCard)
    (log : list string) (cs : list Cycle) (c : Cycle) :
  Z.of_nat (length cs) + 1 = LEARNING_SAMPLES_MIN ->
  let w := run cs (mkWorld (resetLearningSystem L0) sd0 log) in
  establish_due (eng (fed c w)) = true
  /\ learningSampleCount (eng (fed c w)) = 100.
Proof.
  intros Hn w.
  destruct (run_obs cs (mkWorld (resetLearningSystem L0) sd0 log) 0
              (occurrences "Baseline established!" log))
    as (Hc & He & _); [lia|reflexivity|reflexivity| |].
  { change (LEARNING_SAMPLES_MIN <=? 0) with false. cbv iota.
    now rewrite Nat.add_0_r. }
  fold w in Hc, He. rewrite Z.add_0_l in Hc, He.
  unfold LEARNING_SAMPLES_MIN in *.
  assert (Hlen : Z.of_nat (length cs) = 99) by lia.
  rewrite Hlen in Hc, He.
  unfold fed, establish_due. cbn [eng upd_eng].
  destruct (feedSample_obs (c_env c) (c_audio c) (c_motion c) (c_light c)
              (c_weight c) (c_time c) (eng w)) as [-> ->].
  rewrite He, Hc. split; reflexivity.
Qed.

(** [LEARNING_SAMPLES_MIN] is a multiple of both intervals, so the call
    that establishes the baseline goes on to run the first adaptation and
    the periodic save: the temperature, humidity and pressure estimators
    it has just copied are empty when it returns, and a working card gets
    three records, the last two equal. *)
Theorem establishing_call_also_adapts (L0 : Learning) (sd0 : SDCard)
    (log : list string) (cs : list Cycle) (c : Cycle) :
  Z.of_nat (length cs) + 1 = LEARNING_SAMPLES_MIN ->
  let w := run cs (mkWorld (resetLearningSystem L0) sd0 log) in
  let adapted := updateBaselineAdaptive (establishBaseline (fed c w)) in
  cycle c w
  = snd (saveLearnedParameters (snd (saveLearnedParameters adapted)))
  /\ eng (cycle c w) = eng adapted
  /\ (tempStats (eng (cycle c w)), humidityStats (eng (cycle c w)),
      pressureStats (eng (cycle c w)))
     = (RunningStats.init, RunningStats.init, RunningStats.init)
  /\ (sdCardAvailable sd0 = true -> sd_open_ok sd0 = true ->
      card_data (card (cycle c w))
      = card_data (card w)
        ++ saved_record (eng (establishBaseline (fed c w)))
        ++ saved_record (eng adapted) ++ saved_record (eng adapted)).
Proof.
  intros Hn w adapted.
  destruct (establishing_call_guard L0 sd0 log cs c Hn)
    as (Hdue & Hcount).
  fold w in Hdue, Hcount.
  assert (Hcyc : cycle c w
                 = snd (saveLearnedParameters
                          (snd (saveLearnedParameters adapted)))).
  { unfold cycle, updateLearningModel. fold (fed c w). rewrite Hdue.
    unfold periodicUpdates. cbv zeta.
    destruct (establishBaseline_obs (fed c w)) as (He & Hc & _).
    rewrite He, Hc, Hcount. cbn [andb Z.modulo Z.eqb].
    change (100 mod LEARNING_UPDATE_INTERVAL =? 0) with true. cbv iota.
    rewrite saveLearnedParameters_eng.
    destruct (updateBaselineAdaptive_obs (establishBaseline (fed c w)))
      as (_ & -> & _).
    rewrite Hc, Hcount.
    change (100 mod LEARNING_SAVE_INTERVAL =? 0) with true. cbv iota.
    reflexivity. }
  split; [exact Hcyc|].
  assert (Heng : eng (cycle c w) = eng adapted)
    by (rewrite Hcyc; now rewrite !saveLearnedParameters_eng).
  split; [exact Heng|]. split.
  { rewrite Heng. reflexivity. }
  intros Hav Hok.
  destruct (run_card cs (mkWorld (resetLearningSystem L0) sd0 log))
    as ([Ha Ho] & _).
  fold w in Ha, Ho. cbn [card] in Ha, Ho. rewrite Hav in Ha. rewrite Hok in Ho.
  rewrite Hcyc.
  rewrite !saveLearnedParameters_card_data.
  rewrite saveLearnedParameters_eng.
  destruct (saveLearnedParameters_card_flags adapted) as [-> ->].
  change (card adapted) with (card (establishBaseline (fed c w))).
  destruct (establishBaseline_card (fed c w)) as ([Ha' Ho'] & _).
  change (card (fed c w)) with (card w) in Ha', Ho'.
  rewrite Ha', Ho', Ha, Ho. cbn [andb].
  unfold establishBaseline at 1.
  rewrite saveLearnedParameters_card_data.
  cbn [card println upd_eng updateBaseline printBaseline fed].
  rewrite Ha, Ho. cbn [andb].
  rewrite <- !app_assoc. do 2 f_equal.
  unfold establishBaseline. now rewrite saveLearnedParameters_eng.
Qed.

Lemma establishing_call_also_adapts_witness :
  tempStats (eng (cycle steady_cycle (steady_world 99 no_card)))
  = RunningStats.init.
Proof.
  assert (H : Z.of_nat (length (replicate 99 steady_cycle)) + 1
              = LEARNING_SAMPLES_MIN) by reflexivity.
  pose proof (establishing_call_also_adapts initial_Learning no_card []
                (replicate 99 steady_cycle) steady_cycle H) as (_ & _ & Hs & _).
  exact (f_equal (fun t => fst (fst t)) Hs).
Defined.

(** ** NaN readings *)

Lemma is_nan_of_bits (a : float) : is_nan a = true -> of_bits a = S754_nan.
Proof. unfold is_nan. destruct (of_bits a); congruence. Qed.

Lemma SFcompare_nan_r (x : spec_float) : SFcompare x S754_nan = None.
Proof. destruct x; reflexivity. Qed.

Lemma flt_nan_r (a b : float) : is_nan b = true -> flt a b = false.
Proof.
  intros H. unfold flt, SFltb.
  now rewrite (is_nan_of_bits _ H), SFcompare_nan_r.
Qed.

Lemma flt_nan_l (a b : float) : is_nan a = true -> flt a b = false.
Proof.
  intros H. unfold flt, SFltb. now rewrite (is_nan_of_bits _ H).
Qed.

Lemma fsub_nan (a b : float) :
  is_nan a = true \/ is_nan b = true -> fsub a b = nan.
Proof.
  unfold fsub. intros [H|H]; rewrite (is_nan_of_bits _ H);
    [|destruct (of_bits a)]; reflexivity.
Qed.

Lemma fadd_nan (a b : float) :
  is_nan a = true \/ is_nan b = true -> fadd a b = nan.
Proof.
  unfold fadd. intros [H|H]; rewrite (is_nan_of_bits _ H);
    [|destruct (of_bits a)]; reflexivity.
Qed.

Lemma fmul_nan (a b : float) :
  is_nan a = true \/ is_nan b = true -> fmul a b = nan.
Proof.
  unfold fmul. intros [H|H]; rewrite (is_nan_of_bits _ H);
    [|destruct (of_bits a)]; reflexivity.
Qed.

Lemma fdiv_nan (a b : float) :
  is_nan a = true \/ is_nan b = true -> fdiv a b = nan.
Proof.
  unfold fdiv. intros [H|H]; rewrite (is_nan_of_bits _ H);
    [|destruct (of_bits a)]; reflexivity.
Qed.

Lemma is_nan_nan : is_nan nan = true.
Proof. reflexivity. Qed.

(** [abs] of the NaN that the arithmetic produces is a NaN again, and no
    comparison with it holds. *)
Lemma fabs_nan_not_above (t : float) : fgt (fabs nan) t = false.
Proof.
  unfold fgt. apply flt_nan_r. vm_compute. reflexivity.
Qed.

(** A reading that is a NaN (a failed sensor read) is never classified as
    an anomaly, and neither is any reading once the learned mean, offset
    or deviation that its z-score uses is a NaN. *)
Theorem nan_is_never_anomalous (L : Learning) :
  (forall (t : float) (hour : Z),
      is_nan t = true \/ is_nan (tempMean (colonyBaseline L)) = true
      \/ is_nan (tempOffset (pattern_at L hour)) = true
      \/ is_nan (tempStdDev (colonyBaseline L)) = true ->
      isTemperatureAnomaly L t hour = false)
  /\ (forall (h : float) (hour : Z),
        is_nan h = true \/ is_nan (humidityMean (colonyBaseline L)) = true
        \/ is_nan (humidityOffset (pattern_at L hour)) = true
        \/ is_nan (humidityStdDev (colonyBaseline L)) = true ->
        isHumidityAnomaly L h hour = false)
  /\ (forall weight previousWeight : float,
        is_nan weight = true
        \/ is_nan (weightStdDev (colonyBaseline L)) = true ->
        isWeightAnomaly L weight previousWeight = false)
  /\ (forall levels : list float,
        (forall i : nat, (i < NUM_AUDIO_BANDS)%nat ->
                         is_nan (levels !!! i) = true) ->
        isAudioAnomaly L levels = false).
Proof.
  split; [|split; [|split]].
  - intros t hour H. unfold isTemperatureAnomaly.
    assert (Hz : tempZScore L t hour = nan).
    { unfold tempZScore, expectedTemp.
      destruct H as [H|[H|[H|H]]].
      - apply fdiv_nan. left. rewrite fsub_nan; auto.
      - apply fdiv_nan. left. rewrite fsub_nan; [reflexivity|].
        right. rewrite fadd_nan; auto.
      - apply fdiv_nan. left. rewrite fsub_nan; [reflexivity|].
        right. rewrite fadd_nan; auto.
      - apply fdiv_nan. now right. }
    rewrite Hz. apply fabs_nan_not_above.
  - intros h hour H. unfold isHumidityAnomaly.
    assert (Hz : humidityZScore L h hour = nan).
    { unfold humidityZScore.
      destruct H as [H|[H|[H|H]]].
      - apply fdiv_nan. left. rewrite fsub_nan; auto.
      - apply fdiv_nan. left. rewrite fsub_nan; [reflexivity|].
        right. rewrite fadd_nan; auto.
      - apply fdiv_nan. left. rewrite fsub_nan; [reflexivity|].
        right. rewrite fadd_nan; auto.
      - apply fdiv_nan. now right. }
    rewrite Hz. apply fabs_nan_not_above.
  - intros weight previousWeight H. unfold isWeightAnomaly.
    assert (Hz : weightZScore L weight = nan).
    { unfold weightZScore. destruct H as [H|H].
      - apply fdiv_nan. left. rewrite fsub_nan; auto.
      - apply fdiv_nan. now right. }
    rewrite Hz, fabs_nan_not_above.
    destruct H as [H|H].
    + rewrite (fsub_nan weight previousWeight) by auto.
      now rewrite fabs_nan_not_above.
    + unfold fgt at 1. rewrite flt_nan_l; [reflexivity|].
      rewrite fmul_nan; auto.
  - intros levels H. unfold isAudioAnomaly.
    assert (Hz : forall i, (i < NUM_AUDIO_BANDS)%nat ->
                           audioZScore L levels i = nan).
    { intros i Hi. unfold audioZScore. apply fdiv_nan. left.
      rewrite fsub_nan; auto. }
    unfold NUM_AUDIO_BANDS in *. cbn [audioAnomalyFrom].
    rewrite !Hz by lia. now rewrite !fabs_nan_not_above.
Qed.

Lemma nan_is_never_anomalous_witness :
  isTemperatureAnomaly reset_Learning nan 13 = false.
Proof.
  apply (proj1 (nan_is_never_anomalous reset_Learning)).
  left. reflexivity.
Defined.

(** NaN is absorbing for an estimator: once a NaN sample has been added,
    or the running mean is a NaN, the mean and the sum of squares are NaN
    after every further sample; only [reset] and [setStats] end this.  The
    count still goes up by one per sample (modulo 2^32). *)
Theorem addSample_nan_is_absorbing (v : float) (r : RunningStats) :
  count_ (RunningStats.addSample v r) = (count_ r + 1) mod ULONG_MOD
  /\ (is_nan v = true \/ is_nan (mean_ r) = true ->
      mean_ (RunningStats.addSample v r) = nan
      /\ M2_ (RunningStats.addSample v r) = nan
      /\ forall vs : list float,
           mean_ (foldl (fun r x => RunningStats.addSample x r)
                    (RunningStats.addSample v r) vs) = nan).
Proof.
  split; [reflexivity|].
  assert (Hstep : forall x s,
             is_nan x = true \/ is_nan (mean_ s) = true ->
             mean_ (RunningStats.addSample x s) = nan
             /\ M2_ (RunningStats.addSample x s) = nan).
  { intros x s H. unfold RunningStats.addSample. cbn [mean_ M2_].
    assert (Hd : fsub x (mean_ s) = nan) by (apply fsub_nan; tauto).
    rewrite Hd. split.
    - apply fadd_nan. right.
      rewrite fdiv_nan; [reflexivity|left; reflexivity].
    - apply fadd_nan. right.
      rewrite fmul_nan; [reflexivity|left; reflexivity]. }
  intros H. destruct (Hstep v r H) as [Hm HM].
  split; [exact Hm|]. split; [exact HM|].
  intros vs. revert Hm. generalize (RunningStats.addSample v r).
  induction vs as [|x vs IH]; intros s Hs; [exact Hs|].
  cbn [foldl]. apply IH.
  assert (Hx : is_nan x = true \/ is_nan (mean_ s) = true)
    by (right; rewrite Hs; reflexivity).
  exact (proj1 (Hstep x s Hx)).
Qed.

Lemma addSample_nan_is_absorbing_witness :
  mean_ (RunningStats.addSample nan ten_samples) = nan.
Proof.
  assert (H : is_nan nan = true \/ is_nan (mean_ ten_samples) = true)
    by (left; reflexivity).
  exact (proj1 (proj2 (addSample_nan_is_absorbing nan ten_samples) H)).
Defined.

(** ** Between two adaptations *)

(** Once the baseline is established, a cycle changes it only when the new
    sample count is a multiple of [LEARNING_UPDATE_INTERVAL]: in every
    other cycle the baseline is exactly what it was. *)
Theorem baseline_frozen_between_adaptations (c : Cycle) (w : World) :
  baselineEstablished (eng w) = true ->
  ((learningSampleCount (eng w) + 1) mod UINT16_MOD)
    mod LEARNING_UPDATE_INTERVAL <> 0 ->
  colonyBaseline (eng (cycle c w)) = colonyBaseline (eng w)
  /\ baselineEstablished (eng (cycle c w)) = true.
Proof.
  intros He Hmod.
  destruct (feedSample_obs (c_env c) (c_audio c) (c_motion c) (c_light c)
              (c_weight c) (c_time c) (eng w)) as [He1 Hc1].
  split.
  - unfold cycle, updateLearningModel. fold (fed c w).
    unfold establish_due, fed. cbn [eng upd_eng].
    rewrite He1, He, andb_false_r.
    unfold periodicUpdates. cbn [eng upd_eng].
    rewrite He1, He, Hc1. cbn [andb].
    destruct (Z.eqb_spec
                (((learningSampleCount (eng w) + 1) mod UINT16_MOD)
                   mod LEARNING_UPDATE_INTERVAL) 0) as [H0|_];
      [contradiction|].
    cbn [eng upd_eng]. rewrite Hc1.
    destruct (_ =? 0); rewrite ?saveLearnedParameters_eng; cbn [eng];
      apply feedSample_colonyBaseline.
  - destruct (cycle_obs c w) as (_ & -> & _). now rewrite He.
Qed.

Lemma baseline_frozen_between_adaptations_witness :
  colonyBaseline (eng (cycle steady_cycle (steady_world 100 no_card)))
  = colonyBaseline (eng (steady_world 100 no_card)).
Proof.
  assert (H1 : baselineEstablished (eng (steady_world 100 no_card)) = true)
    by (vm_compute; reflexivity).
  assert (H2 : ((learningSampleCount (eng (steady_world 100 no_card)) + 1)
                  mod UINT16_MOD) mod LEARNING_UPDATE_INTERVAL <> 0)
    by (vm_compute; discriminate).
  exact (proj1 (baseline_frozen_between_adaptations steady_cycle _ H1 H2)).
Defined.

(** ** Configuration overrides and the threshold getters *)

Lemma strcasecmp_eq_refl (a : string) : strcasecmp_eq a a = true.
Proof.
  induction a as [|x a IH]; [reflexivity|].
  cbn [strcasecmp_eq]. now rewrite Ascii.eqb_refl, IH.
Qed.

Lemma strcasecmp_eq_sym (a : string) :
  forall b, strcasecmp_eq a b = strcasecmp_eq b a.
Proof.
  induction a as [|x a IH]; intros [|y b]; try reflexivity.
  cbn [strcasecmp_eq]. now rewrite Ascii.eqb_sym, IH.
Qed.

(** [getConfigValueStr] returns the value of the first stored item whose
    key equals the requested key up to ASCII case, and nothing when no
    key does; later items with the same key are never seen. *)
Theorem getConfigValueStr_first_match (k : string) :
  (forall (before after : list ConfigItem) (item : ConfigItem),
      Forall (fun it => strcasecmp_eq (key it) k = false) before ->
      strcasecmp_eq (key item) k = true ->
      getConfigValueStr (before ++ item :: after) k = Some (value item))
  /\ (forall items : list ConfigItem,
        getConfigValueStr items k = None
        <-> Forall (fun it => strcasecmp_eq (key it) k = false) items)
  /\ (forall (items : list ConfigItem) (v : string),
        getConfigValueStr (mkConfigItem k v :: items) k = Some v)
  /\ (forall k' : string, strcasecmp_eq k k' = strcasecmp_eq k' k).
Proof.
  split; [|split; [|split]].
  - intros before after item Hb Hitem.
    induction Hb as [|it before Hit Hb IH]; cbn [app getConfigValueStr].
    + now rewrite Hitem.
    + now rewrite Hit.
  - intros items. induction items as [|it items IH];
      cbn [getConfigValueStr].
    + split; [constructor|reflexivity].
    + destruct (strcasecmp_eq (key it) k) eqn:E.
      * split; [discriminate|]. intros H. inversion H. congruence.
      * rewrite IH. split; [now constructor|]. intros H. now inversion H.
  - intros items v. cbn [getConfigValueStr key value].
    now rewrite strcasecmp_eq_refl.
  - intros k'. apply strcasecmp_eq_sym.
Qed.

Lemma getConfigValueStr_first_match_witness :
  getConfigValueStr
    ([mkConfigItem "WAKE_INTERVAL_MINUTES" "5"]
     ++ mkConfigItem "temp_alert_low" "28.5"
     :: [mkConfigItem "TEMP_ALERT_LOW" "31"]) "TEMP_ALERT_LOW"
  = Some "28.5"%string.
Proof.
  assert (H1 : Forall (fun it => strcasecmp_eq (key it) "TEMP_ALERT_LOW"
                                 = false)
                 [mkConfigItem "WAKE_INTERVAL_MINUTES" "5"])
    by (constructor; [reflexivity|constructor]).
  exact (proj1 (getConfigValueStr_first_match "TEMP_ALERT_LOW")
           _ [mkConfigItem "TEMP_ALERT_LOW" "31"]
           (mkConfigItem "temp_alert_low" "28.5") H1 eq_refl).
Defined.



(** ** A NaN temperature while the baseline is being collected *)

Lemma addSample_nan_step (v : float) (r : RunningStats) :
  is_nan v = true \/ is_nan (mean_ r) = true ->
  mean_ (RunningStats.addSample v r) = nan
  /\ count_ (RunningStats.addSample v r) = (count_ r + 1) mod ULONG_MOD.
Proof.
  intros H. unfold RunningStats.addSample. cbn [mean_ count_].
  split; [|reflexivity].
  assert (Hd : fsub v (mean_ r) = nan) by (apply fsub_nan; tauto).
  rewrite Hd. apply fadd_nan. right.
  rewrite fdiv_nan; [reflexivity|left; reflexivity].
Qed.

Lemma run_from_reset_flag (L0 : Learning) (sd0 : SDCard)
    (log : list string) (cs : list Cycle) :
  baselineEstablished
    (eng (run cs (mkWorld (resetLearningSystem L0) sd0 log)))
  = (LEARNING_SAMPLES_MIN <=? Z.of_nat (length cs)).
Proof.
  destruct (run_obs cs (mkWorld (resetLearningSystem L0) sd0 log) 0
              (occurrences "Baseline established!" log))
    as (_ & He & _); [lia|reflexivity|reflexivity| |].
  { change (LEARNING_SAMPLES_MIN <=? 0) with false. cbv iota.
    now rewrite Nat.add_0_r. }
  now rewrite Z.add_0_l in He.
Qed.

Lemma feedSample_tempStats (e : EnvData) (a : list float) (m : MotionData)
    (l : LightData) (wt : float) (t : DateTime) (L : Learning) :
  tempStats (feedSample e a m l wt t L)
  = RunningStats.addSample (temperature e) (tempStats L).
Proof.
  unfold feedSample, updateDailyPattern.
  match goal with
  | |- context [dailyPatterns ?L0 !! ?i] => destruct (dailyPatterns L0 !! i)
  end; reflexivity.
Qed.

Lemma cycle_collecting_tempStats (c : Cycle) (w : World) :
  baselineEstablished (eng (cycle c w)) = false ->
  tempStats (eng (cycle c w))
  = RunningStats.addSample (temperature (c_env c)) (tempStats (eng w)).
Proof.
  intros Hfalse.
  destruct (cycle_obs c w) as (_ & He & _).
  rewrite Hfalse in He. symmetry in He.
  apply orb_false_elim in He as [He Hlt].
  unfold cycle, updateLearningModel in *.
  destruct (feedSample_obs (c_env c) (c_audio c) (c_motion c) (c_light c)
              (c_weight c) (c_time c) (eng w)) as [He1 Hc1].
  unfold establish_due. cbn [eng upd_eng].
  rewrite Hc1, Hlt. cbn [andb].
  unfold periodicUpdates. cbn [eng upd_eng].
  rewrite He1, He. cbn [andb].
  destruct (_ =? 0); rewrite ?saveLearnedParameters_eng; cbn [eng];
    apply feedSample_tempStats.
Qed.

Lemma periodicUpdates_nan_tempMean (w : World) :
  is_nan (tempMean (colonyBaseline (eng w))) = true ->
  is_nan (tempMean (colonyBaseline (eng (periodicUpdates w)))) = true.
Proof.
  intros H. unfold periodicUpdates. cbv zeta.
  set (w1 := if baselineEstablished (eng w)
                && (learningSampleCount (eng w) mod LEARNING_UPDATE_INTERVAL
                    =? 0)
             then snd (saveLearnedParameters (updateBaselineAdaptive w))
             else w).
  assert (H1 : is_nan (tempMean (colonyBaseline (eng w1))) = true).
  { unfold w1. destruct (_ && _); [|exact H].
    rewrite saveLearnedParameters_eng. unfold updateBaselineAdaptive.
    cbn [eng printBaseline println colonyBaseline set_stats
         set_colonyBaseline tempMean].
    rewrite fadd_nan; [reflexivity|]. left.
    rewrite fmul_nan; [reflexivity|]. now right. }
  destruct (learningSampleCount (eng w1) mod LEARNING_SAVE_INTERVAL =? 0);
    [rewrite saveLearnedParameters_eng|]; exact H1.
Qed.

(** One cycle on an engine that is collecting, with [n < 100] samples in
    both the counter and the temperature estimator: if the reading or the
    running mean is a NaN, the channel is poisoned afterwards. *)
Lemma cycle_poisons (c : Cycle) (w : World) :
  baselineEstablished (eng w) = false ->
  count_ (tempStats (eng w)) = learningSampleCount (eng w) ->
  0 <= learningSampleCount (eng w) < LEARNING_SAMPLES_MIN ->
  is_nan (temperature (c_env c)) = true
  \/ is_nan (mean_ (tempStats (eng w))) = true ->
  temperature_poisoned (cycle c w).
Proof.
  intros He Hcnt Hn Hnan.
  unfold LEARNING_SAMPLES_MIN in Hn.
  destruct (addSample_nan_step (temperature (c_env c)) (tempStats (eng w))
              Hnan) as [Hmean Hcount].
  destruct (cycle_obs c w) as (Hc' & He' & _).
  unfold UINT16_MOD, LEARNING_SAMPLES_MIN in Hc', He'.
  rewrite Z.mod_small in Hc', He' by lia.
  rewrite He in He'. cbn [orb] in He'.
  destruct (Z.leb_spec 100 (learningSampleCount (eng w) + 1)) as [Hge|Hlt].
  - left. split; [exact He'|].
    assert (Hdue : establish_due (eng (fed c w)) = true).
    { unfold establish_due, fed. cbn [eng upd_eng].
      destruct (feedSample_obs (c_env c) (c_audio c) (c_motion c)
                  (c_light c) (c_weight c) (c_time c) (eng w)) as [-> ->].
      unfold UINT16_MOD, LEARNING_SAMPLES_MIN.
      rewrite Z.mod_small by lia. rewrite He.
      replace (100 <=? learningSampleCount (eng w) + 1) with true
        by (symmetry; apply Z.leb_le; lia).
      reflexivity. }
    unfold cycle, updateLearningModel. fold (fed c w). rewrite Hdue.
    apply periodicUpdates_nan_tempMean.
    unfold establishBaseline. rewrite saveLearnedParameters_eng.
    unfold updateBaseline.
    cbn [eng upd_eng println printBaseline colonyBaseline
         set_baselineEstablished set_colonyBaseline tempMean fed].
    rewrite feedSample_tempStats. unfold RunningStats.mean.
    rewrite Hcount, Hcnt. unfold ULONG_MOD.
    rewrite Z.mod_small by lia.
    replace (0 <? learningSampleCount (eng w) + 1) with true
      by (symmetry; apply Z.ltb_lt; lia).
    now rewrite Hmean.
  - right. split; [exact He'|].
    rewrite (cycle_collecting_tempStats c w He'), Hmean, Hcount, Hc', Hcnt.
    unfold ULONG_MOD, LEARNING_SAMPLES_MIN.
    rewrite Z.mod_small by lia.
    split; [reflexivity|]. split; [reflexivity|lia].
Qed.

Lemma cycle_keeps_poisoned (c : Cycle) (w : World) :
  temperature_poisoned w -> temperature_poisoned (cycle c w).
Proof.
  intros [[He Hnan]|(He & Hnan & Hcnt & Hn)].
  - left. split.
    + destruct (cycle_obs c w) as (_ & -> & _). now rewrite He.
    + unfold cycle, updateLearningModel. fold (fed c w).
      assert (Hdue : establish_due (eng (fed c w)) = false).
      { unfold establish_due, fed. cbn [eng upd_eng].
        destruct (feedSample_obs (c_env c) (c_audio c) (c_motion c)
                    (c_light c) (c_weight c) (c_time c) (eng w)) as [-> _].
        rewrite He. apply andb_false_r. }
      rewrite Hdue. apply periodicUpdates_nan_tempMean.
      unfold fed. cbn [eng upd_eng].
      now rewrite feedSample_colonyBaseline.
  - apply cycle_poisons; auto. lia.
Qed.

Lemma run_keeps_poisoned (cs : list Cycle) :
  forall w : World,
    temperature_poisoned w -> temperature_poisoned (run cs w).
Proof.
  induction cs as [|c cs IH]; intros w H; [exact H|].
  rewrite run_cons. apply IH. now apply cycle_keeps_poisoned.
Qed.

Lemma run_collecting_tempStats (cs : list Cycle) :
  forall w : World,
    baselineEstablished (eng w) = false ->
    count_ (tempStats (eng w)) = learningSampleCount (eng w) ->
    0 <= learningSampleCount (eng w) ->
    learningSampleCount (eng w) + Z.of_nat (length cs)
    < LEARNING_SAMPLES_MIN ->
    baselineEstablished (eng (run cs w)) = false
    /\ count_ (tempStats (eng (run cs w)))
       = learningSampleCount (eng (run cs w))
    /\ learningSampleCount (eng (run cs w))
       = learningSampleCount (eng w) + Z.of_nat (length cs).
Proof.
  induction cs as [|c cs IH]; intros w He Hcnt Hn Hlt.
  - cbn [run foldl length Z.of_nat]. rewrite Z.add_0_r. auto.
  - rewrite run_cons. cbn [length] in *.
    destruct (cycle_obs c w) as (Hc' & He' & _).
    unfold LEARNING_SAMPLES_MIN, UINT16_MOD in *.
    rewrite Z.mod_small in Hc', He' by lia.
    rewrite He in He'. cbn [orb] in He'.
    replace (100 <=? learningSampleCount (eng w) + 1) with false in He'
      by (symmetry; apply Z.leb_gt; lia).
    destruct (IH (cycle c w)) as (H1 & H2 & H3); trivial; try lia.
    { rewrite (cycle_collecting_tempStats c w He'), Hc'.
      cbn [RunningStats.addSample count_]. rewrite Hcnt.
      unfold ULONG_MOD. apply Z.mod_small. lia. }
    split; [exact H1|]. split; [exact H2|]. lia.
Qed.

(** A single NaN temperature reading among the first
    [LEARNING_SAMPLES_MIN] cycles after a reset makes the established
    baseline's temperature mean a NaN for the rest of the run, however
    many valid readings follow; from the moment the baseline is
    established, [isTemperatureAnomaly] is false for every reading. *)
Theorem nan_while_collecting_silences_temperature (L0 : Learning)
    (sd0 : SDCard) (log : list string) (cs1 cs2 : list Cycle) (c : Cycle) :
  is_nan (temperature (c_env c)) = true ->
  (length cs1 < 100)%nat ->
  (100 <= length (cs1 ++ c :: cs2))%nat ->
  let w := run (cs1 ++ c :: cs2) (mkWorld (resetLearningSystem L0) sd0 log) in
  isBaselineEstablished w = true
  /\ is_nan (tempMean (colonyBaseline (eng w))) = true
  /\ forall (t : float) (hour : Z), isTemperatureAnomaly (eng w) t hour = false.
Proof.
  intros Hnan Hlen1 Hlen w.
  set (w0 := mkWorld (resetLearningSystem L0) sd0 log) in *.
  assert (Hrun : w = run cs2 (cycle c (run cs1 w0))).
  { unfold w, run. now rewrite foldl_app. }
  destruct (run_collecting_tempStats cs1 w0) as (H1 & H2 & H3);
    try reflexivity; [unfold LEARNING_SAMPLES_MIN; cbn; lia|].
  cbn [w0 eng resetLearningSystem learningSampleCount] in H3.
  assert (Hp : temperature_poisoned w).
  { rewrite Hrun. apply run_keeps_poisoned. apply cycle_poisons; auto.
    rewrite H3. unfold LEARNING_SAMPLES_MIN. lia. }
  pose proof (run_from_reset_flag L0 sd0 log
                (cs1 ++ c :: cs2)) as Hflag.
  fold w0 in Hflag. fold w in Hflag.
  assert (He : baselineEstablished (eng w) = true).
  { rewrite Hflag. apply Z.leb_le. unfold LEARNING_SAMPLES_MIN. lia. }
  destruct Hp as [[_ Hm]|[Hf _]]; [|congruence].
  split; [exact He|]. split; [exact Hm|].
  intros t hour. unfold isTemperatureAnomaly.
  assert (Hz : tempZScore (eng w) t hour = nan).
  { unfold tempZScore, expectedTemp. apply fdiv_nan. left.
    rewrite fsub_nan; [reflexivity|]. right.
    rewrite fadd_nan; [reflexivity|now left]. }
  rewrite Hz. apply fabs_nan_not_above.
Qed.

Lemma nan_while_collecting_silences_temperature_witness :
  isTemperatureAnomaly
    (eng (run ([] ++ mkCycle (mkEnvData nan f60 f1013_25)
                       [f0_5; f0_5; f0_5; f0_5] (mkMotionData f0 f0 f1)
                       (mkLightData 3) f10 (mkDateTime 13 6)
               :: replicate 99 steady_cycle)
            (mkWorld (resetLearningSystem initial_Learning) no_card [])))
    (of_int 60) 13
  = false.
Proof.
  assert (H1 : is_nan (temperature
                         (c_env (mkCycle (mkEnvData nan f60 f1013_25)
                                   [f0_5; f0_5; f0_5; f0_5]
                                   (mkMotionData f0 f0 f1) (mkLightData 3)
                                   f10 (mkDateTime 13 6)))) = true)
    by reflexivity.
  assert (H2 : (length (@nil Cycle) < 100)%nat) by (cbn; lia).
  assert (H3 : (100 <= length ([] ++ mkCycle (mkEnvData nan f60 f1013_25)
                                   [f0_5; f0_5; f0_5; f0_5]
                                   (mkMotionData f0 f0 f1) (mkLightData 3)
                                   f10 (mkDateTime 13 6)
                                :: replicate 99 steady_cycle))%nat)
    by (vm_compute; lia).
  exact (proj2 (proj2 (nan_while_collecting_silences_temperature
                         initial_Learning no_card [] [] _ _ H1 H2 H3))
           (of_int 60) 13).
Defined.
